(** * Excel consolidator: the per-file cleaning pipeline

    A shallow embedding of the two cleaning routines of the repository,
    [process_file] of [consolidate_any.py] (batch mode) and
    [clean_and_prepare_df] of [streamlit_app.py] (interactive mode), with the
    upload handler and the processing loop of the interactive application and
    the consolidation step of the batch one.

    A DataFrame is a list of named, dtype-tagged columns over a list of rows;
    a cell is a missing marker, a Python [str], a number or a [Timestamp].

    What the model takes from outside the repository:
    - strings are byte strings holding UTF-8; white space is the white space
      of [str.isspace], ASCII and beyond; case mapping covers the ASCII
      letters (and the Latin-1 capitals for [lower]), which is all that the
      comparison with "N/A" and the keywords of the type heuristic can see;
    - numbers are integers. A sheet whose numbers pandas reads as floats
      (decimals, or a number column with a blank when the reader infers the
      dtype) is outside the model, and so are boolean cells. [Num n] is read
      as a Python int where it is printed; the floats [pd.to_numeric] makes
      are never printed by the routines;
    - [pd.read_excel] is the value it returns, a frame or an exception, and
      column labels are distinct strings, as the reader makes them;
    - [pd.to_numeric] and [pd.to_datetime] work on a whole column: what a
      cell becomes depends on the dtype of its column and, for dates, on the
      other cells of the column. The parsers behind them are a parameter,
      [Parsers]; with [errors='coerce'] they do not raise on the cells of the
      model;
    - pandas behaves as the 1.4 to 2.x releases do: [applymap] exists,
      [astype(str)] prints missing markers, [replace("nan", None)] puts None,
      [pd.to_datetime] returns an object column for dates with different UTC
      offsets;
    - [os.path.basename] is the one of [posixpath]. *)

From Stdlib Require Import ZArith String Ascii Bool Lia.
From Stdlib Require Import Numbers.DecimalString.
From stdpp Require Import base list strings gmap.

Open Scope string_scope.
Open Scope list_scope.

(** ** Python strings *)

Module PyStr.

(** [str.isspace] on the ASCII range: TAB..CR, FS..US and the space. *)
Definition is_space (c : ascii) : bool :=
  let n := nat_of_ascii c in
  ((9 <=? n)%nat && (n <=? 13)%nat) || ((28 <=? n)%nat && (n <=? 32)%nat).

Definition of_bytes (l : list nat) : string :=
  fold_right (fun n s => String (ascii_of_nat n) s) EmptyString l.

(** The UTF-8 encodings of the other characters of [str.isspace]: U+0085,
    U+00A0, U+1680, U+2000..U+200A, U+2028, U+2029, U+202F, U+205F, U+3000. *)
Definition unicode_spaces : list string :=
  map of_bytes
    [[194; 133]; [194; 160]; [225; 154; 128];
     [226; 128; 128]; [226; 128; 129]; [226; 128; 130]; [226; 128; 131];
     [226; 128; 132]; [226; 128; 133]; [226; 128; 134]; [226; 128; 135];
     [226; 128; 136]; [226; 128; 137]; [226; 128; 138];
     [226; 128; 168]; [226; 128; 169]; [226; 128; 175]; [226; 129; 159];
     [227; 128; 128]].

(** A continuation byte of UTF-8, 10xxxxxx. *)
Definition is_continuation (c : ascii) : bool :=
  let n := nat_of_ascii c in (128 <=? n)%nat && (n <=? 191)%nat.

(** The characters of a string: every byte with the continuation bytes that
    follow it. *)
Fixpoint chars (s : string) : list string :=
  match s with
  | EmptyString => []
  | String c s' =>
      match chars s' with
      | String c' ch :: rest =>
          if is_continuation c' then String c (String c' ch) :: rest
          else String c EmptyString :: String c' ch :: rest
      | rest => String c EmptyString :: rest
      end
  end.

(** [ch.isspace()] for one character. *)
Definition is_space_char (ch : string) : bool :=
  match ch with
  | String c EmptyString => is_space c
  | _ => bool_decide (ch ∈ unicode_spaces)
  end.

Fixpoint drop_spaces (l : list string) : list string :=
  match l with
  | ch :: l' => if is_space_char ch then drop_spaces l' else l
  | [] => []
  end.

Definition lstrip (s : string) : string :=
  String.concat EmptyString (drop_spaces (chars s)).

Definition rstrip (s : string) : string :=
  String.concat EmptyString (rev (drop_spaces (rev (chars s)))).

(** [s.strip()] *)
Definition strip (s : string) : string := rstrip (lstrip s).

Definition upper_char (c : ascii) : ascii :=
  let n := nat_of_ascii c in
  if ((97 <=? n)%nat && (n <=? 122)%nat) then ascii_of_nat (n - 32) else c.

Definition lower_char (c : ascii) : ascii :=
  let n := nat_of_ascii c in
  if ((65 <=? n)%nat && (n <=? 90)%nat) then ascii_of_nat (n + 32) else c.

(** [s.upper()]: the ASCII letters; bytes of other code points are kept. *)
Fixpoint upper (s : string) : string :=
  match s with
  | EmptyString => EmptyString
  | String c s' => String (upper_char c) (upper s')
  end.

(** The second byte of a two-byte UTF-8 sequence led by 0xC3 encodes one of
    U+00C0..U+00FF; the capitals U+00C0..U+00DE (U+00D7 apart) have their
    small letter 32 code points further. *)
Definition latin1_capital (c : ascii) : bool :=
  let n := nat_of_ascii c in
  (128 <=? n)%nat && (n <=? 158)%nat && negb (n =? 151)%nat.

(** [s.lower()]: the ASCII letters and the Latin-1 capitals; bytes of other
    code points are kept. [lead] tells that the previous byte was 0xC3. *)
Fixpoint lower_from (lead : bool) (s : string) : string :=
  match s with
  | EmptyString => EmptyString
  | String c s' =>
      let c' :=
        if lead && latin1_capital c then ascii_of_nat (nat_of_ascii c + 32)
        else lower_char c in
      String c' (lower_from (nat_of_ascii c =? 195)%nat s')
  end.

Definition lower (s : string) : string := lower_from false s.

(** [kw in s] *)
Fixpoint contains (kw s : string) : bool :=
  String.prefix kw s ||
  match s with
  | EmptyString => false
  | String _ s' => contains kw s'
  end.

(** [s.endswith(suffix)] *)
Definition endswith (s suffix : string) : bool :=
  let n := String.length s in
  let k := String.length suffix in
  (k <=? n)%nat && String.eqb (String.substring (n - k) k s) suffix.

(** [s.rfind(c)], -1 when [c] does not occur. *)
Fixpoint rfind (c : ascii) (s : string) : Z :=
  match s with
  | EmptyString => (-1)%Z
  | String a s' =>
      let r := rfind c s' in
      if (0 <=? r)%Z then (r + 1)%Z
      else if Ascii.eqb a c then 0%Z else (-1)%Z
  end.

(** [s[i:]] *)
Fixpoint slice_from (i : nat) (s : string) : string :=
  match i, s with
  | O, _ => s
  | S _, EmptyString => EmptyString
  | S i', String _ s' => slice_from i' s'
  end.

(** [os.path.basename] of [posixpath]: [p[p.rfind('/') + 1:]]. *)
Definition basename (p : string) : string :=
  slice_from (Z.to_nat (rfind "/"%char p + 1)) p.

(** [str(n)] for an integer. *)
Definition of_Z (n : Z) : string := NilZero.string_of_int (Z.to_int n).

Definition digit (n : nat) : ascii := ascii_of_nat (48 + n mod 10).

Definition pad2 (n : nat) : string :=
  String (digit (n / 10)) (String (digit n) EmptyString).

Definition pad4 (n : nat) : string :=
  String (digit (n / 1000)) (String (digit (n / 100)) (pad2 n)).

End PyStr.

(** ** Cells *)

(** The four missing markers pandas tells apart when it prints them. *)
Inductive na_kind := PyNone | NaN | NaT | PdNA.

Record Timestamp := mkTs {
  ts_year : nat; ts_month : nat; ts_day : nat;
  ts_hour : nat; ts_minute : nat; ts_second : nat
}.

(** A cell: a missing marker, a Python [str], an integer (an [int] or an
    int64 element) or a [Timestamp] (a [datetime] or a datetime64 element). *)
Inductive cell :=
| NA (k : na_kind)
| Str (s : string)
| Num (n : Z)
| Ts (t : Timestamp).

#[global] Instance na_kind_eq_dec : EqDecision na_kind.
Proof. solve_decision. Defined.
#[global] Instance Timestamp_eq_dec : EqDecision Timestamp.
Proof. solve_decision. Defined.
#[global] Instance cell_eq_dec : EqDecision cell.
Proof. solve_decision. Defined.

(** Column Type of the interactive type map: "Text", "Numeric", "Date". *)
Inductive ColumnType := Text | Numeric | Date.

#[global] Instance ColumnType_eq_dec : EqDecision ColumnType.
Proof. solve_decision. Defined.

Inductive dtype := DObject | DNumber | DDatetime.

#[global] Instance dtype_eq_dec : EqDecision dtype.
Proof. solve_decision. Defined.

(** The parsers of pandas, which the repository calls and does not define:
    a string as a number ([pd.to_numeric]); an element of a column as a date
    ([pd.to_datetime]), where the whole column is given too, since the format
    pandas reads an element by can depend on its neighbours (a number is a
    count of nanoseconds in a column of numbers, and no date next to a date
    text); and whether the dates of a column have different UTC offsets, in
    which case [pd.to_datetime] returns an object column. [None] is a parse
    failure. *)
Record Parsers := {
  parse_number : string -> option Z;
  parse_datetime : list cell -> cell -> option Timestamp;
  mixed_offsets : list cell -> bool
}.

Module Pd.

(** [pd.isna(x)] on a scalar. *)
Definition isna (x : cell) : bool :=
  match x with NA _ => true | _ => false end.

Definition isinstance_str (x : cell) : bool :=
  match x with Str _ => true | _ => false end.

(** [str(x)] of a missing marker. *)
Definition na_str (k : na_kind) : string :=
  match k with
  | PyNone => "None"
  | NaN => "nan"
  | NaT => "NaT"
  | PdNA => "<NA>"
  end.

(** [t.strftime('%Y-%m-%d')] *)
Definition strftime_ymd (t : Timestamp) : string :=
  PyStr.pad4 (ts_year t) +:+ "-" +:+ PyStr.pad2 (ts_month t) +:+ "-" +:+
  PyStr.pad2 (ts_day t).

(** [str(t)] *)
Definition timestamp_str (t : Timestamp) : string :=
  strftime_ymd t +:+ " " +:+ PyStr.pad2 (ts_hour t) +:+ ":" +:+
  PyStr.pad2 (ts_minute t) +:+ ":" +:+ PyStr.pad2 (ts_second t).

(** One element of [series.astype(str)]: missing markers are printed too. *)
Definition astype_str (x : cell) : cell :=
  match x with
  | NA k => Str (na_str k)
  | Str s => Str s
  | Num n => Str (PyStr.of_Z n)
  | Ts t => Str (timestamp_str t)
  end.

(** One element of [series.replace(d)] for a dict [d] with string keys. *)
Definition replace (d : gmap string cell) (x : cell) : cell :=
  match x with
  | Str s => match d !! s with Some v => v | None => x end
  | _ => x
  end.

(** One element of [series.dt.strftime('%Y-%m-%d')]: NaT gives NaN. *)
Definition dt_strftime (x : cell) : cell :=
  match x with
  | Ts t => Str (strftime_ymd t)
  | NA _ => NA NaN
  | _ => x
  end.

(** [series.dt] raises AttributeError unless the series has a datetime
    dtype. *)
Definition dt_raises (d : dtype) : bool := negb (bool_decide (d = DDatetime)).

(** The days from 1970-01-01 to a date of the proleptic Gregorian
    calendar. *)
Definition days_from_civil (y m d : Z) : Z :=
  let y := if (m <=? 2)%Z then (y - 1)%Z else y in
  let era := (y / 400)%Z in
  let yoe := (y - era * 400)%Z in
  let doy := ((153 * ((m + 9) mod 12) + 2) / 5 + d - 1)%Z in
  let doe := (yoe * 365 + yoe / 4 - yoe / 100 + doy)%Z in
  (era * 146097 + doe - 719468)%Z.

(** [t.value]: the nanoseconds since 1970-01-01, which is what a
    datetime64 element is when it is viewed as int64. *)
Definition timestamp_value (t : Timestamp) : Z :=
  let days := days_from_civil (Z.of_nat (ts_year t)) (Z.of_nat (ts_month t))
                              (Z.of_nat (ts_day t)) in
  let seconds := (days * 86400 + Z.of_nat (ts_hour t) * 3600
                  + Z.of_nat (ts_minute t) * 60 + Z.of_nat (ts_second t))%Z in
  (seconds * 1000000000)%Z.

(** NaT viewed as int64. *)
Definition iNaT : Z := (-9223372036854775808)%Z.

Section Coerce.
Context (P : Parsers).

(** The number an element holds for [pd.to_numeric], if any, in a column of
    dtype [d]: a datetime64 column is viewed as int64, a number is kept, a
    string is parsed, and nothing else in an object column is a number. *)
Definition numeric_value (d : dtype) (x : cell) : option Z :=
  match d, x with
  | DDatetime, Ts t => Some (timestamp_value t)
  | DDatetime, NA _ => Some iNaT
  | _, Num n => Some n
  | _, Str s => parse_number P s
  | _, _ => None
  end.

(** One element of [pd.to_numeric(series, errors='coerce')]. *)
Definition to_numeric (d : dtype) (x : cell) : cell :=
  match numeric_value d x with
  | Some n => Num n
  | None => NA NaN
  end.

(** The date an element holds for [pd.to_datetime], if any, in the column
    [cells]: a null holds none. *)
Definition datetime_value (cells : list cell) (x : cell) : option Timestamp :=
  if isna x then None else parse_datetime P cells x.

(** One element of [pd.to_datetime(series, errors='coerce')] for a series
    of dtype [d] with the elements [cells]: a datetime64 series is returned
    as it is. *)
Definition to_datetime (d : dtype) (cells : list cell) (x : cell) : cell :=
  if decide (d = DDatetime) then x
  else match datetime_value cells x with
       | Some t => Ts t
       | None => NA NaT
       end.

(** The dtype of [pd.to_datetime(series, errors='coerce')]. *)
Definition to_datetime_dtype (d : dtype) (cells : list cell) : dtype :=
  if decide (d = DDatetime) then DDatetime
  else if mixed_offsets P cells then DObject else DDatetime.

End Coerce.

End Pd.

(** ** DataFrames *)

Record DataFrame := mkDF {
  df_columns : list (string * dtype);
  df_rows : list (list cell)
}.

Module DF.

(** [list(df.columns)] *)
Definition names (df : DataFrame) : list string := (df_columns df).*1.

(** [df.empty]: one of the two axes has length 0. *)
Definition empty (df : DataFrame) : bool :=
  match df_columns df, df_rows df with
  | [], _ | _, [] => true
  | _, _ => false
  end.

(** Every row has one cell per column. *)
Definition rectangular (df : DataFrame) : Prop :=
  Forall (fun r => length r = length (df_columns df)) (df_rows df).

(** [df.iloc[:k]] *)
Definition iloc_to (k : nat) (df : DataFrame) : DataFrame :=
  {| df_columns := df_columns df; df_rows := take k (df_rows df) |}.

Definition column_cells (j : nat) (rows : list (list cell)) : list cell :=
  omap (fun r : list cell => r !! j) rows.

Definition is_num (x : cell) : bool := match x with Num _ => true | _ => false end.
Definition is_ts (x : cell) : bool := match x with Ts _ => true | _ => false end.

(** The dtype pandas infers for a column of results: numbers only give a
    number dtype, Timestamps only a datetime dtype, anything else (a string,
    a [pd.NA], a mix, no row at all) the object dtype. *)
Definition infer_dtype (cells : list cell) : dtype :=
  match cells with
  | [] => DObject
  | _ => if forallb is_num cells then DNumber
         else if forallb is_ts cells then DDatetime
         else DObject
  end.

(** [df.applymap(f)] *)
Definition applymap (f : cell -> cell) (df : DataFrame) : DataFrame :=
  let rows := map (map f) (df_rows df) in
  {| df_columns := imap (fun j c => (c.1, infer_dtype (column_cells j rows))) (df_columns df);
     df_rows := rows |}.

Fixpoint apply_row (fs : list (cell -> cell)) (r : list cell) : list cell :=
  match fs, r with
  | f :: fs', x :: r' => f x :: apply_row fs' r'
  | _, _ => r
  end.

(** [df[col] = conv(df[col])] for every column, where the conversion and the
    dtype of its result are chosen from the column's name and dtype. *)
Definition convert_columns (conv : string -> dtype -> (cell -> cell) * dtype)
    (df : DataFrame) : DataFrame :=
  {| df_columns := map (fun c => (c.1, (conv c.1 c.2).2)) (df_columns df);
     df_rows := map (apply_row (map (fun c => (conv c.1 c.2).1) (df_columns df)))
                    (df_rows df) |}.

(** The same for a conversion that looks at the whole column: it is chosen
    from the column's name, dtype and elements. *)
Definition convert_series (conv : string -> dtype -> list cell -> (cell -> cell) * dtype)
    (df : DataFrame) : DataFrame :=
  let cs := imap (fun j c => (c.1, conv c.1 c.2 (column_cells j (df_rows df)))) (df_columns df) in
  {| df_columns := map (fun c => (c.1, c.2.2)) cs;
     df_rows := map (apply_row (map (fun c => c.2.1) cs)) (df_rows df) |}.

(** The same for a conversion that can raise, [None]: the frame is converted
    when no column raises, an unconverted column being left as it is. *)
Definition try_convert_series
    (conv : string -> dtype -> list cell -> option ((cell -> cell) * dtype))
    (df : DataFrame) : option DataFrame :=
  if forallb (fun r : option ((cell -> cell) * dtype) => bool_decide (is_Some r))
             (imap (fun j c => conv c.1 c.2 (column_cells j (df_rows df))) (df_columns df))
  then Some (convert_series (fun n d cells => default (id, d) (conv n d cells)) df)
  else None.

Definition index_of (name : string) (l : list string) : option nat :=
  fst <$> list_find (fun n => n = name) l.

(** [df[name] = v] for a scalar [v]: an existing column of that name is
    overwritten where it stands, otherwise the column is added last. *)
Definition assign_scalar (name : string) (v : cell) (d : dtype) (df : DataFrame) : DataFrame :=
  match index_of name (names df) with
  | Some j =>
      {| df_columns := <[j := (name, d)]> (df_columns df);
         df_rows := map (fun r => <[j := v]> r) (df_rows df) |}
  | None =>
      {| df_columns := df_columns df ++ [(name, d)];
         df_rows := map (fun r => r ++ [v]) (df_rows df) |}
  end.

(** The cell of a row under the column called [name]. *)
Definition cell_at (df : DataFrame) (r : list cell) (name : string) : option cell :=
  j ← index_of name (names df); r !! j.

(** The cells of a row that stand in columns of dtype [d]: a row of
    [df.select_dtypes(include=[d])]. *)
Definition select_dtype (d : dtype) (cols : list (string * dtype)) (r : list cell) : list cell :=
  (filter (fun cx : (string * dtype) * cell => cx.1.2 = d) (zip cols r)).*2.

(** [mask.to_numpy().nonzero()[0]], counting from [i]. *)
Fixpoint nonzero_from (i : nat) (m : list bool) : list nat :=
  match m with
  | [] => []
  | b :: m' => (if b then [i] else []) ++ nonzero_from (S i) m'
  end.

Definition nonzero (m : list bool) : list nat := nonzero_from 0 m.

(** [frame.all(axis=1)] on one row, and [series.all()]. *)
Definition all (m : list bool) : bool := forallb id m.

End DF.

(** ** Missing detection

    The lambda both cleaning routines hand to [applymap]:
    [pd.NA if (pd.isna(x) or (isinstance(x, str) and (x.strip() == '' or
    x.strip().upper() == "N/A"))) else x]. *)
Definition detect_missing (x : cell) : cell :=
  if Pd.isna x ||
     match x with
     | Str s => String.eqb (PyStr.strip s) EmptyString
                || String.eqb (PyStr.upper (PyStr.strip s)) "N/A"
     | _ => false
     end
  then NA PdNA else x.

(** What [pd.read_excel] makes of a file: an exception or a frame. *)
Inductive read_result :=
| ReadError
| ReadOk (df : DataFrame).

(** ** Interactive mode: [clean_and_prepare_df] *)

Module Interactive.

Definition unmapped_na : gmap string cell :=
  list_to_map [("nan", NA PdNA); ("<NA>", NA PdNA)].

Definition text_na : gmap string cell :=
  list_to_map [("nan", NA PdNA); ("<NA>", NA PdNA); (EmptyString, NA PdNA)].

Definition date_na : gmap string cell :=
  list_to_map [("<NA>", NA PdNA); ("NaT", NA PdNA); (EmptyString, NA PdNA)].

Section Clean.
Context (P : Parsers).

(** Step 2, the body of the loop over [df.columns], for a column of dtype
    [d] with the elements [cells]. *)
Definition apply_type (column_type_map : gmap string ColumnType)
    (col_name : string) (d : dtype) (cells : list cell) : (cell -> cell) * dtype :=
  match column_type_map !! col_name with
  | None => (fun x => Pd.replace unmapped_na (Pd.astype_str x), DObject)
  | Some Date => (Pd.to_datetime P d cells, Pd.to_datetime_dtype P d cells)
  | Some Numeric => (Pd.to_numeric P d, DNumber)
  | Some Text => (fun x => Pd.replace text_na (Pd.astype_str x), DObject)
  end.

(** [df.isna().all(axis=1)] on one row. *)
Definition row_all_na (r : list cell) : bool := DF.all (map Pd.isna r).

(** Step 3, removal of the trailing empty rows. *)
Definition trim (df : DataFrame) : DataFrame :=
  if negb (DF.empty df) then
    let all_empty_mask_rows := map row_all_na (df_rows df) in
    if DF.all all_empty_mask_rows then DF.iloc_to 0 df
    else
      let non_empty_idx := DF.nonzero (map negb all_empty_mask_rows) in
      match last non_empty_idx with
      | Some last_valid_idx => DF.iloc_to (last_valid_idx + 1) df
      | None => df
      end
  else df.

(** Step 4, the body of the loop over [df.columns]. *)
Definition final_format (column_type_map : gmap string ColumnType)
    (col_name : string) (d : dtype) : (cell -> cell) * dtype :=
  if decide (col_name = "Source_File") then (id, d)
  else
    match column_type_map !! col_name with
    | Some Date =>
        if decide (d = DDatetime)
        then (fun x => Pd.replace date_na (Pd.dt_strftime x), DObject)
        else (Pd.replace date_na, d)
    | _ => (id, d)
    end.

(** The routine. None of its lines raises on the cells of the model: the
    [dt] accessor, which raises on a column that is not datetime-like, is
    reached only under the dtype test of line 82 ([final_format]). *)
Definition clean_and_prepare_df (df_input : DataFrame) (source_file_name : string)
    (column_type_map : gmap string ColumnType) : DataFrame :=
  let df := DF.applymap detect_missing df_input in
  let df := DF.convert_series (apply_type column_type_map) df in
  let df := trim df in
  let df := DF.assign_scalar "Source_File" (Str (PyStr.basename source_file_name)) DObject df in
  DF.convert_columns (final_format column_type_map) df.

(** What the routine does to one cell of the column [col_name], whose dtype
    after the detection is [d] and whose elements are then [cells]: missing
    detection, then the coercion of step 2, then the formatting of step 4. *)
Definition normalize (column_type_map : gmap string ColumnType)
    (col_name : string) (d : dtype) (cells : list cell) (x : cell) : cell :=
  let step2 := apply_type column_type_map col_name d cells in
  (final_format column_type_map col_name step2.2).1 (step2.1 (detect_missing x)).

End Clean.

End Interactive.

(** ** Batch mode: [process_file] *)

Module Batch.

Definition nl : string := String "010"%char EmptyString.

Definition date_cols : list string :=
  ["Date" +:+ nl +:+ "Facture"; "Date échéance"].

Definition numeric_cols : list string :=
  ["Code Centre"; "Code Client"; "Qtés facturées";
   "Prix unitaire" +:+ nl +:+ "en euros HT";
   "Total" +:+ nl +:+ "en euros HT";
   "TAUX TVA";
   "Montant TVA" +:+ nl +:+ "par article"].

(** [df[num_cols] == 0] on one cell. *)
Definition eq_zero (x : cell) : bool :=
  match x with Num n => (n =? 0)%Z | _ => false end.

(** One row of [obj_empty_mask] and of [num_empty_mask]. *)
Definition obj_empty_row (cols : list (string * dtype)) (r : list cell) : list bool :=
  map Pd.isna (DF.select_dtype DObject cols r).

Definition num_empty_row (cols : list (string * dtype)) (r : list cell) : list bool :=
  map (fun x => Pd.isna x || eq_zero x) (DF.select_dtype DNumber cols r).

Definition select_columns (d : dtype) (cols : list (string * dtype)) : list string :=
  (filter (fun c : string * dtype => c.2 = d) cols).*1.

Definition all_empty_mask (df : DataFrame) : list bool :=
  let cols := df_columns df in
  let obj_cols := select_columns DObject cols in
  let num_cols := select_columns DNumber cols in
  let obj_empty_mask :=
    if (0 <? length obj_cols)%nat then Some (map (obj_empty_row cols) (df_rows df)) else None in
  let num_empty_mask :=
    if (0 <? length num_cols)%nat then Some (map (num_empty_row cols) (df_rows df)) else None in
  match obj_empty_mask, num_empty_mask with
  | Some o, Some n => zip_with andb (map DF.all o) (map DF.all n)
  | Some o, None => map DF.all o
  | None, Some n => map DF.all n
  | None, None => replicate (length (df_rows df)) true
  end.

(** Removal of the trailing rows, lines 30 to 51 of the source. *)
Definition trim (df : DataFrame) : DataFrame :=
  let non_empty_idx := DF.nonzero (map negb (all_empty_mask df)) in
  match last non_empty_idx with
  | Some last_valid_idx => DF.iloc_to (last_valid_idx + 1) df
  | None => df
  end.

(** [if col in df.columns: df[col] = f(df[col])] for each [col] of [cols]. *)
Definition convert_named {R : Type} (cols : list string) (f : dtype -> list cell -> R)
    (other : dtype -> R) (col_name : string) (d : dtype) (cells : list cell) : R :=
  if decide (col_name ∈ cols) then f d cells else other d.

(** [df[col] = df[col].astype(str)] for each object column. *)
Definition stringify_objects (col_name : string) (d : dtype) : (cell -> cell) * dtype :=
  if decide (d = DObject) then (Pd.astype_str, DObject) else (id, d).

Section Clean.
Context (P : Parsers).

(** [pd.to_datetime(df[date_col], errors='coerce').dt.strftime('%Y-%m-%d')]:
    the accessor raises when the conversion gave an object column. *)
Definition format_date (d : dtype) (cells : list cell) : option ((cell -> cell) * dtype) :=
  if Pd.dt_raises (Pd.to_datetime_dtype P d cells) then None
  else Some (fun x => Pd.dt_strftime (Pd.to_datetime P d cells x), DObject).

(** [pd.to_numeric(df[col], errors='coerce')] *)
Definition coerce_number (d : dtype) (cells : list cell) : (cell -> cell) * dtype :=
  (Pd.to_numeric P d, DNumber).

(** Lines 23 to 55: the detection, the removal of the trailing rows and the
    provenance column. *)
Definition prepare (file : string) (df : DataFrame) : DataFrame :=
  let df := DF.applymap detect_missing df in
  let df := trim df in
  let file_name := PyStr.basename file in
  DF.assign_scalar "Source_File" (Str file_name) DObject df.

(** The body of [process_file]. An exception raised in it is caught by the
    [except] clause, which returns [None]: the read can raise, and so can
    the [dt] accessor of the date loop. *)
Definition process_file (file : string) (content : read_result) : option DataFrame :=
  if PyStr.endswith file ".xlsb" || PyStr.endswith file ".xlsx" then
    match content with
    | ReadError => None
    | ReadOk df =>
        let df := prepare file df in
        df ← DF.try_convert_series
                (convert_named date_cols format_date (fun d => Some (id, d))) df;
        let df := DF.convert_series
                    (convert_named numeric_cols coerce_number (fun d => (id, d))) df in
        let df := DF.convert_columns stringify_objects df in
        Some df
    end
  else None.

End Clean.

End Batch.

(** ** Concatenation and the database table *)

Module Table.

(** The column names of [pd.concat(dfs)], in order of first appearance. *)
Definition union_names (dfs : list DataFrame) : list string :=
  foldl (fun acc n => if decide (n ∈ acc) then acc else acc ++ [n]) []
        (mjoin (map DF.names dfs)).

Definition reindex (names : list string) (df : DataFrame) : list (list cell) :=
  map (fun r => map (fun n => default (NA NaN) (DF.cell_at df r n)) names) (df_rows df).

Definition dtype_of (n : string) (df : DataFrame) : option dtype :=
  j ← DF.index_of n (DF.names df); snd <$> df_columns df !! j.

Definition concat_dtype (dfs : list DataFrame) (n : string) : dtype :=
  match omap (dtype_of n) dfs with
  | [] => DObject
  | d :: ds => if forallb (fun d' => bool_decide (d' = d)) ds then d else DObject
  end.

(** [pd.concat(dfs, ignore_index=True)] for a list that is not empty. *)
Definition concat (dfs : list DataFrame) : DataFrame :=
  let names := union_names dfs in
  {| df_columns := map (fun n => (n, concat_dtype dfs n)) names;
     df_rows := mjoin (map (reindex names) dfs) |}.

(** A value of the SQLite table [DATA]: a null, a number (stored as INTEGER
    or REAL, as pandas holds it) or a text. *)
Inductive sql_value :=
| Null
| Number (n : Z)
| SqlText (s : string).

(** What [to_sql] stores for a cell. *)
Definition to_sql_cell (x : cell) : sql_value :=
  match x with
  | NA _ => Null
  | Num n => Number n
  | Str s => SqlText s
  | Ts t => SqlText (Pd.timestamp_str t)
  end.

Definition to_sql (df : DataFrame) : list string * list (list sql_value) :=
  (DF.names df, map (map to_sql_cell) (df_rows df)).

End Table.

(** ** Batch mode: [process_files] after the pool has returned *)

Module BatchRun.

(** [final_df.replace("nan", None)] and [final_df.where(pd.notnull(final_df), None)]
    on one cell. *)
Definition standardize_null (x : cell) : cell :=
  let x := match x with
           | Str s => if String.eqb s "nan" then NA PyNone else x
           | _ => x
           end in
  if Pd.isna x then NA PyNone else x.

(** The two loops that print dates: [dt.strftime] on the datetime columns,
    and [strftime] on the Timestamps of the object columns. *)
Definition dates_to_string (col_name : string) (d : dtype) : (cell -> cell) * dtype :=
  if decide (d = DDatetime) then (Pd.dt_strftime, DObject)
  else if decide (d = DObject)
       then (fun x => match x with Ts t => Str (Pd.strftime_ymd t) | _ => x end, DObject)
       else (id, d).

Section Run.
Context (P : Parsers).

(** The frame handed to [to_sql], [None] when no file gave a frame. *)
Definition final_df (excel_files : list (string * read_result)) : option DataFrame :=
  let results := map (fun f => Batch.process_file P f.1 f.2) excel_files in
  let dfs := omap id results in
  match dfs with
  | [] => None
  | _ =>
      let final_df := Table.concat dfs in
      let final_df := DF.convert_columns (fun _ d => (standardize_null, d)) final_df in
      Some (DF.convert_columns dates_to_string final_df)
  end.

End Run.

End BatchRun.

(** ** Interactive mode: upload handling and the processing loop *)

Module App.

Record UploadedFile := mkFile {
  uf_name : string;
  uf_content : read_result
}.

Inductive message :=
| InfoEmpty (file_name : string)
| WarnUnreadable (file_name : string)
| WarnMismatch (file_name : string) (expected found : list string)
| ErrorProcessing (file_name : string).

Definition date_keywords : list string :=
  ["date"; "facture"; "échéance"; "dt"; "time"].

Definition numeric_keywords : list string :=
  ["code"; "montant"; "prix"; "qté"; "taux"; "total"; "num"; "id"; "valeur";
   "quantity"; "amount"; "sum"; "count"].

(** The type suggested for a column of the first file. *)
Definition suggested_type (col : string) : ColumnType :=
  let col_lower := PyStr.lower col in
  if existsb (fun kw => PyStr.contains kw col_lower) date_keywords then Date
  else if existsb (fun kw => PyStr.contains kw col_lower) numeric_keywords then Numeric
  else Text.

(** [temp_types], filled column after column. *)
Definition suggest_types (cols : list string) : gmap string ColumnType :=
  foldl (fun temp_types col => <[col := suggested_type col]> temp_types) ∅ cols.

Record session_state := mkSession {
  column_names_standard : list string;
  user_column_types : gmap string ColumnType;
  excel_files_content : list UploadedFile;
  first_excel_file_processed_for_cols : bool;
  messages : list message
}.

Definition reset_state : session_state :=
  mkSession [] ∅ [] false [].

(** The body of the loop over [uploaded_files]. *)
Definition upload_step (st : session_state) (f : UploadedFile) : session_state :=
  let content := excel_files_content st ++ [f] in
  if negb (first_excel_file_processed_for_cols st) then
    match uf_content f with
    | ReadOk temp_df_for_cols =>
        if negb (DF.empty temp_df_for_cols) then
          let standard := DF.names temp_df_for_cols in
          mkSession standard (suggest_types standard) content true (messages st)
        else
          mkSession (column_names_standard st) (user_column_types st) content false
                    (messages st ++ [InfoEmpty (uf_name f)])
    | ReadError =>
        mkSession (column_names_standard st) (user_column_types st) content false
                  (messages st ++ [WarnUnreadable (uf_name f)])
    end
  else
    mkSession (column_names_standard st) (user_column_types st) content true (messages st).

(** A new set of uploaded files: the state is reset, then the loop runs. *)
Definition handle_upload (uploaded_files : list UploadedFile) : session_state :=
  foldl upload_step reset_state uploaded_files.

(** [list(current_df_raw.columns) == column_names_standard] *)
Definition validate (candidate_columns reference_columns : list string) : bool :=
  bool_decide (candidate_columns = reference_columns).

Definition final_na : gmap string cell :=
  list_to_map [("nan", NA PdNA); ("<NA>", NA PdNA); ("NaT", NA PdNA); (EmptyString, NA PdNA)].

(** The final pass over the columns of the concatenated frame. *)
Definition final_pass (col_name : string) (d : dtype) : (cell -> cell) * dtype :=
  if decide (d = DObject) then (Pd.replace final_na, DObject) else (id, d).

Section Process.
Context (P : Parsers).

(** The body of the loop over [excel_files_content]: [all_dfs] and the
    messages shown so far, before and after one file. *)
Definition process_step (st : session_state)
    (acc : list DataFrame * list message) (file_data : UploadedFile)
    : list DataFrame * list message :=
  let file_name_in_zip := uf_name file_data in
  match uf_content file_data with
  | ReadError => (acc.1, acc.2 ++ [ErrorProcessing file_name_in_zip])
  | ReadOk current_df_raw =>
      if negb (validate (DF.names current_df_raw) (column_names_standard st)) then
        (acc.1, acc.2 ++ [WarnMismatch file_name_in_zip (column_names_standard st)
                                       (DF.names current_df_raw)])
      else
        let processed_single_df :=
          Interactive.clean_and_prepare_df P current_df_raw file_name_in_zip
                                           (user_column_types st) in
        (acc.1 ++ [processed_single_df], acc.2)
  end.

Definition process_all (st : session_state) : list DataFrame * list message :=
  foldl (process_step st) ([], []) (excel_files_content st).

(** [st.session_state.processed_df] after the button was pressed. *)
Definition processed_df (st : session_state) : option DataFrame :=
  match (process_all st).1 with
  | [] => None
  | all_dfs => Some (DF.convert_columns final_pass (Table.concat all_dfs))
  end.

End Process.

End App.

(** ** Batch mode: the files [process_files] hands to the pool *)

Module Discovery.

(** [os.path.join(a, b)] of [posixpath]. *)
Definition join (a b : string) : string :=
  if String.prefix "/" b then b
  else if String.eqb a EmptyString || PyStr.endswith a "/" then a +:+ b
  else a +:+ "/" +:+ b.

(** The list comprehension over [os.walk]: [walk] holds, directory by
    directory, the names of the files found there. *)
Definition excel_files (walk : list (string * list string)) : list string :=
  flat_map (fun step : string * list string =>
              map (join step.1)
                  (List.filter (fun file => PyStr.endswith file ".xlsx"
                                            || PyStr.endswith file ".xlsb") step.2))
           walk.

End Discovery.

(** ** Interactive mode: the type form *)

Module Form.

(** [pd.read_excel(..., nrows=0).columns.tolist()], when it does not raise. *)
Definition header (f : App.UploadedFile) : option (list string) :=
  match App.uf_content f with
  | ReadOk df_check => Some (DF.names df_check)
  | ReadError => None
  end.

(** One pass over [excel_files_content] for the file that gave the columns:
    the name kept when the loop breaks, the empty string when it ends. *)
Definition search (st : App.session_state) : string :=
  match list_find (fun f_data => header f_data = Some (App.column_names_standard st))
                  (App.excel_files_content st) with
  | Some (_, f_data) => App.uf_name f_data
  | None => EmptyString
  end.

(** The name shown above the form; [None] when the form is not shown. *)
Definition first_file_name_for_cols (st : App.session_state) : option string :=
  match App.column_names_standard st, App.excel_files_content st with
  | [], _ | _, [] => None
  | _, f0 :: _ =>
      let name := search st in
      let name := if String.eqb name EmptyString then search st else name in
      Some (if String.eqb name EmptyString then App.uf_name f0 else name)
  end.

(** The select boxes: [current_selection_types] starts as a copy of the type
    map and gets the selected type of every standard column. *)
Definition select_types (st : App.session_state) (selected_type : string -> ColumnType)
    : App.session_state :=
  App.mkSession
    (App.column_names_standard st)
    (foldl (fun current_selection_types col_name =>
              <[col_name := selected_type col_name]> current_selection_types)
           (App.user_column_types st) (App.column_names_standard st))
    (App.excel_files_content st)
    (App.first_excel_file_processed_for_cols st)
    (App.messages st).

End Form.

(** ** An instance of the parsers

    Decimal integers; ISO dates, with or without a time of day and a UTC
    offset; numbers read as nanoseconds of 1970-01-01 in a column of numbers:
    enough to run the routines on examples. *)

Module Sample.

Definition digit_value (c : ascii) : option Z :=
  let n := nat_of_ascii c in
  if (48 <=? n)%nat && (n <=? 57)%nat then Some (Z.of_nat (n - 48)) else None.

Fixpoint digits_value (acc : Z) (s : string) : option Z :=
  match s with
  | EmptyString => Some acc
  | String c s' =>
      match digit_value c with
      | Some d => digits_value (10 * acc + d) s'
      | None => None
      end
  end.

Definition decimal (s : string) : option Z :=
  match s with
  | EmptyString => None
  | String c s' =>
      if Ascii.eqb c "-"%char
      then (if String.eqb s' EmptyString then None else Z.opp <$> digits_value 0 s')
      else digits_value 0 s
  end.

(** YYYY-MM-DD *)
Definition iso_date (s : string) : option Timestamp :=
  if (String.length s =? 10)%nat
     && String.eqb (String.substring 4 1 s) "-"
     && String.eqb (String.substring 7 1 s) "-"
  then
    y ← digits_value 0 (String.substring 0 4 s);
    m ← digits_value 0 (String.substring 5 2 s);
    d ← digits_value 0 (String.substring 8 2 s);
    Some (mkTs (Z.to_nat y) (Z.to_nat m) (Z.to_nat d) 0 0 0)
  else None.

(** The UTC offset of a text YYYY-MM-DDTHH:MM:SS+HH:MM, if it has that
    form. *)
Definition utc_offset (s : string) : option string :=
  if (String.length s =? 25)%nat
     && String.eqb (String.substring 10 1 s) "T"
     && (String.eqb (String.substring 19 1 s) "+" || String.eqb (String.substring 19 1 s) "-")
  then Some (String.substring 19 6 s)
  else None.

(** YYYY-MM-DD, or YYYY-MM-DDTHH:MM:SS+HH:MM read in its own offset. *)
Definition iso_datetime (s : string) : option Timestamp :=
  match utc_offset s with
  | None => iso_date s
  | Some _ =>
      t ← iso_date (String.substring 0 10 s);
      h ← digits_value 0 (String.substring 11 2 s);
      mi ← digits_value 0 (String.substring 14 2 s);
      sec ← digits_value 0 (String.substring 17 2 s);
      Some (mkTs (ts_year t) (ts_month t) (ts_day t) (Z.to_nat h) (Z.to_nat mi) (Z.to_nat sec))
  end.

Definition first_day (n : Z) : option Timestamp :=
  if ((0 <=? n) && (n <? 86400000000000))%Z then
    let sec := Z.to_nat (n / 1000000000) in
    Some (mkTs 1970 1 1 (sec / 3600) ((sec / 60) mod 60) (sec mod 60))
  else None.

Definition is_number (x : cell) : bool :=
  match x with Num _ | NA _ => true | _ => false end.

Definition datetime_of (cells : list cell) (x : cell) : option Timestamp :=
  match x with
  | Ts t => Some t
  | Str s => iso_datetime s
  | Num n => if forallb is_number cells then first_day n else None
  | NA _ => None
  end.

Definition offset_of (x : cell) : option string :=
  match x with Str s => utc_offset s | _ => None end.

(** Two elements of the column have different UTC offsets. *)
Definition offsets_differ (cells : list cell) : bool :=
  match omap offset_of cells with
  | [] => false
  | o :: os => negb (forallb (String.eqb o) os)
  end.

Definition parsers : Parsers :=
  {| parse_number := decimal; parse_datetime := datetime_of; mixed_offsets := offsets_differ |}.

End Sample.

(** ** Predicates of the statements *)

(** A keyword of [kws] occurs in the lowercased column name. *)
Definition has_keyword (kws : list string) (col : string) : Prop :=
  exists kw pre suf, kw ∈ kws /\ PyStr.lower col = pre +:+ kw +:+ suf.

(** A file the upload handler passes over when it looks for the standard
    columns: it cannot be read, or its frame is empty. *)
Definition passed_over (f : App.UploadedFile) : Prop :=
  match App.uf_content f with
  | ReadError => True
  | ReadOk df => DF.empty df = true
  end.

(** A Missing cell, whichever marker it holds. *)
Definition missing (x : cell) : Prop := exists k, x = NA k.

(** A row is fully blank when every cell of it is Missing. *)
Definition fully_blank (r : list cell) : Prop := Forall missing r.

(** The blankness rule of the batch routine on a row of a frame with the
    columns [cols]: the cells of the object columns are Missing, those of
    the number columns are Missing or 0; other columns are not looked at. *)
Definition batch_blank (cols : list (string * dtype)) (r : list cell) : Prop :=
  forall j c x, cols !! j = Some c -> r !! j = Some x ->
    (c.2 = DObject -> missing x) /\ (c.2 = DNumber -> missing x \/ x = Num 0).

(** [k] is the greatest index of a row that is not blank. *)
Definition last_nonblank (blank : list cell -> Prop) (rows : list (list cell)) (k : nat) : Prop :=
  (exists r, rows !! k = Some r /\ ~ blank r)
  /\ forall j r, k < j -> rows !! j = Some r -> blank r.

(** [k] is the greatest index at which the mask holds. *)
Definition last_true (m : list bool) (k : nat) : Prop :=
  m !! k = Some true /\ forall j, k < j -> m !! j <> Some true.

(** The blankness test of the batch routine on one row, whichever of the
    two masks exist. *)
Definition batch_blank_row (cols : list (string * dtype)) (r : list cell) : bool :=
  DF.all (Batch.obj_empty_row cols r) && DF.all (Batch.num_empty_row cols r).

(** A raw cell that stands for no value: a null, a string that is empty
    once trimmed, or a string that is "n/a" once trimmed and lowercased. *)
Inductive missing_like : cell -> Prop :=
| ml_null (k : na_kind) : missing_like (NA k)
| ml_blank (s : string) : PyStr.strip s = EmptyString -> missing_like (Str s)
| ml_na (s : string) : PyStr.lower (PyStr.strip s) = "n/a" -> missing_like (Str s).

(** The elements of the column [j] of a raw frame once the missing
    detection has run, and the dtype pandas infers for them: what the
    conversions of both routines start from. *)
Definition detected_cells (df : DataFrame) (j : nat) : list cell :=
  DF.column_cells j (df_rows (DF.applymap detect_missing df)).

Definition detected_dtype (df : DataFrame) (j : nat) : dtype :=
  DF.infer_dtype (detected_cells df j).

(** The blankness rule of the batch routine as it reads on a frame of
    object and number columns: every cell is Missing, or is 0 in a number
    column. *)
Definition blank_or_zero (cols : list (string * dtype)) (r : list cell) : Prop :=
  forall j c x, cols !! j = Some c -> r !! j = Some x ->
    missing x \/ (c.2 = DNumber /\ x = Num 0).

(** The three conversions of [process_file] on a column called [col_name],
    of dtype [d] and with the elements [cells], as one: the date conversion
    (skipped here when it raises, and no frame is returned then), the
    numeric conversion, then [astype(str)] if the column is an object column
    by then. *)
Definition batch_conversion (P : Parsers) (col_name : string) (d : dtype) (cells : list cell)
    : (cell -> cell) * dtype :=
  let c1 := default (id, d)
              (Batch.convert_named Batch.date_cols (Batch.format_date P)
                 (fun d => Some (id, d)) col_name d cells) in
  let c2 := Batch.convert_named Batch.numeric_cols (Batch.coerce_number P)
              (fun d => (id, d)) col_name c1.2 (map c1.1 cells) in
  let c3 := Batch.stringify_objects col_name c2.2 in
  (fun x => c3.1 (c2.1 (c1.1 x)), c3.2).

(** What [process_file] does to one cell of a column whose dtype after the
    detection is [d] and whose elements, once the trailing rows are removed,
    are [cells]: the detection, then the three conversions. *)
Definition batch_cell (P : Parsers) (col_name : string) (d : dtype) (cells : list cell)
    (x : cell) : cell :=
  (batch_conversion P col_name d cells).1 (detect_missing x).

(** The date loop of [process_file] raises on the frame read from [file]:
    [pd.to_datetime] leaves one of the date columns an object column, which
    has no [dt] accessor. *)
Definition date_loop_raises (P : Parsers) (file : string) (df : DataFrame) : Prop :=
  exists j c,
    df_columns (Batch.prepare file df) !! j = Some c
    /\ c.1 ∈ Batch.date_cols
    /\ Pd.to_datetime_dtype P c.2 (DF.column_cells j (df_rows (Batch.prepare file df)))
       <> DDatetime.

(** The frame the processing loop adds for a file, if it adds one, and the
    message it shows for it, if it shows one. *)
Definition accepted (P : Parsers) (st : App.session_state) (f : App.UploadedFile)
    : option DataFrame :=
  match App.uf_content f with
  | ReadOk raw =>
      if App.validate (DF.names raw) (App.column_names_standard st)
      then Some (Interactive.clean_and_prepare_df P raw (App.uf_name f)
                                                  (App.user_column_types st))
      else None
  | ReadError => None
  end.

Definition rejected (st : App.session_state) (f : App.UploadedFile) : option App.message :=
  match App.uf_content f with
  | ReadOk raw =>
      if App.validate (DF.names raw) (App.column_names_standard st) then None
      else Some (App.WarnMismatch (App.uf_name f) (App.column_names_standard st)
                                  (DF.names raw))
  | ReadError => Some (App.ErrorProcessing (App.uf_name f))
  end.

(** A text of the form YYYY-MM-DD: ten characters, digits but for the two
    hyphens. *)
Definition is_digit (c : ascii) : bool :=
  (48 <=? nat_of_ascii c)%nat && (nat_of_ascii c <=? 57)%nat.

Definition ymd_text (s : string) : Prop :=
  exists y1 y2 y3 y4 m1 m2 d1 d2,
    s = String y1 (String y2 (String y3 (String y4 (String "-"
          (String m1 (String m2 (String "-" (String d1 (String d2 EmptyString)))))))))
    /\ forallb is_digit [y1; y2; y3; y4; m1; m2; d1; d2] = true.

(** The type map holds the suggested type of the standard columns and
    nothing else. *)
Definition types_follow_standard (st : App.session_state) : Prop :=
  forall c, App.user_column_types st !! c
            = if decide (c ∈ App.column_names_standard st)
              then Some (App.suggested_type c) else None.

(** The frame of an uploaded file, when the file can be read, has one cell
    per column in every row. *)
Definition rectangular_content (f : App.UploadedFile) : Prop :=
  match App.uf_content f with
  | ReadOk raw => DF.rectangular raw
  | ReadError => True
  end.

(** * Properties *)

(** ** Strings *)

Lemma append_cons (c : ascii) (s t : string) : String c s +:+ t = String c (s +:+ t).
Proof. reflexivity. Qed.

Lemma append_empty (t : string) : EmptyString +:+ t = t.
Proof. reflexivity. Qed.

Lemma prefix_app (kw s : string) :
  String.prefix kw s = true <-> exists suf, s = kw +:+ suf.
Proof.
  revert s; induction kw as [|a kw IH]; intros s.
  - destruct s; simpl; split; eauto.
  - destruct s as [|b s]; simpl.
    + split; [discriminate | intros [suf H]; discriminate].
    + destruct (ascii_dec a b) as [->|Hne].
      * rewrite IH. split; intros [suf H]; exists suf;
          rewrite append_cons in *; congruence.
      * split; [discriminate | intros [suf H]].
        rewrite append_cons in H. congruence.
Qed.

(** [kw in s] holds exactly when [s] is [pre + kw + suf]. *)
Lemma contains_spec (kw s : string) :
  PyStr.contains kw s = true <-> exists pre suf, s = pre +:+ kw +:+ suf.
Proof.
  induction s as [|c s IH]; cbn [PyStr.contains].
  - rewrite orb_false_r, prefix_app. split.
    + intros [suf H]. exists EmptyString, suf. exact H.
    + intros (pre & suf & H). destruct pre; [eauto | discriminate].
  - rewrite orb_true_iff, prefix_app, IH. split.
    + intros [[suf H] | (pre & suf & H)].
      * exists EmptyString, suf. exact H.
      * exists (String c pre), suf. rewrite append_cons. congruence.
    + intros (pre & suf & H). destruct pre as [|c' pre].
      * left; eauto.
      * right. exists pre, suf. rewrite append_cons in H. congruence.
Qed.

Lemma existsb_contains (kws : list string) (col : string) :
  existsb (fun kw => PyStr.contains kw (PyStr.lower col)) kws = true <-> has_keyword kws col.
Proof.
  rewrite existsb_exists. unfold has_keyword. split.
  - intros (kw & Hin & Hc). apply contains_spec in Hc as (pre & suf & H).
    exists kw, pre, suf. split; [by apply list_elem_of_In | done].
  - intros (kw & pre & suf & Hin & H). exists kw. split; [by apply list_elem_of_In |].
    apply contains_spec; eauto.
Qed.

(** ** Type inference *)

(** C8. The suggested type is Date when a date keyword occurs in the
    lowercased column name, else Numeric when a numeric keyword occurs in
    it, else Text; the date keywords are looked for first, so that
    "Date Total", which holds the numeric keyword "total" as well, is a
    Date column. *)
Theorem suggested_type_by_keyword (col : string) :
  ((has_keyword App.date_keywords col /\ App.suggested_type col = Date)
   \/ (~ has_keyword App.date_keywords col /\ has_keyword App.numeric_keywords col
       /\ App.suggested_type col = Numeric)
   \/ (~ has_keyword App.date_keywords col /\ ~ has_keyword App.numeric_keywords col
       /\ App.suggested_type col = Text))
  /\ has_keyword App.date_keywords "Date Total"
  /\ has_keyword App.numeric_keywords "Date Total"
  /\ App.suggested_type "Date Total" = Date.
Proof.
  split.
  - unfold App.suggested_type.
    destruct (existsb _ App.date_keywords) eqn:Hd.
    + left. split; [by apply existsb_contains | done].
    + assert (~ has_keyword App.date_keywords col) as Hnd.
      { intros H. apply existsb_contains in H. congruence. }
      destruct (existsb _ App.numeric_keywords) eqn:Hn.
      * right; left. split; [done|]. split; [by apply existsb_contains | done].
      * right; right. split; [done|]. split; [|done].
        intros H. apply existsb_contains in H. congruence.
  - split; [|split].
    + apply existsb_contains. reflexivity.
    + apply existsb_contains. reflexivity.
    + reflexivity.
Qed.

(** ** The reference schema *)

Lemma suggest_types_fold (cols : list string) (m : gmap string ColumnType) (c : string) :
  foldl (fun temp_types col => <[col := App.suggested_type col]> temp_types) m cols !! c
  = if decide (c ∈ cols) then Some (App.suggested_type c) else m !! c.
Proof.
  revert m; induction cols as [|a cols IH]; intros m; simpl.
  - destruct (decide (c ∈ [])) as [H|H]; [by apply elem_of_nil in H | done].
  - rewrite IH.
    destruct (decide (c ∈ cols)) as [H1|H1]; destruct (decide (c ∈ a :: cols)) as [H2|H2];
      try done.
    + exfalso. apply H2. by right.
    + apply elem_of_cons in H2 as [->|H2]; [|done].
      by rewrite lookup_insert_eq.
    + rewrite lookup_insert_ne; [done|]. intros ->. apply H2. by left.
Qed.

Lemma suggest_types_lookup (cols : list string) (c : string) :
  c ∈ cols -> App.suggest_types cols !! c = Some (App.suggested_type c).
Proof.
  intros H. unfold App.suggest_types. rewrite suggest_types_fold.
  by case_decide.
Qed.

(** Once the standard columns are set, no later file changes them. *)
Lemma upload_established (l : list App.UploadedFile) (st : App.session_state) :
  App.first_excel_file_processed_for_cols st = true ->
  App.column_names_standard (foldl App.upload_step st l) = App.column_names_standard st
  /\ App.user_column_types (foldl App.upload_step st l) = App.user_column_types st.
Proof.
  revert st; induction l as [|g l IH]; intros st Hst; simpl; [done|].
  destruct (IH (App.upload_step st g)) as [H1 H2].
  - unfold App.upload_step. by rewrite Hst.
  - rewrite H1, H2. unfold App.upload_step. by rewrite Hst.
Qed.

(** Files that cannot be read or are empty leave the search open. *)
Lemma upload_passed_over (l : list App.UploadedFile) (st : App.session_state) :
  App.first_excel_file_processed_for_cols st = false ->
  Forall passed_over l ->
  App.first_excel_file_processed_for_cols (foldl App.upload_step st l) = false
  /\ App.column_names_standard (foldl App.upload_step st l) = App.column_names_standard st.
Proof.
  revert st; induction l as [|g l IH]; intros st Hst Hl; simpl; [done|].
  apply Forall_cons in Hl as [Hg Hl].
  assert (App.first_excel_file_processed_for_cols (App.upload_step st g) = false
          /\ App.column_names_standard (App.upload_step st g) = App.column_names_standard st)
    as [Hf Hs].
  { unfold App.upload_step, passed_over in *. rewrite Hst. simpl.
    destruct (App.uf_content g) as [|df]; [done|]. by rewrite Hg. }
  destruct (IH _ Hf Hl) as [H1 H2]. by rewrite H1, H2.
Qed.

(** C5, as amended. The standard columns and the suggested types come from
    the first uploaded file that can be read and whose frame is not empty
    (it has a column and a row); the files before it, unreadable or empty,
    are passed over, and no file after it changes the standard columns. *)
Theorem schema_from_first_nonempty_file (pre post : list App.UploadedFile)
    (f : App.UploadedFile) (df : DataFrame) :
  Forall passed_over pre ->
  App.uf_content f = ReadOk df ->
  DF.empty df = false ->
  App.column_names_standard (App.handle_upload (pre ++ f :: post)) = DF.names df
  /\ App.user_column_types (App.handle_upload (pre ++ f :: post))
     = App.suggest_types (DF.names df)
  /\ forall col, col ∈ DF.names df ->
       App.user_column_types (App.handle_upload (pre ++ f :: post)) !! col
       = Some (App.suggested_type col).
Proof.
  intros Hpre Hf Hne. unfold App.handle_upload.
  rewrite foldl_app. simpl.
  destruct (upload_passed_over pre App.reset_state eq_refl Hpre) as [Hflag _].
  set (st := foldl App.upload_step App.reset_state pre) in *.
  assert (App.upload_step st f
          = App.mkSession (DF.names df) (App.suggest_types (DF.names df))
                          (App.excel_files_content st ++ [f]) true (App.messages st)) as Hstep.
  { unfold App.upload_step. by rewrite Hflag, Hf, Hne. }
  destruct (upload_established post (App.upload_step st f)) as [H1 H2].
  { by rewrite Hstep. }
  rewrite H1, H2, Hstep. simpl. split; [done|]. split; [done|].
  intros col Hcol. by apply suggest_types_lookup.
Qed.

Lemma schema_from_first_nonempty_file_witness :
  let pre := [App.mkFile "broken.xlsx" ReadError;
              App.mkFile "header_only.xlsx" (ReadOk (mkDF [("A", DObject)] []))] in
  let df := mkDF [("Date Total", DObject); ("Nom", DObject)] [[Num 1; Str "x"]] in
  let f := App.mkFile "first.xlsx" (ReadOk df) in
  let post := [App.mkFile "other.xlsx" (ReadOk (mkDF [("B", DObject)] [[Num 2]]))] in
  App.column_names_standard (App.handle_upload (pre ++ f :: post)) = ["Date Total"; "Nom"]
  /\ App.user_column_types (App.handle_upload (pre ++ f :: post)) !! "Date Total" = Some Date.
Proof.
  intros pre df f post.
  destruct (schema_from_first_nonempty_file pre post f df) as (H1 & _ & H3).
  - repeat constructor.
  - reflexivity.
  - reflexivity.
  - split; [exact H1|]. apply H3. simpl. left.
Defined.

(** C5, as it was stated: a file that is read and has a column but no row is
    passed over, and the standard columns are those of a later file. *)
Lemma header_only_file_sets_no_schema :
  let a := mkDF [("A", DObject)] [] in
  let b := mkDF [("B", DObject)] [[Num 1]] in
  DF.names a = ["A"]
  /\ App.column_names_standard
       (App.handle_upload [App.mkFile "a.xlsx" (ReadOk a); App.mkFile "b.xlsx" (ReadOk b)])
     = ["B"].
Proof. split; reflexivity. Qed.

(** ** Schema validation *)

(** C7. The column check holds exactly when the candidate's column list
    equals the standard one, name by name and in order, so it fails on
    [A; B] against [B; A]; a file that fails it adds nothing to [all_dfs]
    and leaves a warning with its name, the expected and the found columns;
    a file that passes it is cleaned as it is and added. *)
Theorem validate_exact_or_skip (P : Parsers) (st : App.session_state)
    (acc : list DataFrame * list App.message) (f : App.UploadedFile) (raw : DataFrame)
    (candidate reference : list string) :
  App.uf_content f = ReadOk raw ->
  (App.validate candidate reference = true <-> candidate = reference)
  /\ App.validate ["A"; "B"] ["B"; "A"] = false
  /\ (DF.names raw <> App.column_names_standard st ->
      App.process_step P st acc f
      = (acc.1, acc.2 ++ [App.WarnMismatch (App.uf_name f) (App.column_names_standard st)
                                           (DF.names raw)]))
  /\ (DF.names raw = App.column_names_standard st ->
      App.process_step P st acc f
      = (acc.1 ++ [Interactive.clean_and_prepare_df P raw (App.uf_name f)
                     (App.user_column_types st)], acc.2)).
Proof.
  intros Hread. split; [apply bool_decide_eq_true|]. split; [reflexivity|].
  unfold App.process_step, App.validate. rewrite Hread.
  split; intros H.
  - by rewrite bool_decide_eq_false_2.
  - by rewrite bool_decide_eq_true_2.
Qed.

Lemma validate_exact_or_skip_witness :
  let st := App.handle_upload
              [App.mkFile "one.xlsx" (ReadOk (mkDF [("A", DObject); ("B", DObject)]
                                                   [[Num 1; Num 2]]))] in
  let raw := mkDF [("B", DObject); ("A", DObject)] [[Num 3; Num 4]] in
  let f := App.mkFile "two.xlsx" (ReadOk raw) in
  App.process_step Sample.parsers st ([], []) f
  = ([], [App.WarnMismatch "two.xlsx" ["A"; "B"] ["B"; "A"]]).
Proof.
  intros st raw f.
  destruct (validate_exact_or_skip Sample.parsers st ([], []) f raw ["A"; "B"] ["B"; "A"])
    as (_ & _ & H & _).
  - reflexivity.
  - apply H. vm_compute. discriminate.
Defined.

(** ** The index of the last row kept *)

Lemma lookup_map {A B : Type} (f : A -> B) (l : list A) (i : nat) :
  map f l !! i = f <$> l !! i.
Proof. exact (list_lookup_fmap f l i). Qed.

Lemma omap_cons {A B : Type} (f : A -> option B) (x : A) (l : list A) :
  omap f (x :: l) = match f x with Some y => y :: omap f l | None => omap f l end.
Proof. reflexivity. Qed.

Lemma omap_nil_iff {A B : Type} (f : A -> option B) (l : list A) :
  omap f l = [] <-> Forall (fun x => f x = None) l.
Proof.
  induction l as [|x l IH]; [split; [constructor | done]|].
  rewrite omap_cons, Forall_cons. destruct (f x); [|by rewrite IH; tauto].
  split; [done | intros [? _]; done].
Qed.

Lemma nonzero_from_all_false (i : nat) (m : list bool) :
  last (DF.nonzero_from i m) = None <-> Forall (fun b => b = false) m.
Proof.
  revert i; induction m as [|b m IH]; intros i; simpl.
  - split; [constructor | done].
  - rewrite last_app_None, IH. split.
    + intros [Hb Hm]. constructor; [|done]. by destruct b.
    + intros H. apply Forall_cons in H as [-> Hm]. done.
Qed.

Lemma last_true_unique (m : list bool) (k k' : nat) :
  last_true m k -> last_true m k' -> k = k'.
Proof.
  intros [H1 H2] [H1' H2'].
  destruct (Nat.lt_trichotomy k k') as [H|[H|H]]; [|done|].
  - by destruct (H2 k' H).
  - by destruct (H2' k H).
Qed.

Lemma last_true_cons (b : bool) (m : list bool) (k : nat) :
  last_true (b :: m) k <->
  (exists k', k = S k' /\ last_true m k')
  \/ (k = 0 /\ b = true /\ Forall (fun b => b = false) m).
Proof.
  unfold last_true. split.
  - intros [H1 H2]. destruct k as [|k'].
    + right. simpl in H1. split; [done|]. split; [congruence|].
      apply Forall_lookup. intros j x Hj. destruct x; [|done].
      destruct (H2 (S j)); [lia | done].
    + left. exists k'. split; [done|]. split; [done|].
      intros j Hj. apply (H2 (S j)). lia.
  - intros [(k' & -> & H1 & H2) | (-> & -> & Hm)].
    + split; [done|]. intros [|j] Hj; [lia|]. simpl. apply H2. lia.
    + split; [done|]. intros [|j] Hj; [lia|]. simpl. intros Hx.
      pose proof (Forall_lookup_1 _ _ _ _ Hm Hx) as E. done.
Qed.

Lemma last_nonzero_from (i : nat) (m : list bool) (l : nat) :
  last (DF.nonzero_from i m) = Some l <-> exists k, l = i + k /\ last_true m k.
Proof.
  revert i l; induction m as [|b m IH]; intros i l; simpl.
  - split; [done|]. intros (k & _ & H & _). done.
  - rewrite last_app_Some, IH, nonzero_from_all_false. split.
    + intros [(k & -> & Hk) | [Hm Hb]].
      * exists (S k). split; [lia|]. apply last_true_cons. left. eauto.
      * destruct b; [|done]. simpl in Hb. injection Hb as <-.
        exists 0. split; [lia|]. apply last_true_cons. right. done.
    + intros (k & -> & Hk). apply last_true_cons in Hk as [(k' & -> & Hk') | (-> & -> & Hm)].
      * left. exists k'. split; [lia | done].
      * right. split; [done|]. simpl. f_equal. lia.
Qed.

Lemma last_nonzero (m : list bool) (k : nat) :
  last (DF.nonzero m) = Some k <-> last_true m k.
Proof.
  unfold DF.nonzero. rewrite last_nonzero_from. split.
  - intros (k' & -> & H). done.
  - intros H. exists k. done.
Qed.

Lemma last_nonzero_None (m : list bool) :
  last (DF.nonzero m) = None <-> Forall (fun b => b = false) m.
Proof. apply nonzero_from_all_false. Qed.

(** Cutting the mask just after its last true index keeps that index last. *)
Lemma last_true_take (m : list bool) (k : nat) :
  last_true m k -> last_true (take (S k) m) k.
Proof.
  intros [H1 H2]. split.
  - rewrite lookup_take_lt; [done | lia].
  - intros j Hj. rewrite lookup_take_ge; [done | lia].
Qed.

(** The mask of the rows that are not blank, for a boolean test [b] that
    decides the blankness [blank]. *)
Lemma last_true_nonblank (b : list cell -> bool) (blank : list cell -> Prop)
    (rows : list (list cell)) (k : nat) :
  (forall r, b r = true <-> blank r) ->
  last_true (map negb (map b rows)) k <-> last_nonblank blank rows k.
Proof.
  intros Hb. unfold last_true, last_nonblank.
  assert (forall j, map negb (map b rows) !! j = Some true
                    <-> exists r, rows !! j = Some r /\ ~ blank r) as Hj.
  { intros j. rewrite !lookup_map. destruct (rows !! j) as [r|]; simpl.
    - split.
      + intros H. exists r. split; [done|]. rewrite <- Hb.
        destruct (b r); [done | congruence].
      + intros (r' & [= <-] & H). rewrite <- Hb in H.
        destruct (b r); [by destruct H | done].
    - split; [done | intros (r & H & _); done]. }
  rewrite Hj. split; intros [H1 H2]; (split; [done|]).
  - intros j r Hlt Hr. apply Hb. destruct (b r) eqn:E; [done|].
    destruct (H2 j Hlt). apply Hj. exists r. split; [done|].
    rewrite <- Hb. congruence.
  - intros j Hlt Hx. apply Hj in Hx as (r & Hr & Hn). eauto.
Qed.

Lemma all_map_Forall {A : Type} (b : A -> bool) (blank : A -> Prop) (l : list A) :
  (forall r, b r = true <-> blank r) ->
  DF.all (map b l) = true <-> Forall blank l.
Proof.
  intros Hb. unfold DF.all. induction l as [|x l IH]; simpl.
  - split; [constructor | done].
  - rewrite andb_true_iff, IH, Forall_cons. unfold id. by rewrite Hb.
Qed.

(** What is found for the index of the last row that is not blank. *)
Lemma last_valid_idx_spec (b : list cell -> bool) (blank : list cell -> Prop)
    (rows : list (list cell)) :
  (forall r, b r = true <-> blank r) ->
  match last (DF.nonzero (map negb (map b rows))) with
  | Some k => last_nonblank blank rows k
  | None => Forall blank rows
  end.
Proof.
  intros Hb. destruct (last _) as [k|] eqn:E.
  - apply last_nonzero in E. by apply (last_true_nonblank b).
  - apply last_nonzero_None in E. apply (all_map_Forall b blank rows Hb).
    unfold DF.all. apply forallb_forall. intros x Hx.
    apply in_map_iff in Hx as (r & <- & Hr).
    apply Forall_forall with (x := negb (b r)) in E.
    + unfold id. by destruct (b r).
    + apply list_elem_of_In. apply in_map. by apply in_map.
Qed.

Lemma last_valid_idx_take (b : list cell -> bool) (rows : list (list cell)) (k : nat) :
  last (DF.nonzero (map negb (map b rows))) = Some k ->
  last (DF.nonzero (map negb (map b (take (S k) rows)))) = Some k.
Proof.
  intros E. apply last_nonzero. rewrite <- !firstn_map.
  apply last_true_take. by apply last_nonzero.
Qed.

Lemma last_nonblank_unique (blank : list cell -> Prop) (rows : list (list cell)) (k k' : nat) :
  last_nonblank blank rows k -> last_nonblank blank rows k' -> k = k'.
Proof.
  intros [(r & Hr & Hn) H2] [(r' & Hr' & Hn') H2'].
  destruct (Nat.lt_trichotomy k k') as [H|[H|H]]; [|done|].
  - destruct Hn'. eauto.
  - destruct Hn. eauto.
Qed.

(** ** Blankness of a row *)

Lemma isna_missing (x : cell) : Pd.isna x = true <-> missing x.
Proof.
  unfold missing. destruct x; simpl; split; try done; eauto.
  all: intros [k' H]; done.
Qed.

Lemma row_all_na_spec (r : list cell) :
  Interactive.row_all_na r = true <-> fully_blank r.
Proof. apply all_map_Forall. apply isna_missing. Qed.

Lemma num_empty_spec (x : cell) :
  Pd.isna x || Batch.eq_zero x = true <-> missing x \/ x = Num 0.
Proof.
  rewrite orb_true_iff, isna_missing. unfold missing.
  destruct x as [k|s|n|t]; simpl; rewrite ?Z.eqb_eq;
    split; intros [H|H]; first [by left | done | right; congruence].
Qed.

Lemma select_dtype_cons (d : dtype) (c : string * dtype) (cols : list (string * dtype))
    (x : cell) (r : list cell) :
  DF.select_dtype d (c :: cols) (x :: r)
  = (if decide (c.2 = d) then [x] else []) ++ DF.select_dtype d cols r.
Proof.
  unfold DF.select_dtype. simpl. rewrite filter_cons. simpl.
  by destruct (decide (c.2 = d)).
Qed.

Lemma batch_blank_row_spec (cols : list (string * dtype)) (r : list cell) :
  batch_blank_row cols r = true <-> batch_blank cols r.
Proof.
  revert r; induction cols as [|c cols IH]; intros r.
  - split; [|done]. intros _ j c x Hc. done.
  - destruct r as [|x r].
    + split; [|by destruct cols]. intros _ j c' x' _ Hx. done.
    + assert (batch_blank (c :: cols) (x :: r)
              <-> ((c.2 = DObject -> missing x) /\ (c.2 = DNumber -> missing x \/ x = Num 0))
                  /\ batch_blank cols r) as ->.
      { unfold batch_blank. split.
        - intros H. split; [exact (H 0 c x eq_refl eq_refl)|].
          intros j c' x' Hc Hx. exact (H (S j) c' x' Hc Hx).
        - intros [H0 H] [|j] c' x' Hc Hx; simpl in *.
          + by simplify_eq.
          + by apply (H j). }
      rewrite <- IH. unfold batch_blank_row, Batch.obj_empty_row, Batch.num_empty_row.
      rewrite !select_dtype_cons, !map_app. unfold DF.all. rewrite !forallb_app.
      rewrite <- num_empty_spec, <- isna_missing.
      destruct c as [n d]; simpl.
      destruct d; simpl; unfold id;
        destruct (forallb _ _), (forallb _ _); simpl;
        rewrite ?andb_true_r, ?andb_false_r; try tauto; try (intuition congruence).
Qed.

Lemma select_dtype_none (d : dtype) (cols : list (string * dtype)) (r : list cell) :
  (0 <? length (Batch.select_columns d cols))%nat = false ->
  DF.select_dtype d cols r = [].
Proof.
  unfold Batch.select_columns. revert r; induction cols as [|c cols IH]; intros r H.
  - done.
  - destruct r as [|x r]; [done|]. rewrite select_dtype_cons.
    rewrite filter_cons in H. destruct (decide (c.2 = d)); [done|].
    simpl. by apply IH.
Qed.

Lemma all_empty_mask_rows (df : DataFrame) :
  Batch.all_empty_mask df = map (batch_blank_row (df_columns df)) (df_rows df).
Proof.
  unfold Batch.all_empty_mask, batch_blank_row.
  destruct (0 <? length (Batch.select_columns DObject _))%nat eqn:Ho;
    destruct (0 <? length (Batch.select_columns DNumber _))%nat eqn:Hn.
  - induction (df_rows df) as [|r rows IH]; simpl; [done | by rewrite <- IH].
  - rewrite map_map. apply map_ext. intros r.
    unfold Batch.num_empty_row at 1. rewrite (select_dtype_none _ _ r Hn). simpl.
    by rewrite andb_true_r.
  - rewrite map_map. apply map_ext. intros r.
    unfold Batch.obj_empty_row at 1. by rewrite (select_dtype_none _ _ r Ho).
  - induction (df_rows df) as [|r rows IH]; [done|].
    cbn [length replicate map]. rewrite IH. f_equal.
    unfold Batch.obj_empty_row, Batch.num_empty_row.
    by rewrite (select_dtype_none _ _ r Ho), (select_dtype_none _ _ r Hn).
Qed.

(** ** Trailing-blank trimming *)

Lemma interactive_trim_cases (df : DataFrame) :
  (DF.empty df = true /\ Interactive.trim df = df)
  \/ (DF.empty df = false /\ Forall fully_blank (df_rows df)
      /\ Interactive.trim df = DF.iloc_to 0 df)
  \/ (DF.empty df = false
      /\ exists k, last (DF.nonzero (map negb (map Interactive.row_all_na (df_rows df)))) = Some k
                   /\ last_nonblank fully_blank (df_rows df) k
                   /\ Interactive.trim df = DF.iloc_to (S k) df).
Proof.
  unfold Interactive.trim. destruct (DF.empty df) eqn:He; simpl; [by left | right].
  destruct (DF.all (map Interactive.row_all_na (df_rows df))) eqn:Ha.
  - left. split; [done|]. split; [|done].
    by apply (all_map_Forall _ _ _ row_all_na_spec).
  - right. split; [done|].
    pose proof (last_valid_idx_spec _ _ (df_rows df) row_all_na_spec) as Hl.
    destruct (last _) as [k|].
    + exists k. rewrite Nat.add_1_r. done.
    + apply (all_map_Forall _ _ _ row_all_na_spec) in Hl. congruence.
Qed.

Lemma batch_trim_cases (df : DataFrame) :
  (Forall (batch_blank (df_columns df)) (df_rows df) /\ Batch.trim df = df)
  \/ exists k, last (DF.nonzero (map negb (map (batch_blank_row (df_columns df)) (df_rows df))))
               = Some k
               /\ last_nonblank (batch_blank (df_columns df)) (df_rows df) k
               /\ Batch.trim df = DF.iloc_to (S k) df.
Proof.
  unfold Batch.trim. rewrite all_empty_mask_rows.
  pose proof (last_valid_idx_spec _ _ (df_rows df) (batch_blank_row_spec (df_columns df))) as Hl.
  destruct (last _) as [k|].
  - right. exists k. rewrite Nat.add_1_r. done.
  - by left.
Qed.

(** When every row is blank the batch trimmer cuts nothing, where the
    interactive one returns no row. *)
Lemma batch_trim_all_blank (df : DataFrame) :
  Forall (batch_blank (df_columns df)) (df_rows df) -> Batch.trim df = df.
Proof.
  intros Hb. destruct (batch_trim_cases df) as [[_ E] | (k & _ & [(r & Hr & Hn) _] & _)];
    [done|].
  destruct Hn. by apply (Forall_lookup_1 _ _ _ _ Hb Hr).
Qed.

Lemma last_nonblank_ext (blank blank' : list cell -> Prop) (rows : list (list cell)) (k : nat) :
  (forall r, blank r <-> blank' r) ->
  last_nonblank blank rows k <-> last_nonblank blank' rows k.
Proof.
  intros H. unfold last_nonblank. split; intros [(r & Hr & Hn) Hk]; (split; [exists r; split; [done|]|]).
  - by rewrite <- H.
  - intros j r' Hj Hr'. rewrite <- H. by apply (Hk j).
  - by rewrite H.
  - intros j r' Hj Hr'. rewrite H. by apply (Hk j).
Qed.

(** On a frame of object and number columns the batch rule reads: every
    cell is Missing, or is 0 in a number column. *)
Lemma blank_or_zero_spec (cols : list (string * dtype)) (r : list cell) :
  Forall (fun c : string * dtype => c.2 <> DDatetime) cols ->
  batch_blank cols r <-> blank_or_zero cols r.
Proof.
  intros Hcols. split; intros H j c x Hc Hx; specialize (H j c x Hc Hx);
    pose proof (Forall_lookup_1 _ _ _ _ Hcols Hc) as Hd; cbv beta in Hd.
  - destruct H as [Ho Hn]. destruct (c.2) eqn:E; [left; by apply Ho | | done].
    destruct (Hn eq_refl) as [Hm | ->]; [by left | by right].
  - destruct H as [Hm | [Hn ->]].
    + split; intros _; [done | by left].
    + split; [intros Ho; congruence | intros _; by right].
Qed.

(** C3, as amended. In the interactive routine, on a frame with a column,
    the trimmed frame keeps the columns and is the prefix that ends at the
    last row that is not fully blank (a row whose cells are all Missing), or
    has no row when every row is fully blank or there is none. In the batch
    routine, on a frame of object and number columns, a row is blank when
    every cell of it is Missing or is 0 in a number column; the trimmed frame
    keeps the columns and, when some row is not blank, is the prefix that
    ends at the last row that is not blank. *)
Theorem trim_keeps_prefix_to_last_nonblank (df : DataFrame) :
  df_columns df <> [] ->
  (df_columns (Interactive.trim df) = df_columns df
   /\ ((exists k, last_nonblank fully_blank (df_rows df) k
                  /\ df_rows (Interactive.trim df) = take (S k) (df_rows df))
       \/ (Forall fully_blank (df_rows df) /\ df_rows (Interactive.trim df) = [])))
  /\ (Forall (fun c : string * dtype => c.2 <> DDatetime) (df_columns df) ->
      df_columns (Batch.trim df) = df_columns df
      /\ (Forall (blank_or_zero (df_columns df)) (df_rows df)
          \/ exists k, last_nonblank (blank_or_zero (df_columns df)) (df_rows df) k)
      /\ forall k, last_nonblank (blank_or_zero (df_columns df)) (df_rows df) k ->
                   df_rows (Batch.trim df) = take (S k) (df_rows df)).
Proof.
  intros Hcols. split.
  - destruct (interactive_trim_cases df) as [[He ->] | [(He & Hb & ->) | (He & k & _ & Hk & ->)]].
    + split; [done|]. right. unfold DF.empty in He.
      destruct (df_columns df); [done|]. destruct (df_rows df); [|done]. split; [constructor | done].
    + split; [done|]. right. done.
    + split; [done|]. left. exists k. done.
  - intros Hd. pose proof (blank_or_zero_spec (df_columns df)) as Hspec.
    destruct (batch_trim_cases df) as [[Hb ->] | (k & _ & Hk & ->)].
    + assert (Forall (blank_or_zero (df_columns df)) (df_rows df)) as Hb'.
      { eapply Forall_impl; [exact Hb|]. intros r Hr. by apply Hspec. }
      split; [done|]. split; [by left|]. intros k [(r & Hr & Hn) _]. destruct Hn.
      by apply (Forall_lookup_1 _ _ _ _ Hb' Hr).
    + apply (last_nonblank_ext _ (blank_or_zero (df_columns df))) in Hk;
        [|intros r; by apply Hspec].
      split; [done|]. split; [right; by exists k|]. intros k' Hk'.
      by rewrite (last_nonblank_unique _ _ _ _ Hk' Hk).
Qed.

(** C9. Trimming a trimmed frame changes nothing, in both routines. *)
Theorem trim_idempotent (df : DataFrame) :
  Interactive.trim (Interactive.trim df) = Interactive.trim df
  /\ Batch.trim (Batch.trim df) = Batch.trim df.
Proof.
  split.
  - destruct (interactive_trim_cases df) as [[He E] | [(He & Hb & ->) | (He & k & Hl & Hk & ->)]].
    + by rewrite !E.
    + destruct (interactive_trim_cases (DF.iloc_to 0 df)) as [[_ ->] | [(He' & _) | (He' & _)]];
        [done | |].
      all: unfold DF.empty, DF.iloc_to in He'; simpl in He';
        by destruct (df_columns df).
    + destruct (interactive_trim_cases (DF.iloc_to (S k) df))
        as [[He' _] | [(_ & Hb & _) | (_ & k' & Hl' & _ & ->)]].
      * destruct Hk as [(r & Hr & _) _].
        unfold DF.empty, DF.iloc_to in *; simpl in *.
        destruct (df_columns df); [done|]. destruct (df_rows df); [done | done].
      * destruct Hk as [(r & Hr & Hn) _]. destruct Hn.
        simpl in Hb. apply (Forall_lookup_1 _ _ k _ Hb).
        rewrite lookup_take_lt; [done | lia].
      * simpl in Hl'. rewrite (last_valid_idx_take _ _ _ Hl) in Hl'.
        injection Hl' as <-. unfold DF.iloc_to. simpl. by rewrite take_idemp.
  - destruct (batch_trim_cases df) as [[_ E] | (k & Hl & _ & ->)].
    + by rewrite !E.
    + unfold Batch.trim at 1. rewrite all_empty_mask_rows. simpl.
      rewrite (last_valid_idx_take _ _ _ Hl), Nat.add_1_r.
      unfold DF.iloc_to. simpl. by rewrite take_idemp.
Qed.

Lemma trim_keeps_prefix_to_last_nonblank_witness :
  let df := mkDF [("Nom", DObject); ("Code Client", DNumber)]
                 [[Str "x"; Num 5]; [NA PdNA; Num 0]] in
  df_columns (Interactive.trim df) = df_columns df
  /\ df_rows (Batch.trim df) = take 1 (df_rows df).
Proof.
  intros df.
  destruct (trim_keeps_prefix_to_last_nonblank df) as [[H1 _] H2]; [done|].
  split; [exact H1|].
  destruct H2 as (_ & _ & H2); [repeat constructor; discriminate|].
  apply H2. split.
  - exists [Str "x"; Num 5]. split; [done|].
    rewrite <- blank_or_zero_spec, <- batch_blank_row_spec;
      [done | repeat constructor; discriminate].
  - intros [|[|j]] r Hj Hr; [lia | |done].
    injection Hr as <-.
    apply blank_or_zero_spec; [repeat constructor; discriminate|].
    by apply batch_blank_row_spec.
Defined.

(** C3, as it was stated: in the batch routine a last row that holds a 0 in
    a number column is cut off, though its cell is not Missing. *)
Lemma batch_trim_cuts_zero_row :
  let df := mkDF [("Code Client", DNumber)] [[Num 5]; [Num 0]] in
  last_nonblank fully_blank (df_rows df) 1
  /\ df_rows (Batch.trim df) = [[Num 5]]
  /\ df_rows (Batch.trim df) <> take 2 (df_rows df).
Proof.
  intros df. split; [|split; [reflexivity | discriminate]]. split.
  - exists [Num 0]. split; [done|]. rewrite <- row_all_na_spec. done.
  - intros [|[|j]] r Hj Hr; [lia | lia | done].
Qed.

(** The batch mask holds at a row exactly when the row is blank by the
    batch rule. *)
Lemma all_empty_mask_lookup (df : DataFrame) (i : nat) :
  Batch.all_empty_mask df !! i = Some true
  <-> exists r, df_rows df !! i = Some r /\ batch_blank (df_columns df) r.
Proof.
  rewrite all_empty_mask_rows, lookup_map.
  destruct (df_rows df !! i) as [r|]; simpl.
  - split.
    + intros [= H]. exists r. split; [done | by apply batch_blank_row_spec].
    + intros (r' & [= <-] & H). apply batch_blank_row_spec in H. by rewrite H.
  - split; [done | intros (r & H & _); done].
Qed.

(** C4. The two routines test blankness differently: the batch mask holds
    at a row when its object cells are Missing and its number cells are
    Missing or 0, the interactive mask when all its cells are Missing. A 0
    in a number column is blank for the first and not for the second; on a
    frame that ends with a row of zeros in a number column the batch routine
    drops that row and the interactive routine keeps it, so the two give
    different frames. *)
Theorem batch_and_interactive_cleaning_differ (P : Parsers) :
  let df := mkDF [("Code Client", DNumber)] [[Num 5]; [Num 0]] in
  let types : gmap string ColumnType := {["Code Client" := Numeric]} in
  let cols := [("Code Client", DNumber); ("Source_File", DObject)] in
  (forall (f : DataFrame) (i : nat),
     Batch.all_empty_mask f !! i = Some true
     <-> exists r, df_rows f !! i = Some r /\ batch_blank (df_columns f) r)
  /\ (forall r, Interactive.row_all_na r = true <-> fully_blank r)
  /\ (forall name, batch_blank [(name, DNumber)] [Num 0])
  /\ ~ fully_blank [Num 0]
  /\ Batch.process_file P "f.xlsx" (ReadOk df)
     = Some (mkDF cols [[Num 5; Str "f.xlsx"]])
  /\ Interactive.clean_and_prepare_df P df "f.xlsx" types
     = mkDF cols [[Num 5; Str "f.xlsx"]; [Num 0; Str "f.xlsx"]]
  /\ Batch.process_file P "f.xlsx" (ReadOk df)
     <> Some (Interactive.clean_and_prepare_df P df "f.xlsx" types).
Proof.
  intros df types cols.
  assert (Batch.process_file P "f.xlsx" (ReadOk df)
          = Some (mkDF cols [[Num 5; Str "f.xlsx"]])) as Hb by reflexivity.
  assert (Interactive.clean_and_prepare_df P df "f.xlsx" types
          = mkDF cols [[Num 5; Str "f.xlsx"]; [Num 0; Str "f.xlsx"]]) as Hi by reflexivity.
  split; [apply all_empty_mask_lookup|]. split; [apply row_all_na_spec|].
  split; [|split; [|split; [exact Hb | split; [exact Hi|]]]].
  - intros name. by apply batch_blank_row_spec.
  - rewrite <- row_all_na_spec. done.
  - rewrite Hb, Hi. discriminate.
Qed.

(** ** Columns and cells through the frame operations *)

Lemma index_of_Some (name : string) (l : list string) (j : nat) :
  DF.index_of name l = Some j -> l !! j = Some name.
Proof.
  unfold DF.index_of. destruct (list_find _ l) as [[i x]|] eqn:E; [|done].
  simpl. intros [= <-]. apply list_find_Some in E as (H & -> & _). done.
Qed.

Lemma index_of_None (name : string) (l : list string) :
  DF.index_of name l = None <-> name ∉ l.
Proof.
  unfold DF.index_of. destruct (list_find _ l) as [[i x]|] eqn:E; simpl.
  - split; [done|]. intros H. destruct H.
    apply list_find_Some in E as (H & -> & _). by apply list_elem_of_lookup_2 in H.
  - split; [|done]. intros _ H. apply list_find_None in E.
    by apply (proj1 (Forall_forall _ _) E name H).
Qed.

Lemma index_of_app_fresh (name : string) (l : list string) :
  name ∉ l -> DF.index_of name (l ++ [name]) = Some (length l).
Proof.
  intros H. apply index_of_None in H. unfold DF.index_of in *.
  destruct (list_find _ l) as [|] eqn:E; [done|].
  rewrite (list_find_app_r _ _ _ E). simpl.
  destruct (decide (name = name)); done.
Qed.

Lemma names_length (df : DataFrame) : length (DF.names df) = length (df_columns df).
Proof. unfold DF.names. by rewrite length_fmap. Qed.

Lemma names_lookup (df : DataFrame) (j : nat) (name : string) :
  DF.names df !! j = Some name -> exists d, df_columns df !! j = Some (name, d).
Proof.
  unfold DF.names. rewrite list_lookup_fmap.
  destruct (df_columns df !! j) as [[n d]|]; simpl; [|done].
  intros [= ->]. by exists d.
Qed.

Lemma names_convert_columns (conv : string -> dtype -> (cell -> cell) * dtype) (df : DataFrame) :
  DF.names (DF.convert_columns conv df) = DF.names df.
Proof.
  unfold DF.names, DF.convert_columns. simpl.
  induction (df_columns df) as [|c cols IH]; [done|]. simpl. by f_equal.
Qed.

Lemma names_applymap (f : cell -> cell) (df : DataFrame) :
  DF.names (DF.applymap f df) = DF.names df.
Proof.
  unfold DF.names, DF.applymap. simpl. rewrite fmap_imap.
  rewrite (imap_ext _ (fun _ => fst)); [apply imap_const | done].
Qed.

Lemma names_assign_scalar_fresh (name : string) (v : cell) (d : dtype) (df : DataFrame) :
  name ∉ DF.names df ->
  DF.names (DF.assign_scalar name v d df) = DF.names df ++ [name]
  /\ df_rows (DF.assign_scalar name v d df) = map (fun r => r ++ [v]) (df_rows df).
Proof.
  intros H. apply index_of_None in H. unfold DF.assign_scalar. rewrite H.
  unfold DF.names. simpl. by rewrite fmap_app.
Qed.

Lemma apply_row_lookup (fs : list (cell -> cell)) (r : list cell) (j : nat) :
  DF.apply_row fs r !! j
  = match fs !! j with Some f => f <$> r !! j | None => r !! j end.
Proof.
  revert r j; induction fs as [|f fs IH]; intros r j.
  - by destruct r.
  - destruct r as [|x r].
    + simpl. rewrite !lookup_nil. by destruct ((f :: fs) !! j).
    + destruct j as [|j]; simpl; [done | apply IH].
Qed.

Lemma apply_row_length (fs : list (cell -> cell)) (r : list cell) :
  length (DF.apply_row fs r) = length r.
Proof.
  revert r; induction fs as [|f fs IH]; intros [|x r]; simpl; try done. by rewrite IH.
Qed.

Lemma rectangular_applymap (f : cell -> cell) (df : DataFrame) :
  DF.rectangular df -> DF.rectangular (DF.applymap f df).
Proof.
  unfold DF.rectangular, DF.applymap. simpl. rewrite length_imap.
  intros H. apply Forall_forall. intros r Hr.
  apply list_elem_of_In, in_map_iff in Hr as (r0 & <- & Hr0).
  rewrite length_map. apply (proj1 (Forall_forall _ _) H). by apply list_elem_of_In.
Qed.

Lemma rectangular_convert_columns (conv : string -> dtype -> (cell -> cell) * dtype)
    (df : DataFrame) :
  DF.rectangular df -> DF.rectangular (DF.convert_columns conv df).
Proof.
  unfold DF.rectangular, DF.convert_columns. simpl. rewrite length_map.
  intros H. apply Forall_forall. intros r Hr.
  apply list_elem_of_In, in_map_iff in Hr as (r0 & <- & Hr0).
  rewrite apply_row_length. apply (proj1 (Forall_forall _ _) H). by apply list_elem_of_In.
Qed.

Lemma rectangular_iloc_to (k : nat) (df : DataFrame) :
  DF.rectangular df -> DF.rectangular (DF.iloc_to k df).
Proof. unfold DF.rectangular, DF.iloc_to. simpl. apply Forall_take. Qed.

Lemma iloc_to_all (df : DataFrame) : DF.iloc_to (length (df_rows df)) df = df.
Proof. destruct df as [cols rows]. unfold DF.iloc_to. simpl. by rewrite firstn_all. Qed.

(** Both trimmers return a prefix of the frame. *)
Lemma interactive_trim_prefix (df : DataFrame) :
  exists k, Interactive.trim df = DF.iloc_to k df.
Proof.
  destruct (interactive_trim_cases df) as [[_ ->] | [(_ & _ & ->) | (_ & k & _ & _ & ->)]];
    [exists (length (df_rows df)); by rewrite iloc_to_all | by exists 0 | by exists (S k)].
Qed.

Lemma batch_trim_prefix (df : DataFrame) :
  exists k, Batch.trim df = DF.iloc_to k df.
Proof.
  destruct (batch_trim_cases df) as [[_ ->] | (k & _ & _ & ->)];
    [exists (length (df_rows df)); by rewrite iloc_to_all | by exists (S k)].
Qed.

Lemma assign_scalar_rectangular (name : string) (v : cell) (d : dtype) (df : DataFrame) :
  DF.rectangular df -> DF.rectangular (DF.assign_scalar name v d df).
Proof.
  unfold DF.rectangular, DF.assign_scalar. intros H.
  destruct (DF.index_of name (DF.names df)) as [j|]; simpl;
    apply Forall_forall; intros r Hr;
    apply list_elem_of_In, in_map_iff in Hr as (r0 & <- & Hr0);
    apply list_elem_of_In in Hr0; pose proof (proj1 (Forall_forall _ _) H r0 Hr0) as Hlen; cbv beta in Hlen.
  - by rewrite !length_insert.
  - rewrite !length_app. simpl. lia.
Qed.

(** After [df[name] = v] every row holds [v] under the column [name]. *)
Lemma assign_scalar_cell (name : string) (v : cell) (d : dtype) (df : DataFrame) (r : list cell) :
  DF.rectangular df ->
  r ∈ df_rows (DF.assign_scalar name v d df) ->
  DF.cell_at (DF.assign_scalar name v d df) r name = Some v.
Proof.
  intros Hrect Hr. unfold DF.cell_at.
  unfold DF.assign_scalar in *.
  destruct (DF.index_of name (DF.names df)) as [j|] eqn:E; simpl in *;
    apply list_elem_of_In, in_map_iff in Hr as (r0 & <- & Hr0);
    apply list_elem_of_In in Hr0; pose proof (proj1 (Forall_forall _ _) Hrect r0 Hr0) as Hlen; cbv beta in Hlen.
  - unfold DF.names. simpl. rewrite list_fmap_insert. simpl.
    pose proof (index_of_Some _ _ _ E) as Hj.
    fold (DF.names df). rewrite (list_insert_id _ _ _ Hj), E. simpl.
    apply list_lookup_insert_eq. rewrite Hlen, <- names_length.
    by apply lookup_lt_Some in Hj.
  - unfold DF.names. simpl. rewrite fmap_app. simpl. fold (DF.names df).
    apply index_of_None in E. rewrite (index_of_app_fresh _ _ E). simpl.
    apply list_lookup_middle. by rewrite Hlen, names_length.
Qed.

(** ** Conversions that look at the whole column *)

Lemma map_imap {A B C : Type} (f : B -> C) (g : nat -> A -> B) (l : list A) :
  map f (imap g l) = imap (fun j x => f (g j x)) l.
Proof. exact (fmap_imap g f l). Qed.

Lemma imap_map_const {A B : Type} (f : A -> B) (l : list A) : imap (fun _ => f) l = map f l.
Proof. exact (imap_const f l). Qed.

(** The cell functions a conversion applies, column by column. *)
Lemma convert_series_rows (conv : string -> dtype -> list cell -> (cell -> cell) * dtype)
    (df : DataFrame) :
  df_rows (DF.convert_series conv df)
  = map (DF.apply_row (imap (fun j c => (conv c.1 c.2 (DF.column_cells j (df_rows df))).1)
                            (df_columns df)))
        (df_rows df).
Proof. unfold DF.convert_series. simpl. by rewrite map_imap. Qed.

Lemma convert_series_columns (conv : string -> dtype -> list cell -> (cell -> cell) * dtype)
    (df : DataFrame) :
  df_columns (DF.convert_series conv df)
  = imap (fun j c => (c.1, (conv c.1 c.2 (DF.column_cells j (df_rows df))).2)) (df_columns df).
Proof. unfold DF.convert_series. simpl. by rewrite map_imap. Qed.

(** A conversion that does not look at the column is a conversion of
    [convert_columns]. *)
Lemma convert_columns_series (conv : string -> dtype -> (cell -> cell) * dtype) (df : DataFrame) :
  DF.convert_columns conv df = DF.convert_series (fun n d _ => conv n d) df.
Proof.
  destruct df as [cols rows]. unfold DF.convert_columns, DF.convert_series. simpl.
  rewrite (imap_map_const (fun c : string * dtype => (c.1, conv c.1 c.2))), !map_map. done.
Qed.

Lemma names_convert_series (conv : string -> dtype -> list cell -> (cell -> cell) * dtype)
    (df : DataFrame) :
  DF.names (DF.convert_series conv df) = DF.names df.
Proof.
  unfold DF.names. rewrite convert_series_columns, fmap_imap.
  rewrite (imap_ext _ (fun _ => fst)); [apply imap_const | done].
Qed.

Lemma rectangular_convert_series (conv : string -> dtype -> list cell -> (cell -> cell) * dtype)
    (df : DataFrame) :
  DF.rectangular df -> DF.rectangular (DF.convert_series conv df).
Proof.
  unfold DF.rectangular. rewrite convert_series_columns, convert_series_rows, length_imap.
  intros H. apply Forall_forall. intros r Hr.
  apply list_elem_of_In, in_map_iff in Hr as (r0 & <- & Hr0).
  rewrite apply_row_length. apply (proj1 (Forall_forall _ _) H). by apply list_elem_of_In.
Qed.

(** A conversion that leaves [v] alone in the column [name] keeps [v] there. *)
Lemma convert_series_cell (conv : string -> dtype -> list cell -> (cell -> cell) * dtype)
    (df : DataFrame) (name : string) (v : cell) :
  (forall d cells, (conv name d cells).1 v = v) ->
  (forall r, r ∈ df_rows df -> DF.cell_at df r name = Some v) ->
  forall r, r ∈ df_rows (DF.convert_series conv df) ->
            DF.cell_at (DF.convert_series conv df) r name = Some v.
Proof.
  intros Hconv Hdf r Hr. unfold DF.cell_at in *. rewrite names_convert_series.
  rewrite convert_series_rows in Hr.
  apply list_elem_of_In, in_map_iff in Hr as (r0 & <- & Hr0).
  apply list_elem_of_In in Hr0. specialize (Hdf r0 Hr0).
  destruct (DF.index_of name (DF.names df)) as [j|] eqn:E; simpl in *; [|done].
  rewrite apply_row_lookup, list_lookup_imap.
  destruct (names_lookup _ _ _ (index_of_Some _ _ _ E)) as [d Hd].
  rewrite Hd, Hdf. simpl. by rewrite Hconv.
Qed.

Lemma forallb_imap {A B : Type} (p : B -> bool) (g : nat -> A -> B) (l : list A) :
  forallb p (imap g l) = true <-> forall j x, l !! j = Some x -> p (g j x) = true.
Proof.
  rewrite forallb_forall. split.
  - intros H j x Hx. apply H, list_elem_of_In, list_elem_of_lookup.
    exists j. by rewrite list_lookup_imap, Hx.
  - intros H y Hy. apply list_elem_of_In, list_elem_of_lookup in Hy as [j Hj].
    rewrite list_lookup_imap in Hj. destruct (l !! j) as [x|] eqn:Hx; [|done].
    injection Hj as <-. by apply H.
Qed.

(** A conversion that can raise gives a frame exactly when no column
    raises, and the frame is then the one of the conversion that leaves the
    other columns alone. *)
Lemma try_convert_series_Some
    (conv : string -> dtype -> list cell -> option ((cell -> cell) * dtype))
    (df out : DataFrame) :
  DF.try_convert_series conv df = Some out <->
  (forall j c, df_columns df !! j = Some c ->
               is_Some (conv c.1 c.2 (DF.column_cells j (df_rows df))))
  /\ out = DF.convert_series (fun n d cells => default (id, d) (conv n d cells)) df.
Proof.
  unfold DF.try_convert_series.
  destruct (forallb _ _) eqn:E.
  - split; [|by intros [_ ->]].
    intros [= <-]. split; [|done]. intros j c Hc.
    apply (proj1 (forallb_imap _ _ _)) with (j := j) (x := c) in E; [|done].
    by apply bool_decide_eq_true in E.
  - split; [done|]. intros [H _].
    apply not_true_iff_false in E. destruct E. apply forallb_imap.
    intros j c Hc. apply bool_decide_eq_true. by apply H.
Qed.

Lemma try_convert_series_None
    (conv : string -> dtype -> list cell -> option ((cell -> cell) * dtype))
    (df : DataFrame) :
  DF.try_convert_series conv df = None <->
  exists j c, df_columns df !! j = Some c
              /\ conv c.1 c.2 (DF.column_cells j (df_rows df)) = None.
Proof.
  split.
  - intros Hn.
    destruct (decide (Exists (fun jc : nat * (string * dtype) =>
                conv jc.2.1 jc.2.2 (DF.column_cells jc.1 (df_rows df)) = None)
                (imap pair (df_columns df)))) as [He|He].
    + apply Exists_exists in He as ([j c] & Hin & Hx).
      apply list_elem_of_lookup in Hin as [i Hi]. rewrite list_lookup_imap in Hi.
      destruct (df_columns df !! i) as [c'|] eqn:Hc; [|done]. injection Hi as <- <-.
      by exists i, c'.
    + assert (is_Some (DF.try_convert_series conv df)) as [out Hout]; [|congruence].
      eexists. apply try_convert_series_Some. split; [|done].
      intros j c Hc. destruct (conv c.1 c.2 _) eqn:Hx; [done|].
      destruct He. apply Exists_exists. exists (j, c). split; [|done].
      apply list_elem_of_lookup. exists j. by rewrite list_lookup_imap, Hc.
  - intros (j & c & Hc & Hx).
    destruct (DF.try_convert_series conv df) as [out|] eqn:E; [|done].
    apply try_convert_series_Some in E as [H _].
    specialize (H j c Hc). rewrite Hx in H. by destruct H.
Qed.

(** ** The base name of a path *)

Lemma rfind_range (c : ascii) (s : string) : (-1 <= PyStr.rfind c s)%Z.
Proof.
  induction s as [|a s IH]; simpl; [lia|].
  destruct (0 <=? PyStr.rfind c s)%Z eqn:E; [apply Z.leb_le in E; lia|].
  destruct (Ascii.eqb a c); lia.
Qed.

Lemma rfind_absent (c : ascii) (s : string) :
  PyStr.rfind c s = (-1)%Z -> forall pre suf, s <> pre +:+ String c suf.
Proof.
  induction s as [|a s IH]; simpl; intros H pre suf Hs.
  - by destruct pre.
  - pose proof (rfind_range c s) as Hr.
    destruct (0 <=? PyStr.rfind c s)%Z eqn:E; [apply Z.leb_le in E; lia|].
    apply Z.leb_gt in E.
    destruct (Ascii.eqb a c) eqn:Ea; [lia|]. apply Ascii.eqb_neq in Ea.
    destruct pre as [|b pre].
    + rewrite append_empty in Hs. congruence.
    + rewrite append_cons in Hs. injection Hs as _ Hs.
      apply (IH ltac:(lia) pre suf Hs).
Qed.

Lemma rfind_found (c : ascii) (s : string) :
  (0 <= PyStr.rfind c s)%Z ->
  exists pre suf, s = pre +:+ String c suf
                  /\ Z.of_nat (String.length pre) = PyStr.rfind c s
                  /\ PyStr.rfind c suf = (-1)%Z.
Proof.
  induction s as [|a s IH]; simpl; [lia|]. intros H.
  pose proof (rfind_range c s) as Hr.
  destruct (0 <=? PyStr.rfind c s)%Z eqn:E.
  - apply Z.leb_le in E. destruct (IH E) as (pre & suf & -> & Hl & Hs).
    exists (String a pre), suf. rewrite append_cons. split; [done|]. split; [|done].
    simpl String.length. lia.
  - apply Z.leb_gt in E. destruct (Ascii.eqb a c) eqn:Ea; [|lia].
    apply Ascii.eqb_eq in Ea as ->. exists EmptyString, s. split; [done|]. split; [done | lia].
Qed.

Lemma slice_from_app (pre suf : string) (c : ascii) :
  PyStr.slice_from (S (String.length pre)) (pre +:+ String c suf) = suf.
Proof. induction pre as [|a pre IH]; [done|]. rewrite append_cons. exact IH. Qed.

(** The base name is what follows the last "/", or the whole path when
    there is none. *)
Lemma basename_spec (p : string) :
  (exists dir, p = dir +:+ PyStr.basename p /\ (dir = EmptyString \/ exists d, dir = d +:+ "/"))
  /\ forall pre suf, PyStr.basename p <> pre +:+ "/" +:+ suf.
Proof.
  unfold PyStr.basename. pose proof (rfind_range "/"%char p) as Hr.
  destruct (decide (PyStr.rfind "/"%char p = (-1)%Z)) as [E|E].
  - rewrite E. simpl. split.
    + exists EmptyString. split; [done | by left].
    + intros pre suf. by apply rfind_absent.
  - destruct (rfind_found "/"%char p ltac:(lia)) as (pre & suf & Hp & Hl & Hs).
    rewrite <- Hl.
    replace (Z.to_nat (Z.of_nat (String.length pre) + 1)) with (S (String.length pre)) by lia.
    clear Hl E Hr. subst p. rewrite slice_from_app. split.
    + exists (pre +:+ "/"). split; [|right; by exists pre].
      clear. induction pre as [|a pre IH]; [done|].
      rewrite !append_cons. by f_equal.
    + intros pre' suf'. by apply rfind_absent.
Qed.

(** ** The provenance column *)

Lemma source_file_not_converted :
  ("Source_File" ∉ Batch.date_cols) /\ ("Source_File" ∉ Batch.numeric_cols).
Proof.
  split; intros H; apply (bool_decide_pack _) in H; vm_compute in H; done.
Qed.

Lemma names_iloc_to (k : nat) (df : DataFrame) : DF.names (DF.iloc_to k df) = DF.names df.
Proof. done. Qed.

Lemma provenance_of_clean
    (conv : list (string -> dtype -> list cell -> (cell -> cell) * dtype))
    (v : cell) (df : DataFrame) :
  DF.rectangular df ->
  Forall (fun c => forall d cells, (c "Source_File" d cells).1 v = v) conv ->
  let out := foldl (fun acc c => DF.convert_series c acc)
                   (DF.assign_scalar "Source_File" v DObject df) conv in
  (forall r, r ∈ df_rows out -> DF.cell_at out r "Source_File" = Some v)
  /\ ("Source_File" ∉ DF.names df -> DF.names out = DF.names df ++ ["Source_File"]).
Proof.
  intros Hrect Hconv.
  pose proof (fun r => assign_scalar_cell "Source_File" v DObject df r Hrect) as Hcell.
  pose proof (fun H => proj1 (names_assign_scalar_fresh "Source_File" v DObject df H)) as Hnames.
  revert Hcell Hnames. generalize (DF.assign_scalar "Source_File" v DObject df) as acc.
  induction Hconv as [|c conv Hc Hconv IH]; intros acc Hcell Hnames; simpl; [done|].
  apply IH.
  - by apply convert_series_cell.
  - by rewrite names_convert_series.
Qed.

(** The frame [process_file] returns, when it returns one: the three
    conversions, one after the other, of the prepared frame. *)
Lemma process_file_Some (P : Parsers) (file : string) (df out : DataFrame) :
  Batch.process_file P file (ReadOk df) = Some out ->
  out = DF.convert_series (fun n d _ => Batch.stringify_objects n d)
          (DF.convert_series
             (Batch.convert_named Batch.numeric_cols (Batch.coerce_number P) (fun d => (id, d)))
             (DF.convert_series
                (fun n d cells =>
                   default (id, d)
                     (Batch.convert_named Batch.date_cols (Batch.format_date P)
                        (fun d => Some (id, d)) n d cells))
                (Batch.prepare file df))).
Proof.
  unfold Batch.process_file. destruct (_ || _); [|done].
  destruct (DF.try_convert_series _ _) as [df1|] eqn:E; [|done]. simpl.
  intros [= <-]. apply try_convert_series_Some in E as [_ ->].
  by rewrite convert_columns_series.
Qed.

(** C10, as amended. The frame returned by either routine has a column
    Source_File that holds, in every row, the base name of the source: what
    follows the last "/" of the source name. When the raw frame has no column
    of that name the column comes after all data columns (a raw column of
    that name is overwritten where it stands). *)
Theorem provenance_column (P : Parsers) (df : DataFrame) (source_name : string)
    (column_types : gmap string ColumnType) :
  DF.rectangular df ->
  let base := PyStr.basename source_name in
  ((exists dir, source_name = dir +:+ base /\ (dir = EmptyString \/ exists d, dir = d +:+ "/"))
   /\ forall pre suf, base <> pre +:+ "/" +:+ suf)
  /\ (let out := Interactive.clean_and_prepare_df P df source_name column_types in
      (forall r, r ∈ df_rows out -> DF.cell_at out r "Source_File" = Some (Str base))
      /\ ("Source_File" ∉ DF.names df -> DF.names out = DF.names df ++ ["Source_File"]))
  /\ (forall out, Batch.process_file P source_name (ReadOk df) = Some out ->
      (forall r, r ∈ df_rows out -> DF.cell_at out r "Source_File" = Some (Str base))
      /\ ("Source_File" ∉ DF.names df -> DF.names out = DF.names df ++ ["Source_File"])).
Proof.
  intros Hrect base. split; [apply basename_spec|]. split.
  - unfold Interactive.clean_and_prepare_df. rewrite convert_columns_series.
    set (df2 := DF.convert_series _ (DF.applymap detect_missing df)).
    destruct (interactive_trim_prefix df2) as [k ->].
    assert (DF.rectangular (DF.iloc_to k df2)) as Hr.
    { by apply rectangular_iloc_to, rectangular_convert_series, rectangular_applymap. }
    assert (DF.names (DF.iloc_to k df2) = DF.names df) as Hn.
    { unfold df2. by rewrite names_iloc_to, names_convert_series, names_applymap. }
    destruct (provenance_of_clean [fun n d _ => Interactive.final_format column_types n d]
                (Str base) _ Hr) as [H1 H2].
    + constructor; [|constructor]. intros d _. unfold Interactive.final_format.
      destruct (decide ("Source_File" = "Source_File")); [reflexivity | done].
    + simpl in *. rewrite Hn in H2. done.
  - intros out Hout. apply process_file_Some in Hout as ->. unfold Batch.prepare.
    set (df1 := DF.applymap detect_missing df).
    destruct (batch_trim_prefix df1) as [k ->].
    assert (DF.rectangular (DF.iloc_to k df1)) as Hr.
    { by apply rectangular_iloc_to, rectangular_applymap. }
    assert (DF.names (DF.iloc_to k df1) = DF.names df) as Hn.
    { unfold df1. by rewrite names_iloc_to, names_applymap. }
    destruct source_file_not_converted as [Hd Hnum].
    destruct (provenance_of_clean
                [fun n d cells =>
                   default (id, d)
                     (Batch.convert_named Batch.date_cols (Batch.format_date P)
                        (fun d => Some (id, d)) n d cells);
                 Batch.convert_named Batch.numeric_cols (Batch.coerce_number P)
                   (fun d => (id, d));
                 fun n d _ => Batch.stringify_objects n d] (Str base) _ Hr) as [H1 H2].
    + constructor; [|constructor; [|constructor; [|constructor]]]; intros d cells.
      * unfold Batch.convert_named.
        destruct (decide ("Source_File" ∈ Batch.date_cols)) as [Hx|]; [by destruct (Hd Hx) | reflexivity].
      * unfold Batch.convert_named.
        destruct (decide ("Source_File" ∈ Batch.numeric_cols)) as [Hx|];
          [by destruct (Hnum Hx) | reflexivity].
      * unfold Batch.stringify_objects. destruct (decide (d = DObject)); reflexivity.
    + simpl in *. rewrite Hn in H2. done.
Qed.

Lemma provenance_column_witness :
  let df := mkDF [("Nom", DObject)] [[Str "x"]; [Str "y"]] in
  DF.names (Interactive.clean_and_prepare_df Sample.parsers df "in/2024/f.xlsx" {["Nom" := Text]})
  = ["Nom"; "Source_File"].
Proof.
  intros df.
  destruct (provenance_column Sample.parsers df "in/2024/f.xlsx" {["Nom" := Text]})
    as (_ & [_ H] & _).
  - repeat constructor.
  - apply H. intros Hin. apply (bool_decide_pack _) in Hin. vm_compute in Hin. done.
Defined.

(** C10, as it was stated: a raw column that is already called Source_File
    is overwritten where it stands, before the data column "A". *)
Lemma provenance_overwrites_named_column :
  let df := mkDF [("Source_File", DObject); ("A", DObject)] [[Str "u"; Str "v"]] in
  Interactive.clean_and_prepare_df Sample.parsers df "f.xlsx"
    (App.suggest_types ["Source_File"; "A"])
  = mkDF [("Source_File", DObject); ("A", DObject)] [[Str "f.xlsx"; Str "v"]].
Proof. reflexivity. Qed.

(** ** Cells of the cleaned frame *)

Lemma apply_row_app (fs gs : list (cell -> cell)) (r s : list cell) :
  length r = length fs ->
  DF.apply_row (fs ++ gs) (r ++ s) = DF.apply_row fs r ++ DF.apply_row gs s.
Proof.
  revert r; induction fs as [|f fs IH]; intros [|x r] H; simpl in *; try done.
  f_equal. apply IH. lia.
Qed.

Lemma column_cells_lookup (rows : list (list cell)) (i j : nat) (r : list cell) (x : cell) :
  rows !! i = Some r -> r !! j = Some x -> x ∈ DF.column_cells j rows.
Proof.
  intros Hr Hx. unfold DF.column_cells. apply list_elem_of_omap.
  exists r. split; [by apply list_elem_of_lookup_2 in Hr | done].
Qed.

(** The elements of a converted column are the converted elements. *)
Lemma column_cells_converted (fs : list (cell -> cell)) (f : cell -> cell)
    (rows : list (list cell)) (j : nat) :
  fs !! j = Some f ->
  DF.column_cells j (map (DF.apply_row fs) rows) = map f (DF.column_cells j rows).
Proof.
  intros Hf. unfold DF.column_cells.
  induction rows as [|r rows IH]; [done|]. cbn [map]. rewrite !omap_cons, IH.
  rewrite apply_row_lookup, Hf. by destruct (r !! j).
Qed.

(** A column of a frame is not touched by a column added at the end. *)
Lemma column_cells_snoc (rows : list (list cell)) (v : cell) (j n : nat) :
  Forall (fun r => length r = n) rows -> j < n ->
  DF.column_cells j (map (fun r => r ++ [v]) rows) = DF.column_cells j rows.
Proof.
  intros Hrows Hj. unfold DF.column_cells.
  induction Hrows as [|r rows Hr Hrows IH]; [done|]. cbn [map]. rewrite !omap_cons, IH.
  rewrite lookup_app_l by lia. done.
Qed.

Lemma detected_column (df : DataFrame) (j : nat) (n : string) :
  DF.names df !! j = Some n ->
  df_columns (DF.applymap detect_missing df) !! j = Some (n, detected_dtype df j).
Proof.
  intros Hn. destruct (names_lookup _ _ _ Hn) as [d0 Hd0].
  unfold DF.applymap. simpl. by rewrite list_lookup_imap, Hd0.
Qed.

Lemma detected_column_dtype (df : DataFrame) (j : nat) (c : string * dtype) :
  df_columns (DF.applymap detect_missing df) !! j = Some c -> c.2 = detected_dtype df j.
Proof.
  unfold DF.applymap. simpl. rewrite list_lookup_imap.
  destruct (df_columns df !! j); simpl; [|done]. by intros [= <-].
Qed.

Lemma detected_length (df : DataFrame) :
  length (df_columns (DF.applymap detect_missing df)) = length (df_columns df).
Proof. unfold DF.applymap. simpl. by rewrite length_imap. Qed.

(** A column that holds a null after the detection is an object column. *)
Lemma infer_dtype_with_na (cells : list cell) (k : na_kind) :
  NA k ∈ cells -> DF.infer_dtype cells = DObject.
Proof.
  intros Hin. unfold DF.infer_dtype. destruct cells as [|c cells]; [done|].
  destruct (forallb DF.is_num (c :: cells)) eqn:E.
  - apply list_elem_of_In in Hin. by apply (proj1 (forallb_forall _ _) E) in Hin.
  - destruct (forallb DF.is_ts (c :: cells)) eqn:E'; [|done].
    apply list_elem_of_In in Hin. by apply (proj1 (forallb_forall _ _) E') in Hin.
Qed.

(** The two conversions of the interactive routine, one after the other,
    are the cell function [normalize] column by column. *)
Lemma normalize_row (P : Parsers) (m : gmap string ColumnType) (df : DataFrame) (r : list cell) :
  length r = length (df_columns df) ->
  let det := DF.applymap detect_missing df in
  let df2 := DF.convert_series (Interactive.apply_type P m) det in
  DF.apply_row (map (fun c => (Interactive.final_format m c.1 c.2).1) (df_columns df2))
    (DF.apply_row (imap (fun j c => (Interactive.apply_type P m c.1 c.2
                                       (DF.column_cells j (df_rows det))).1)
                        (df_columns det))
                  (map detect_missing r))
  = DF.apply_row (imap (fun j c => Interactive.normalize P m c.1 c.2
                                     (DF.column_cells j (df_rows det)))
                       (df_columns det)) r.
Proof.
  intros Hlen det df2. apply list_eq. intros j.
  rewrite !apply_row_lookup, lookup_map. unfold df2.
  rewrite convert_series_columns, !list_lookup_imap, lookup_map.
  destruct (df_columns det !! j) as [[n d]|] eqn:E; simpl.
  - by destruct (r !! j).
  - apply lookup_ge_None in E. unfold det in E. rewrite detected_length, <- Hlen in E.
    apply lookup_ge_None in E. by rewrite E.
Qed.

(** Every row of the frame [clean_and_prepare_df] returns is a raw row, in
    order and up to some row, normalized cell by cell, followed by the base
    name of the source. *)
Lemma clean_rows_normalized (P : Parsers) (df : DataFrame) (source_file_name : string)
    (m : gmap string ColumnType) :
  DF.rectangular df ->
  "Source_File" ∉ DF.names df ->
  let det := DF.applymap detect_missing df in
  exists k,
    df_rows (Interactive.clean_and_prepare_df P df source_file_name m)
    = map (fun r => DF.apply_row
                      (imap (fun j c => Interactive.normalize P m c.1 c.2
                                          (DF.column_cells j (df_rows det)))
                            (df_columns det)) r
                    ++ [Str (PyStr.basename source_file_name)])
          (take k (df_rows df)).
Proof.
  intros Hrect Hfresh det. unfold Interactive.clean_and_prepare_df. fold det.
  set (df2 := DF.convert_series (Interactive.apply_type P m) det).
  destruct (interactive_trim_prefix df2) as [k ->]. exists k.
  assert ("Source_File" ∉ DF.names (DF.iloc_to k df2)) as Hf2.
  { unfold df2, det. by rewrite names_iloc_to, names_convert_series, names_applymap. }
  apply index_of_None in Hf2. unfold DF.assign_scalar. rewrite Hf2.
  unfold DF.convert_columns at 1. cbn [df_rows df_columns DF.iloc_to].
  unfold df2 at 2. rewrite convert_series_rows. unfold det at 3. cbn [df_rows DF.applymap].
  rewrite <- !firstn_map, !map_map, !firstn_map. apply map_ext_in. intros r Hr.
  assert (length r = length (df_columns df)) as Hlen.
  { apply (proj1 (Forall_forall _ _) Hrect).
    apply (subseteq_take k (df_rows df)). by apply list_elem_of_In. }
  rewrite map_app, apply_row_app.
  - f_equal. exact (normalize_row P m df r Hlen).
  - rewrite apply_row_length, !length_map. unfold df2.
    rewrite convert_series_columns, length_imap. unfold det. by rewrite detected_length.
Qed.

(** The cell of the cleaned frame at row [i] under the column [j] of the
    raw frame is the normalized cell of the raw frame at that place. *)
Lemma clean_cell (P : Parsers) (df : DataFrame) (source : string)
    (m : gmap string ColumnType) (i j : nat) (n : string) (row : list cell) :
  DF.rectangular df ->
  "Source_File" ∉ DF.names df ->
  df_rows (Interactive.clean_and_prepare_df P df source m) !! i = Some row ->
  DF.names df !! j = Some n ->
  exists raw x,
    df_rows df !! i = Some raw /\ raw !! j = Some x
    /\ row !! j = Some (Interactive.normalize P m n (detected_dtype df j) (detected_cells df j) x).
Proof.
  intros Hrect Hfresh Hrow Hn.
  destruct (clean_rows_normalized P df source m Hrect Hfresh) as [k Hrows].
  rewrite Hrows, lookup_map in Hrow.
  destruct (take k (df_rows df) !! i) as [raw|] eqn:Hraw; [|done].
  apply (inj Some) in Hrow. subst row. cbv beta.
  apply lookup_take_Some in Hraw as [Hraw _].
  assert (length raw = length (df_columns df)) as Hlen.
  { apply (proj1 (Forall_forall _ _) Hrect). by apply list_elem_of_lookup_2 in Hraw. }
  pose proof (lookup_lt_Some _ _ _ Hn) as Hj. rewrite names_length in Hj.
  destruct (lookup_lt_is_Some_2 raw j ltac:(lia)) as [x Hx].
  exists raw, x. split; [done|]. split; [done|].
  rewrite lookup_app_l by (rewrite apply_row_length; lia).
  by rewrite apply_row_lookup, list_lookup_imap, (detected_column _ _ _ Hn), Hx.
Qed.

(** ** Cells of the frame the batch routine returns *)

(** Two conversions in a row are one conversion: the second one sees the
    dtype and the elements the first one has made. *)
Lemma convert_series_twice
    (conv conv' : string -> dtype -> list cell -> (cell -> cell) * dtype) (df : DataFrame) :
  DF.convert_series conv' (DF.convert_series conv df)
  = DF.convert_series
      (fun n d cells =>
         let a := conv n d cells in
         let b := conv' n a.2 (map a.1 cells) in
         (fun x => b.1 (a.1 x), b.2))
      df.
Proof.
  assert (forall j c, df_columns df !! j = Some c ->
            DF.column_cells j (df_rows (DF.convert_series conv df))
            = map (conv c.1 c.2 (DF.column_cells j (df_rows df))).1
                  (DF.column_cells j (df_rows df))) as Hcells.
  { intros j c Hc. rewrite convert_series_rows. apply column_cells_converted.
    by rewrite list_lookup_imap, Hc. }
  assert (forall a b : DataFrame, df_columns a = df_columns b -> df_rows a = df_rows b -> a = b)
    as Heq.
  { intros [] []; simpl; congruence. }
  apply Heq.
  - rewrite !convert_series_columns. apply list_eq. intros j. rewrite !list_lookup_imap.
    destruct (df_columns df !! j) as [c|] eqn:Hc; [|done].
    by rewrite (Hcells j c Hc).
  - etransitivity; [apply convert_series_rows|].
    symmetry. etransitivity; [apply convert_series_rows|]. symmetry.
    rewrite convert_series_columns. apply list_eq. intros i. rewrite !lookup_map.
    assert (df_rows (DF.convert_series conv df) !! i
            = DF.apply_row (imap (fun j c => (conv c.1 c.2 (DF.column_cells j (df_rows df))).1)
                                 (df_columns df)) <$> df_rows df !! i) as ->.
    { by rewrite convert_series_rows, lookup_map. }
    destruct (df_rows df !! i) as [r|]; [|done]. cbn [fmap option_fmap option_map]. f_equal.
    apply list_eq. intros j.
    rewrite !apply_row_lookup, !list_lookup_imap.
    destruct (df_columns df !! j) as [c|] eqn:Hc; [|done].
    rewrite (Hcells j c Hc). by destruct (r !! j).
Qed.

Lemma heuristic_tables_disjoint :
  (forall n, n ∈ Batch.date_cols -> n ∈ Batch.numeric_cols -> False)
  /\ "Source_File" ∉ Batch.date_cols.
Proof.
  split; [|apply source_file_not_converted].
  intros n Hd Hn. unfold Batch.date_cols in Hd.
  repeat (apply elem_of_cons in Hd as [-> | Hd];
          [apply (bool_decide_pack _) in Hn; vm_compute in Hn; done|]).
  by apply elem_of_nil in Hd.
Qed.

(** The three conversions of [process_file], as one conversion of the
    prepared frame. *)
Lemma process_file_conversion (P : Parsers) (file : string) (df out : DataFrame) :
  Batch.process_file P file (ReadOk df) = Some out ->
  out = DF.convert_series (batch_conversion P) (Batch.prepare file df).
Proof.
  intros H. apply process_file_Some in H as ->.
  by rewrite !convert_series_twice.
Qed.

(** When [process_file] returns a frame, the [dt] accessor has not raised
    on any date column. *)
Lemma process_file_dates (P : Parsers) (file : string) (df out : DataFrame)
    (j : nat) (c : string * dtype) :
  Batch.process_file P file (ReadOk df) = Some out ->
  df_columns (Batch.prepare file df) !! j = Some c ->
  c.1 ∈ Batch.date_cols ->
  Pd.to_datetime_dtype P c.2 (DF.column_cells j (df_rows (Batch.prepare file df))) = DDatetime.
Proof.
  unfold Batch.process_file. destruct (_ || _); [|done].
  destruct (DF.try_convert_series _ _) as [df1|] eqn:E; [|done]. intros _ Hc Hin.
  apply try_convert_series_Some in E as [H _]. specialize (H j c Hc).
  unfold Batch.convert_named, Batch.format_date, Pd.dt_raises in H.
  destruct (decide (c.1 ∈ Batch.date_cols)); [|done].
  destruct (decide (Pd.to_datetime_dtype P c.2
                      (DF.column_cells j (df_rows (Batch.prepare file df))) = DDatetime))
    as [Hd|Hd]; [done|].
  rewrite (bool_decide_eq_false_2 _ Hd) in H. by destruct H.
Qed.

(** The prepared frame: the detected frame cut after some row, with the
    provenance column added. *)
Lemma prepare_spec (file : string) (df : DataFrame) :
  "Source_File" ∉ DF.names df ->
  let det := DF.applymap detect_missing df in
  exists k,
    Batch.prepare file df
    = {| df_columns := df_columns det ++ [("Source_File", DObject)];
         df_rows := map (fun r => r ++ [Str (PyStr.basename file)]) (take k (df_rows det)) |}.
Proof.
  intros Hfresh det. unfold Batch.prepare. fold det.
  destruct (batch_trim_prefix det) as [k ->]. exists k.
  assert ("Source_File" ∉ DF.names (DF.iloc_to k det)) as Hf1.
  { unfold det. by rewrite names_iloc_to, names_applymap. }
  apply index_of_None in Hf1. unfold DF.assign_scalar. by rewrite Hf1.
Qed.

Lemma batch_conversion_source (P : Parsers) (cells : list cell) (s : string) :
  (batch_conversion P "Source_File" DObject cells).1 (Str s) = Str s.
Proof.
  destruct source_file_not_converted as [Hd Hn].
  unfold batch_conversion, Batch.convert_named.
  destruct (decide ("Source_File" ∈ Batch.date_cols)) as [H|_]; [by destruct (Hd H)|].
  destruct (decide ("Source_File" ∈ Batch.numeric_cols)) as [H|_]; [by destruct (Hn H)|].
  reflexivity.
Qed.

(** Every row of the frame [process_file] returns is a raw row, in order and
    up to some row, converted cell by cell, followed by the base name. What
    a cell becomes depends on its column as it is after the trailing rows
    are removed. *)
Lemma process_file_rows (P : Parsers) (df out : DataFrame) (file : string) :
  DF.rectangular df ->
  "Source_File" ∉ DF.names df ->
  Batch.process_file P file (ReadOk df) = Some out ->
  let det := DF.applymap detect_missing df in
  exists k,
    Batch.prepare file df
    = {| df_columns := df_columns det ++ [("Source_File", DObject)];
         df_rows := map (fun r => r ++ [Str (PyStr.basename file)]) (take k (df_rows det)) |}
    /\ df_rows out
       = map (fun r => DF.apply_row
                         (imap (fun j c => batch_cell P c.1 c.2
                                             (DF.column_cells j (take k (df_rows det))))
                               (df_columns det)) r
                       ++ [Str (PyStr.basename file)])
             (take k (df_rows df)).
Proof.
  intros Hrect Hfresh Hout det.
  apply process_file_conversion in Hout as ->.
  destruct (prepare_spec file df Hfresh) as [k Hp]. fold det in Hp.
  exists k. split; [exact Hp|]. rewrite Hp, convert_series_rows.
  cbn [df_rows df_columns]. rewrite imap_app.
  set (v := Str (PyStr.basename file)).
  assert (Forall (fun r => length r = length (df_columns det)) (take k (df_rows det))) as Hrk.
  { apply Forall_take. exact (rectangular_applymap detect_missing df Hrect). }
  unfold det at 5. cbn [df_rows DF.applymap].
  rewrite <- !firstn_map, !map_map, !firstn_map. apply map_ext_in. intros r Hr.
  assert (length r = length (df_columns df)) as Hlen.
  { apply (proj1 (Forall_forall _ _) Hrect).
    apply (subseteq_take k (df_rows df)). by apply list_elem_of_In. }
  rewrite apply_row_app by (rewrite length_map, length_imap; unfold det;
                            by rewrite detected_length).
  assert (forall a b c d : list cell, a = b -> c = d -> a ++ c = b ++ d) as Happ
    by (intros; congruence).
  apply Happ.
  - apply list_eq. intros j.
    rewrite !apply_row_lookup, !list_lookup_imap, lookup_map.
    destruct (df_columns det !! j) as [c|] eqn:Hc.
    + cbn [fmap option_fmap option_map].
      rewrite (column_cells_snoc _ _ _ _ Hrk) by (by apply lookup_lt_Some in Hc).
      by destruct (r !! j).
    + apply lookup_ge_None in Hc. unfold det in Hc. rewrite detected_length in Hc.
      rewrite (proj2 (lookup_ge_None r j)); [done | lia].
  - cbn [imap DF.apply_row]. f_equal; apply batch_conversion_source.
Qed.

(** The cell of the frame [process_file] returns at row [i] under the
    column [j] of the raw frame. *)
Lemma batch_cell_of_row (P : Parsers) (df out : DataFrame) (file : string)
    (row : list cell) (i j : nat) (n : string) :
  DF.rectangular df ->
  "Source_File" ∉ DF.names df ->
  Batch.process_file P file (ReadOk df) = Some out ->
  df_rows out !! i = Some row ->
  DF.names df !! j = Some n ->
  exists raw x cells,
    df_rows df !! i = Some raw /\ raw !! j = Some x
    /\ row !! j = Some (batch_cell P n (detected_dtype df j) cells x)
    /\ detect_missing x ∈ detected_cells df j
    /\ (n ∈ Batch.date_cols ->
        Pd.to_datetime_dtype P (detected_dtype df j) cells = DDatetime).
Proof.
  intros Hrect Hfresh Hout Hrow Hn.
  destruct (process_file_rows P df out file Hrect Hfresh Hout) as (k & Hp & Hrows).
  set (det := DF.applymap detect_missing df) in *.
  rewrite Hrows, lookup_map in Hrow.
  destruct (take k (df_rows df) !! i) as [raw|] eqn:Hraw; [|done].
  apply (inj Some) in Hrow. subst row. cbv beta.
  apply lookup_take_Some in Hraw as [Hraw _].
  assert (length raw = length (df_columns df)) as Hlen.
  { apply (proj1 (Forall_forall _ _) Hrect). by apply list_elem_of_lookup_2 in Hraw. }
  pose proof (lookup_lt_Some _ _ _ Hn) as Hj. rewrite names_length in Hj.
  destruct (lookup_lt_is_Some_2 raw j ltac:(lia)) as [x Hx].
  pose proof (detected_column _ _ _ Hn) as Hc. fold det in Hc.
  exists raw, x, (DF.column_cells j (take k (df_rows det))).
  split; [done|]. split; [done|]. split; [|split].
  - rewrite lookup_app_l by (rewrite apply_row_length; lia).
    by rewrite apply_row_lookup, list_lookup_imap, Hc, Hx.
  - unfold detected_cells. fold det. apply (column_cells_lookup _ i j (map detect_missing raw)).
    + unfold det. cbn [df_rows DF.applymap]. by rewrite lookup_map, Hraw.
    + by rewrite lookup_map, Hx.
  - intros Hd.
    pose proof (process_file_dates P file df out j (n, detected_dtype df j) Hout) as H.
    rewrite Hp in H. cbn [df_columns df_rows] in H.
    assert (Forall (fun r => length r = length (df_columns det)) (take k (df_rows det))) as Hrk.
    { apply Forall_take. exact (rectangular_applymap detect_missing df Hrect). }
    rewrite (column_cells_snoc _ _ _ _ Hrk) in H
      by (unfold det; rewrite detected_length; lia).
    apply H; [|done]. rewrite lookup_app_l; [done|].
    unfold det. rewrite detected_length. lia.
Qed.

Lemma batch_cell_numeric (P : Parsers) (n : string) (d : dtype) (cells : list cell) (x : cell) :
  n ∈ Batch.numeric_cols ->
  batch_cell P n d cells x = Pd.to_numeric P d (detect_missing x).
Proof.
  intros Hn. destruct heuristic_tables_disjoint as [Hdisj _].
  unfold batch_cell, batch_conversion, Batch.convert_named.
  destruct (decide (n ∈ Batch.date_cols)) as [Hd|_]; [destruct (Hdisj n Hd Hn)|].
  destruct (decide (n ∈ Batch.numeric_cols)); [|done]. reflexivity.
Qed.

(** ** Cell normalization *)

Lemma lower_char_na (a : ascii) :
  (PyStr.lower_char a = "n"%char -> PyStr.upper_char a = "N"%char /\ nat_of_ascii a <> 195)
  /\ (PyStr.lower_char a = "/"%char -> PyStr.upper_char a = "/"%char /\ nat_of_ascii a <> 195)
  /\ (PyStr.lower_char a = "a"%char -> PyStr.upper_char a = "A"%char).
Proof.
  destruct a as [[] [] [] [] [] [] [] []]; vm_compute;
    (split; [|split]); intros H; try discriminate H; try (split; [reflexivity | discriminate]);
    reflexivity.
Qed.

(** A string that lowercases to "n/a" uppercases to "N/A". *)
Lemma lower_na_upper (t : string) :
  PyStr.lower t = "n/a" -> PyStr.upper t = "N/A".
Proof.
  unfold PyStr.lower.
  destruct t as [|a [|b [|c [|e t]]]]; try discriminate.
  cbn [PyStr.lower_from PyStr.upper andb]. intros H. injection H as Ha Hb Hc.
  destruct (proj1 (lower_char_na a) Ha) as [Ua Na].
  apply Nat.eqb_neq in Na. rewrite Na in Hb. cbn [andb] in Hb.
  destruct (proj1 (proj2 (lower_char_na b)) Hb) as [Ub Nb].
  apply Nat.eqb_neq in Nb. rewrite Nb in Hc. cbn [andb] in Hc.
  pose proof (proj2 (proj2 (lower_char_na c)) Hc) as Uc.
  by rewrite Ua, Ub, Uc.
Qed.

Lemma upper_char_na (a : ascii) :
  (PyStr.upper_char a = "N"%char -> PyStr.lower_char a = "n"%char /\ nat_of_ascii a <> 195)
  /\ (PyStr.upper_char a = "/"%char -> PyStr.lower_char a = "/"%char /\ nat_of_ascii a <> 195)
  /\ (PyStr.upper_char a = "A"%char -> PyStr.lower_char a = "a"%char).
Proof.
  destruct a as [[] [] [] [] [] [] [] []]; vm_compute;
    (split; [|split]); intros H; try discriminate H; try (split; [reflexivity | discriminate]);
    reflexivity.
Qed.

Lemma upper_na_lower (t : string) :
  PyStr.upper t = "N/A" -> PyStr.lower t = "n/a".
Proof.
  unfold PyStr.lower.
  destruct t as [|a [|b [|c [|e t]]]]; try discriminate.
  cbn [PyStr.lower_from PyStr.upper andb]. intros H. injection H as Ha Hb Hc.
  destruct (proj1 (upper_char_na a) Ha) as [La Na].
  destruct (proj1 (proj2 (upper_char_na b)) Hb) as [Lb Nb].
  pose proof (proj2 (proj2 (upper_char_na c)) Hc) as Lc.
  apply Nat.eqb_neq in Na, Nb. rewrite Na, Nb. cbn [andb]. by rewrite La, Lb, Lc.
Qed.

(** The detection replaces a cell by [pd.NA] when the cell stands for no
    value, and leaves it as it is otherwise. *)
Lemma detect_missing_spec (x : cell) :
  (missing_like x /\ detect_missing x = NA PdNA)
  \/ (~ missing_like x /\ detect_missing x = x).
Proof.
  destruct x as [k|s|n|t].
  - left. split; [constructor | done].
  - unfold detect_missing. simpl.
    destruct (String.eqb (PyStr.strip s) EmptyString) eqn:E1; simpl.
    + left. split; [|done]. apply ml_blank. by apply String.eqb_eq.
    + destruct (String.eqb (PyStr.upper (PyStr.strip s)) "N/A") eqn:E2.
      * left. split; [|done]. apply ml_na, upper_na_lower. by apply String.eqb_eq.
      * right. split; [|done]. intros Hm. inversion Hm as [|s' Hs|s' Hs]; subst.
        -- apply String.eqb_neq in E1. done.
        -- apply String.eqb_neq in E2. apply E2. by apply lower_na_upper.
  - right. split; [|done]. intros Hm. inversion Hm.
  - right. split; [|done]. intros Hm. inversion Hm.
Qed.

Lemma detect_missing_like (x : cell) : missing_like x -> detect_missing x = NA PdNA.
Proof. intros H. by destruct (detect_missing_spec x) as [[_ E] | [Hn _]]. Qed.


(** The conversion of step 2 keeps a null of an object column Missing, and
    so does the formatting of step 4. *)
Lemma normalize_of_na (P : Parsers) (m : gmap string ColumnType) (col_name : string)
    (d : dtype) (cells : list cell) (x : cell) :
  detect_missing x = NA PdNA -> d <> DDatetime ->
  missing ((Interactive.apply_type P m col_name d cells).1 (detect_missing x))
  /\ missing (Interactive.normalize P m col_name d cells x).
Proof.
  intros H Hd. unfold Interactive.normalize, Interactive.apply_type, Interactive.final_format.
  rewrite H. destruct (decide (col_name = "Source_File")) as [_|_];
    destruct (m !! col_name) as [[| |]|]; simpl;
    unfold Pd.to_numeric, Pd.to_datetime, Pd.to_datetime_dtype;
    destruct (decide (d = DDatetime)); try done;
    try (destruct d; try done; simpl; split; by eexists);
    try (split; by eexists);
    destruct (mixed_offsets P cells); simpl; split; by eexists.
Qed.

(** C1. A raw cell that is null, or a string that is empty once trimmed, or
    one that reads "n/a", whatever the case, once trimmed, is replaced by
    [pd.NA] by the detection that both routines run first. The interactive
    routine returns a Missing cell at its place, whatever the type (Text,
    Numeric, Date or none) the type map gives its column, and so does the
    batch routine under the columns it converts to numbers. Under a text
    column the batch routine returns the text "<NA>" instead: on the sheet
    with the cells "N/A" and "x" under Nom, [astype(str)] has printed the
    [pd.NA], where the interactive routine returns [pd.NA]. *)
Theorem missing_detected_before_coercion (P : Parsers) (df : DataFrame) (source : string)
    (column_types : gmap string ColumnType) (i j : nat) (raw : list cell) (v : cell) :
  DF.rectangular df ->
  "Source_File" ∉ DF.names df ->
  df_rows df !! i = Some raw ->
  raw !! j = Some v ->
  missing_like v ->
  detect_missing v = NA PdNA
  /\ (forall row,
        df_rows (Interactive.clean_and_prepare_df P df source column_types) !! i = Some row ->
        exists y, row !! j = Some y /\ missing y)
  /\ (forall out row n,
        Batch.process_file P source (ReadOk df) = Some out ->
        df_rows out !! i = Some row ->
        DF.names df !! j = Some n -> n ∈ Batch.numeric_cols ->
        row !! j = Some (NA NaN))
  /\ (let sheet := mkDF [("Nom", DObject)] [[Str "N/A"]; [Str "x"]] in
      let cols := [("Nom", DObject); ("Source_File", DObject)] in
      Batch.process_file P "f.xlsx" (ReadOk sheet)
      = Some (mkDF cols [[Str "<NA>"; Str "f.xlsx"]; [Str "x"; Str "f.xlsx"]])
      /\ Interactive.clean_and_prepare_df P sheet "f.xlsx" {["Nom" := Text]}
         = mkDF cols [[NA PdNA; Str "f.xlsx"]; [Str "x"; Str "f.xlsx"]]).
Proof.
  intros Hrect Hfresh Hraw Hv Hm.
  pose proof (detect_missing_like v Hm) as Hdet.
  assert (j < length (DF.names df)) as Hj.
  { rewrite names_length, <- (proj1 (Forall_forall _ _) Hrect raw).
    - by apply lookup_lt_Some in Hv.
    - by apply list_elem_of_lookup_2 in Hraw. }
  destruct (lookup_lt_is_Some_2 _ _ Hj) as [n Hn].
  assert (detected_dtype df j = DObject) as Hd.
  { apply (infer_dtype_with_na _ PdNA). rewrite <- Hdet.
    apply (column_cells_lookup _ i j (map detect_missing raw)).
    - cbn [df_rows DF.applymap]. by rewrite lookup_map, Hraw.
    - by rewrite lookup_map, Hv. }
  split; [exact Hdet|]. split; [|split; [|split; reflexivity]].
  - intros row Hrow.
    destruct (clean_cell P df source column_types i j n row Hrect Hfresh Hrow Hn)
      as (raw' & x & Hraw' & Hx & Hy).
    assert (x = v) as -> by congruence.
    eexists. split; [exact Hy|].
    apply normalize_of_na; [done|]. by rewrite Hd.
  - intros out row n' Hout Hrow Hn' Hnum.
    destruct (batch_cell_of_row P df out source row i j n' Hrect Hfresh Hout Hrow Hn')
      as (raw' & x & cells & Hraw' & Hx & Hy & _).
    assert (x = v) as -> by congruence.
    by rewrite Hy, (batch_cell_numeric _ _ _ _ _ Hnum), Hdet, Hd.
Qed.

Lemma missing_detected_before_coercion_witness :
  let df := mkDF [("Montant", DObject); ("Nom", DObject)]
                 [[Num 12; Str "x"]; [Str "  n/A "; Str "y"]] in
  exists y, [NA NaN; Str "y"; Str "f.xlsx"] !! 0 = Some y /\ missing y.
Proof.
  intros df.
  destruct (missing_detected_before_coercion Sample.parsers df "f.xlsx"
              {["Montant" := Numeric; "Nom" := Text]} 1 0 [Str "  n/A "; Str "y"]
              (Str "  n/A ")) as (_ & H & _).
  - repeat constructor.
  - intros Hin. apply (bool_decide_pack _) in Hin. vm_compute in Hin. done.
  - reflexivity.
  - reflexivity.
  - apply ml_na. reflexivity.
  - apply H. reflexivity.
Defined.



(** ** What reaches the database *)

(** C2, on the batch routine. A cell "N/A" of a text column is replaced by
    [pd.NA], printed as the string "<NA>" by [astype(str)], and written to
    the table as that string: only "nan" is replaced before [to_sql]. The
    interactive application stores a null for the same file. *)
Theorem batch_writes_na_as_text (P : Parsers) :
  let raw := mkDF [("Nom", DObject)] [[Str "N/A"]; [Str "x"]] in
  let names := ["Nom"; "Source_File"] in
  Table.to_sql <$> BatchRun.final_df P [("data/f.xlsx", ReadOk raw)]
  = Some (names, [[Table.SqlText "<NA>"; Table.SqlText "f.xlsx"];
                  [Table.SqlText "x"; Table.SqlText "f.xlsx"]])
  /\ Table.to_sql <$> App.processed_df P (App.handle_upload [App.mkFile "f.xlsx" (ReadOk raw)])
     = Some (names, [[Table.Null; Table.SqlText "f.xlsx"];
                     [Table.SqlText "x"; Table.SqlText "f.xlsx"]]).
Proof. split; reflexivity. Qed.

(** * Further properties of the code *)

(** ** Missing detection, exactly *)

(** X1. The detection turns a cell into [pd.NA] exactly when the cell is a
    null, a string that is empty once trimmed, or a string that reads "n/a"
    once trimmed and lowercased; every other cell is returned as it is, and
    running the detection twice changes nothing more. The trimming is the
    one of [str.strip], which takes off the white space beyond ASCII too: a
    cell that holds a no-break space, or "n/a" followed by an ideographic
    space, is replaced. *)
Theorem detect_missing_exact (x : cell) :
  ((missing_like x /\ detect_missing x = NA PdNA)
   \/ (~ missing_like x /\ detect_missing x = x))
  /\ detect_missing (detect_missing x) = detect_missing x
  /\ detect_missing (Str (PyStr.of_bytes [194; 160])) = NA PdNA
  /\ detect_missing (Str (" n/a" +:+ PyStr.of_bytes [227; 128; 128])) = NA PdNA.
Proof.
  pose proof (detect_missing_spec x) as H.
  split; [exact H|]. split; [|split; reflexivity].
  destruct H as [[_ E] | [_ E]]; rewrite !E; reflexivity.
Qed.

(** ** What the trimmers keep and what they cut *)

Lemma last_take_lookup {A : Type} (l : list A) (k : nat) (x : A) :
  l !! k = Some x -> last (take (S k) l) = Some x.
Proof.
  intros H. rewrite last_lookup, length_take.
  pose proof (lookup_lt_Some _ _ _ H) as Hk.
  replace (Init.Nat.pred (S k `min` length l)) with k by lia.
  rewrite lookup_take_lt; [done | lia].
Qed.

(** X2. A trimmed frame does not end with a blank row: after the
    interactive trimmer, on a frame with a column, the last row, if there is
    one, has a cell that is not Missing; after the batch trimmer, unless
    every row was blank by the batch rule, the last row is not blank by that
    rule. *)
Theorem trimmed_frame_ends_with_data (df : DataFrame) (r : list cell) :
  (df_columns df <> [] ->
   last (df_rows (Interactive.trim df)) = Some r -> ~ fully_blank r)
  /\ (~ Forall (batch_blank (df_columns df)) (df_rows df) ->
      last (df_rows (Batch.trim df)) = Some r -> ~ batch_blank (df_columns df) r).
Proof.
  split.
  - intros Hcols.
    destruct (interactive_trim_cases df) as [[He ->] | [(He & Hb & ->) | (He & k & _ & Hk & ->)]].
    + unfold DF.empty in He. destruct (df_columns df); [done|].
      destruct (df_rows df); [done | done].
    + done.
    + destruct Hk as [(r' & Hr' & Hn) _]. simpl.
      rewrite (last_take_lookup _ _ _ Hr'). by intros [= <-].
  - intros Hnb. destruct (batch_trim_cases df) as [[Hb _] | (k & _ & Hk & ->)]; [done|].
    destruct Hk as [(r' & Hr' & Hn) _]. simpl.
    rewrite (last_take_lookup _ _ _ Hr'). by intros [= <-].
Qed.

Lemma trimmed_frame_ends_with_data_witness :
  let df := mkDF [("Nom", DObject)] [[Str "x"]; [NA PdNA]; [Str "y"]; [NA PdNA]] in
  ~ fully_blank [Str "y"] /\ ~ batch_blank (df_columns df) [Str "y"].
Proof.
  intros df.
  destruct (trimmed_frame_ends_with_data df [Str "y"]) as [H1 H2]. split.
  - apply H1; [done | reflexivity].
  - apply H2; [|reflexivity].
    intros H. apply (Forall_lookup_1 _ _ 0 [Str "x"]) in H; [|done].
    apply batch_blank_row_spec in H. done.
Defined.

(** X3. The trimmers only cut at the end: the rows of the trimmed frame are
    a prefix of the rows of the frame, a row that is not blank stays where
    it is, and so do the blank rows that come before it. *)
Theorem trim_cuts_only_trailing_blank_rows (df : DataFrame) (i j : nat) (r : list cell) :
  (df_rows (Interactive.trim df) `prefix_of` df_rows df
   /\ (df_rows df !! i = Some r -> ~ fully_blank r -> j <= i ->
       df_rows (Interactive.trim df) !! j = df_rows df !! j))
  /\ (df_rows (Batch.trim df) `prefix_of` df_rows df
      /\ (df_rows df !! i = Some r -> ~ batch_blank (df_columns df) r -> j <= i ->
          df_rows (Batch.trim df) !! j = df_rows df !! j)).
Proof.
  split.
  - destruct (interactive_trim_cases df) as [[He ->] | [(He & Hb & ->) | (He & k & _ & Hk & ->)]].
    + done.
    + split; [apply prefix_take|]. intros Hi Hn. destruct Hn.
      by apply (Forall_lookup_1 _ _ _ _ Hb Hi).
    + split; [apply prefix_take|]. intros Hi Hn Hj. simpl.
      apply lookup_take_lt. destruct Hk as [_ Hk].
      destruct (decide (k < i)) as [Hlt|]; [|lia]. destruct Hn. by apply (Hk i r).
  - destruct (batch_trim_cases df) as [[Hb ->] | (k & _ & Hk & ->)].
    + done.
    + split; [apply prefix_take|]. intros Hi Hn Hj. simpl.
      apply lookup_take_lt. destruct Hk as [_ Hk].
      destruct (decide (k < i)) as [Hlt|]; [|lia]. destruct Hn. by apply (Hk i r).
Qed.

Lemma trim_cuts_only_trailing_blank_rows_witness :
  let df := mkDF [("Nom", DObject)] [[Str "x"]; [NA PdNA]; [Str "y"]; [NA PdNA]] in
  df_rows (Interactive.trim df) !! 1 = Some [NA PdNA]
  /\ df_rows (Batch.trim df) !! 1 = Some [NA PdNA].
Proof.
  intros df.
  destruct (trim_cuts_only_trailing_blank_rows df 2 1 [Str "y"]) as [[_ H1] [_ H2]]. split.
  - apply H1; [reflexivity | | lia]. rewrite <- row_all_na_spec. done.
  - apply H2; [reflexivity | | lia]. rewrite <- batch_blank_row_spec. done.
Defined.

(** ** The session state after an upload *)

Lemma insert_fold_lookup (g : string -> ColumnType) (cols : list string)
    (m : gmap string ColumnType) (c : string) :
  foldl (fun cur col => <[col := g col]> cur) m cols !! c
  = if decide (c ∈ cols) then Some (g c) else m !! c.
Proof.
  revert m; induction cols as [|a cols IH]; intros m; simpl.
  - destruct (decide (c ∈ [])) as [H|H]; [by apply elem_of_nil in H | done].
  - rewrite IH.
    destruct (decide (c ∈ cols)) as [H1|H1]; destruct (decide (c ∈ a :: cols)) as [H2|H2];
      try done.
    + exfalso. apply H2. by right.
    + apply elem_of_cons in H2 as [->|H2]; [|done].
      by rewrite lookup_insert_eq.
    + rewrite lookup_insert_ne; [done|]. intros ->. apply H2. by left.
Qed.

Lemma upload_step_types (st : App.session_state) (f : App.UploadedFile) :
  types_follow_standard st -> types_follow_standard (App.upload_step st f).
Proof.
  intros H. unfold App.upload_step.
  destruct (negb _); [|exact H].
  destruct (App.uf_content f) as [|df]; [exact H|].
  destruct (negb _); [|exact H].
  intros c. simpl. unfold App.suggest_types. by rewrite insert_fold_lookup, lookup_empty.
Qed.

Lemma upload_types (l : list App.UploadedFile) (st : App.session_state) :
  types_follow_standard st -> types_follow_standard (foldl App.upload_step st l).
Proof.
  revert st; induction l as [|f l IH]; intros st H; simpl; [done|].
  by apply IH, upload_step_types.
Qed.

Lemma upload_content (l : list App.UploadedFile) (st : App.session_state) :
  App.excel_files_content (foldl App.upload_step st l) = App.excel_files_content st ++ l.
Proof.
  revert st; induction l as [|f l IH]; intros st; simpl; [by rewrite app_nil_r|].
  rewrite IH. replace (App.excel_files_content (App.upload_step st f))
    with (App.excel_files_content st ++ [f]).
  - by rewrite <- app_assoc.
  - unfold App.upload_step. destruct (negb _); [|done].
    destruct (App.uf_content f); [done|]. by destruct (negb _).
Qed.

(** X4. After any upload, and after the type form, the type map has an
    entry for exactly the standard columns: the suggested type before the
    form, the selected type after it. A file that passes the column check
    therefore has a type for each of its columns, and the branch of
    [clean_and_prepare_df] for a column without a type is not taken. *)
Theorem type_map_covers_standard_columns (uploaded_files : list App.UploadedFile)
    (selected_type : string -> ColumnType) (c : string) :
  let st := App.handle_upload uploaded_files in
  let st' := Form.select_types st selected_type in
  App.user_column_types st !! c
  = (if decide (c ∈ App.column_names_standard st) then Some (App.suggested_type c) else None)
  /\ App.user_column_types st' !! c
     = (if decide (c ∈ App.column_names_standard st') then Some (selected_type c) else None)
  /\ forall raw, App.validate (DF.names raw) (App.column_names_standard st') = true ->
                 c ∈ DF.names raw -> App.user_column_types st' !! c = Some (selected_type c).
Proof.
  intros st st'.
  assert (types_follow_standard st) as Hst.
  { apply upload_types. intros c'. simpl. rewrite lookup_empty.
    destruct (decide (c' ∈ [])) as [H|]; [by apply elem_of_nil in H | done]. }
  assert (App.user_column_types st' !! c
          = (if decide (c ∈ App.column_names_standard st') then Some (selected_type c)
             else None)) as Hst'.
  { unfold st', Form.select_types. simpl. rewrite insert_fold_lookup.
    destruct (decide (c ∈ App.column_names_standard st)) as [|Hn]; [done|].
    rewrite Hst. by destruct (decide (c ∈ App.column_names_standard st)). }
  split; [apply Hst|]. split; [exact Hst'|].
  intros raw Hv Hc. apply bool_decide_eq_true in Hv. rewrite Hv in Hc.
  rewrite Hst'. by destruct (decide (c ∈ App.column_names_standard st')).
Qed.

Lemma type_map_covers_standard_columns_witness :
  let raw := mkDF [("Date Total", DObject); ("Nom", DObject)] [[Num 1; Str "x"]] in
  let st := Form.select_types (App.handle_upload [App.mkFile "f.xlsx" (ReadOk raw)])
                              (fun _ => Text) in
  App.user_column_types st !! "Date Total" = Some Text.
Proof.
  intros raw st.
  destruct (type_map_covers_standard_columns [App.mkFile "f.xlsx" (ReadOk raw)]
              (fun _ => Text) "Date Total") as (_ & _ & H).
  apply (H raw).
  - reflexivity.
  - by left.
Defined.

(** X5. Every uploaded file is kept for the processing loop, in upload
    order, whether or not it could be read when the columns were looked for. *)
Theorem upload_keeps_every_file (uploaded_files : list App.UploadedFile) :
  App.excel_files_content (App.handle_upload uploaded_files) = uploaded_files.
Proof. unfold App.handle_upload. by rewrite upload_content. Qed.

Lemma upload_no_schema (l : list App.UploadedFile) (st : App.session_state) :
  App.first_excel_file_processed_for_cols st = false ->
  Forall passed_over l ->
  App.user_column_types (foldl App.upload_step st l) = App.user_column_types st
  /\ App.messages (foldl App.upload_step st l)
     = App.messages st
       ++ map (fun f => match App.uf_content f with
                        | ReadError => App.WarnUnreadable (App.uf_name f)
                        | ReadOk _ => App.InfoEmpty (App.uf_name f)
                        end) l.
Proof.
  revert st; induction l as [|g l IH]; intros st Hst Hl; simpl.
  - by rewrite app_nil_r.
  - apply Forall_cons in Hl as [Hg Hl].
    assert (App.first_excel_file_processed_for_cols (App.upload_step st g) = false
            /\ App.user_column_types (App.upload_step st g) = App.user_column_types st
            /\ App.messages (App.upload_step st g)
               = App.messages st
                 ++ [match App.uf_content g with
                     | ReadError => App.WarnUnreadable (App.uf_name g)
                     | ReadOk _ => App.InfoEmpty (App.uf_name g)
                     end]) as (Hf & Ht & Hm).
    { unfold App.upload_step, passed_over in *. rewrite Hst. simpl.
      destruct (App.uf_content g) as [|df]; [done|]. by rewrite Hg. }
    destruct (IH _ Hf Hl) as [H1 H2]. rewrite H1, H2, Ht, Hm.
    by rewrite <- app_assoc.
Qed.

(** X6. When no uploaded file can be read and has a row and a column, no
    schema is set: the standard columns and the type map stay empty, and
    each file has left its message, a warning if it could not be read, a
    note if it was empty, in upload order. *)
Theorem upload_without_valid_file (uploaded_files : list App.UploadedFile) :
  Forall passed_over uploaded_files ->
  let st := App.handle_upload uploaded_files in
  App.column_names_standard st = []
  /\ App.user_column_types st = ∅
  /\ App.messages st
     = map (fun f => match App.uf_content f with
                     | ReadError => App.WarnUnreadable (App.uf_name f)
                     | ReadOk _ => App.InfoEmpty (App.uf_name f)
                     end) uploaded_files
  /\ Form.first_file_name_for_cols st = None.
Proof.
  intros H st. unfold st, App.handle_upload.
  destruct (upload_passed_over uploaded_files App.reset_state eq_refl H) as [_ H1].
  destruct (upload_no_schema uploaded_files App.reset_state eq_refl H) as [H2 H3].
  split; [exact H1|]. split; [exact H2|]. split; [exact H3|].
  unfold Form.first_file_name_for_cols. by rewrite H1.
Qed.

Lemma upload_without_valid_file_witness :
  App.messages (App.handle_upload
                  [App.mkFile "broken.xlsx" ReadError;
                   App.mkFile "header_only.xlsx" (ReadOk (mkDF [("A", DObject)] []))])
  = [App.WarnUnreadable "broken.xlsx"; App.InfoEmpty "header_only.xlsx"].
Proof.
  destruct (upload_without_valid_file
              [App.mkFile "broken.xlsx" ReadError;
               App.mkFile "header_only.xlsx" (ReadOk (mkDF [("A", DObject)] []))])
    as (_ & _ & H & _).
  - repeat constructor.
  - exact H.
Defined.

(** ** The processing loop *)

Lemma process_fold (P : Parsers) (st : App.session_state) (l : list App.UploadedFile)
    (acc : list DataFrame * list App.message) :
  foldl (App.process_step P st) acc l
  = (acc.1 ++ omap (accepted P st) l, acc.2 ++ omap (rejected st) l).
Proof.
  revert acc; induction l as [|f l IH]; intros [dfs msgs]; simpl.
  - by rewrite !app_nil_r.
  - rewrite IH. unfold App.process_step, accepted, rejected.
    destruct (App.uf_content f) as [|raw]; simpl.
    + by rewrite <- app_assoc.
    + destruct (App.validate _ _); simpl; by rewrite <- app_assoc.
Qed.

Lemma accepted_xor_rejected (P : Parsers) (st : App.session_state) (f : App.UploadedFile) :
  (is_Some (accepted P st f) /\ rejected st f = None)
  \/ (accepted P st f = None /\ is_Some (rejected st f)).
Proof.
  unfold accepted, rejected. destruct (App.uf_content f) as [|raw]; [right; eauto|].
  destruct (App.validate _ _); [left | right]; eauto.
Qed.

Lemma accepted_or_rejected (P : Parsers) (st : App.session_state) (l : list App.UploadedFile) :
  length (omap (accepted P st) l) + length (omap (rejected st) l) = length l.
Proof.
  induction l as [|f l IH]; [done|]. rewrite !omap_cons.
  destruct (accepted_xor_rejected P st f) as [[[y ->] ->] | [-> [y ->]]]; simpl; lia.
Qed.

(** X7. The processing loop splits the uploaded files in two, keeping the
    upload order: the frames of [all_dfs] are the cleaned frames of the files
    that are read and pass the column check, the messages are those of the
    other files, one each, so that every file is either consolidated or
    reported. *)
Theorem processing_loop_partitions_files (P : Parsers) (st : App.session_state) :
  App.process_all P st
  = (omap (accepted P st) (App.excel_files_content st),
     omap (rejected st) (App.excel_files_content st))
  /\ length (App.process_all P st).1 + length (App.process_all P st).2
     = length (App.excel_files_content st)
  /\ (App.processed_df P st = None
      <-> Forall (fun f => accepted P st f = None) (App.excel_files_content st)).
Proof.
  assert (App.process_all P st
          = (omap (accepted P st) (App.excel_files_content st),
             omap (rejected st) (App.excel_files_content st))) as H.
  { unfold App.process_all. by rewrite process_fold. }
  split; [exact H|]. split.
  - rewrite H. simpl. apply accepted_or_rejected.
  - unfold App.processed_df. rewrite H. simpl. rewrite <- omap_nil_iff.
    destruct (omap _ _); split; done.
Qed.

Lemma handle_upload_first_nonempty (pre post : list App.UploadedFile)
    (f : App.UploadedFile) (df : DataFrame) :
  Forall passed_over pre ->
  App.uf_content f = ReadOk df ->
  DF.empty df = false ->
  App.column_names_standard (App.handle_upload (pre ++ f :: post)) = DF.names df
  /\ App.user_column_types (App.handle_upload (pre ++ f :: post))
     = App.suggest_types (DF.names df).
Proof.
  intros Hpre Hf Hne. unfold App.handle_upload.
  rewrite foldl_app. simpl.
  destruct (upload_passed_over pre App.reset_state eq_refl Hpre) as [Hflag _].
  set (st := foldl App.upload_step App.reset_state pre) in *.
  assert (App.upload_step st f
          = App.mkSession (DF.names df) (App.suggest_types (DF.names df))
                          (App.excel_files_content st ++ [f]) true (App.messages st)) as Hstep.
  { unfold App.upload_step. by rewrite Hflag, Hf, Hne. }
  destruct (upload_established post (App.upload_step st f)) as [H1 H2].
  { by rewrite Hstep. }
  by rewrite H1, H2, Hstep.
Qed.

(** X8. The file that gave the standard columns is never skipped by the
    processing loop: its frame is cleaned with the suggested types and is in
    [all_dfs], so that [all_dfs] is not empty and [processed_df] is set
    after a run in which a schema was set. The frame can have no row. *)
Theorem schema_file_is_consolidated (P : Parsers) (pre post : list App.UploadedFile)
    (f : App.UploadedFile) (df : DataFrame) :
  Forall passed_over pre ->
  App.uf_content f = ReadOk df ->
  DF.empty df = false ->
  let st := App.handle_upload (pre ++ f :: post) in
  Interactive.clean_and_prepare_df P df (App.uf_name f) (App.suggest_types (DF.names df))
    ∈ (App.process_all P st).1
  /\ is_Some (App.processed_df P st).
Proof.
  intros Hpre Hf Hne st.
  destruct (handle_upload_first_nonempty pre post f df Hpre Hf Hne) as [Hs Ht].
  assert (Interactive.clean_and_prepare_df P df (App.uf_name f)
            (App.suggest_types (DF.names df)) ∈ (App.process_all P st).1) as Hin.
  { unfold App.process_all. rewrite process_fold. simpl.
    apply list_elem_of_omap. exists f. split.
    - unfold st, App.handle_upload. rewrite upload_content. simpl.
      apply elem_of_app. right. by left.
    - unfold accepted. fold st in Hs, Ht. rewrite Hf, Hs, Ht.
      unfold App.validate. by rewrite bool_decide_eq_true_2. }
  split; [exact Hin|]. unfold App.processed_df.
  destruct ((App.process_all P st).1); [by apply elem_of_nil in Hin | eauto].
Qed.

Lemma schema_file_is_consolidated_witness :
  let df := mkDF [("Nom", DObject)] [[Str "x"]] in
  is_Some (App.processed_df Sample.parsers
             (App.handle_upload ([App.mkFile "broken.xlsx" ReadError]
                                 ++ App.mkFile "first.xlsx" (ReadOk df) :: []))).
Proof.
  intros df.
  apply (schema_file_is_consolidated Sample.parsers [App.mkFile "broken.xlsx" ReadError] []
           (App.mkFile "first.xlsx" (ReadOk df)) df).
  - repeat constructor.
  - reflexivity.
  - reflexivity.
Defined.

(** X9. The name shown above the type form is that of the first uploaded
    file whose header equals the standard columns and whose name is not
    empty. This is the file that gave the columns unless an earlier file,
    passed over because it has no row, has the same header: then the earlier
    file is named. *)
Theorem shown_file_has_the_standard_header (pre1 pre2 : list App.UploadedFile)
    (g : App.UploadedFile) (st : App.session_state) :
  App.column_names_standard st <> [] ->
  App.excel_files_content st = pre1 ++ g :: pre2 ->
  Forall (fun h => Form.header h <> Some (App.column_names_standard st)) pre1 ->
  Form.header g = Some (App.column_names_standard st) ->
  App.uf_name g <> EmptyString ->
  Form.first_file_name_for_cols st = Some (App.uf_name g).
Proof.
  intros Hstd Hc Hpre Hg Hname.
  assert (Form.search st = App.uf_name g) as Hsearch.
  { unfold Form.search. rewrite Hc.
    assert (list_find (fun f_data => Form.header f_data = Some (App.column_names_standard st))
                      (pre1 ++ g :: pre2) = Some (length pre1, g)) as ->; [|done].
    apply list_find_Some. split; [by apply list_lookup_middle|]. split; [done|].
    intros j y Hj Hlt. rewrite lookup_app_l in Hj by done.
    by apply (Forall_lookup_1 _ _ _ _ Hpre Hj). }
  unfold Form.first_file_name_for_cols. rewrite Hsearch.
  destruct (App.column_names_standard st) as [|c cs]; [done|].
  rewrite Hc. apply String.eqb_neq in Hname. rewrite Hname.
  destruct pre1; simpl; by rewrite Hname.
Qed.

Lemma shown_file_has_the_standard_header_witness :
  let a := App.mkFile "header_only.xlsx" (ReadOk (mkDF [("A", DObject)] [])) in
  let b := App.mkFile "data.xlsx" (ReadOk (mkDF [("A", DObject)] [[Num 1]])) in
  App.column_names_standard (App.handle_upload [a; b]) = ["A"]
  /\ Form.first_file_name_for_cols (App.handle_upload [a; b]) = Some "header_only.xlsx".
Proof.
  intros a b. split; [reflexivity|].
  apply (shown_file_has_the_standard_header [] [b] a (App.handle_upload [a; b])).
  - discriminate.
  - reflexivity.
  - constructor.
  - reflexivity.
  - discriminate.
Defined.

(** X10. The types the interactive heuristic suggests for the columns the
    batch routine names are the types the batch routine gives them: Date for
    its two date columns, Numeric for its seven numeric columns; and no
    column is in both batch lists. *)
Theorem heuristic_agrees_with_batch_columns :
  Forall (fun col => App.suggested_type col = Date) Batch.date_cols
  /\ Forall (fun col => App.suggested_type col = Numeric) Batch.numeric_cols
  /\ Forall (fun col => col ∉ Batch.numeric_cols) Batch.date_cols.
Proof.
  split; [|split].
  - repeat constructor.
  - repeat constructor.
  - repeat constructor; intros H; apply (bool_decide_pack _) in H; vm_compute in H; done.
Qed.

(** ** File names *)

Lemma append_length (a b : string) :
  String.length (a +:+ b) = String.length a + String.length b.
Proof. induction a as [|c a IH]; [done|]. rewrite append_cons. simpl. by rewrite IH. Qed.

Lemma append_assoc (a b c : string) : (a +:+ b) +:+ c = a +:+ (b +:+ c).
Proof. induction a as [|x a IH]; [done|]. rewrite !append_cons. by rewrite IH. Qed.

Lemma substring_all (s : string) : String.substring 0 (String.length s) s = s.
Proof. induction s as [|c s IH]; [done|]. simpl. by rewrite IH. Qed.

Lemma substring_skip (pre suf : string) (m : nat) :
  String.substring (String.length pre) m (pre +:+ suf) = String.substring 0 m suf.
Proof. induction pre as [|c pre IH]; [done|]. rewrite append_cons. simpl. exact IH. Qed.

Lemma substring_split (s : string) (m : nat) :
  m <= String.length s ->
  exists pre, s = pre +:+ String.substring m (String.length s - m) s.
Proof.
  revert m; induction s as [|c s IH]; intros m Hm.
  - exists EmptyString. simpl in Hm. replace m with 0 by lia. done.
  - destruct m as [|m].
    + exists EmptyString. rewrite Nat.sub_0_r, substring_all. done.
    + simpl in Hm. destruct (IH m ltac:(lia)) as [pre Hpre].
      exists (String c pre). rewrite append_cons. simpl. by rewrite <- Hpre.
Qed.

(** [s.endswith(suffix)] holds exactly when [s] is [pre + suffix]. *)
Lemma endswith_spec (s suffix : string) :
  PyStr.endswith s suffix = true <-> exists pre, s = pre +:+ suffix.
Proof.
  unfold PyStr.endswith. rewrite andb_true_iff, Nat.leb_le, String.eqb_eq. split.
  - intros [Hle Hs]. destruct (substring_split s (String.length s - String.length suffix))
      as [pre Hpre]; [lia|].
    exists pre. rewrite Hpre at 1. f_equal. rewrite <- Hs at 3. f_equal. lia.
  - intros [pre ->]. rewrite append_length. split; [lia|].
    replace (String.length pre + String.length suffix - String.length suffix)
      with (String.length pre) by lia.
    by rewrite substring_skip, substring_all.
Qed.

Lemma rfind_last (c : ascii) (pre suf : string) :
  PyStr.rfind c suf = (-1)%Z ->
  PyStr.rfind c (pre +:+ String c suf) = Z.of_nat (String.length pre).
Proof.
  intros Hs. induction pre as [|a pre IH].
  - rewrite append_empty. simpl. rewrite Hs. simpl. by rewrite Ascii.eqb_refl.
  - rewrite append_cons. cbn [PyStr.rfind]. rewrite IH.
    destruct (0 <=? Z.of_nat (String.length pre))%Z eqn:E; [simpl String.length; lia|].
    apply Z.leb_gt in E. lia.
Qed.

Lemma rfind_no_slash (c : ascii) (s : string) :
  (forall pre suf, s <> pre +:+ String c suf) -> PyStr.rfind c s = (-1)%Z.
Proof.
  intros H. pose proof (rfind_range c s) as Hr.
  destruct (decide (PyStr.rfind c s = (-1)%Z)) as [|Hn]; [done|].
  destruct (rfind_found c s ltac:(lia)) as (pre & suf & Hs & _). by destruct (H pre suf).
Qed.

Lemma basename_after_slash (dir file : string) :
  (forall pre suf, file <> pre +:+ "/" +:+ suf) ->
  PyStr.basename (dir +:+ "/" +:+ file) = file.
Proof.
  intros H. unfold PyStr.basename.
  change (dir +:+ "/" +:+ file) with (dir +:+ String "/"%char file).
  rewrite (rfind_last _ dir file (rfind_no_slash _ _ H)).
  replace (Z.to_nat (Z.of_nat (String.length dir) + 1)) with (S (String.length dir)) by lia.
  apply slice_from_app.
Qed.

(** ** The batch run *)

(** The date loop of [process_file] raises exactly when the conversion of
    the prepared frame that can raise gives no frame. *)
Lemma date_loop_raises_spec (P : Parsers) (file : string) (df : DataFrame) :
  DF.try_convert_series
    (Batch.convert_named Batch.date_cols (Batch.format_date P) (fun d => Some (id, d)))
    (Batch.prepare file df) = None
  <-> date_loop_raises P file df.
Proof.
  rewrite try_convert_series_None. unfold date_loop_raises.
  split; intros (j & c & Hc & H); exists j, c; (split; [done|]).
  - unfold Batch.convert_named, Batch.format_date, Pd.dt_raises in H.
    destruct (decide (c.1 ∈ Batch.date_cols)); [|done]. split; [done|].
    intros Hd. by rewrite (bool_decide_eq_true_2 _ Hd) in H.
  - destruct H as [Hin Hd]. unfold Batch.convert_named, Batch.format_date, Pd.dt_raises.
    destruct (decide (c.1 ∈ Batch.date_cols)); [|done].
    by rewrite (bool_decide_eq_false_2 _ Hd).
Qed.

(** X11. On a sheet with at least one column, [process_file] gives no
    frame exactly when the file name ends with neither ".xlsb" nor ".xlsx",
    or reading the file raises, or the date loop raises: [pd.to_datetime] has
    left a date column an object column, which has no [dt] accessor. The
    test of the extension is case sensitive, and a date column whose texts
    have different UTC offsets is such a column. *)
Theorem process_file_skips_unknown_or_unreadable (P : Parsers) (file : string)
    (content : read_result) :
  (forall df, content = ReadOk df -> df_columns df <> []) ->
  (Batch.process_file P file content = None
   <-> ((~ exists stem, file = stem +:+ ".xlsb") /\ (~ exists stem, file = stem +:+ ".xlsx"))
       \/ content = ReadError
       \/ exists df, content = ReadOk df /\ date_loop_raises P file df)
  /\ Batch.process_file P "BILAN.XLSX" content = None
  /\ Batch.process_file Sample.parsers "f.xlsx"
       (ReadOk (mkDF [("Date échéance", DObject)]
                     [[Str "2024-01-05T10:00:00+01:00"]; [Str "2024-01-06T10:00:00+02:00"]]))
     = None.
Proof.
  intros _. split; [|split; reflexivity]. unfold Batch.process_file.
  rewrite <- !endswith_spec.
  destruct (PyStr.endswith file ".xlsb" || PyStr.endswith file ".xlsx") eqn:E.
  - destruct content as [|df].
    + split; [intros _; right; by left | done].
    + destruct (DF.try_convert_series _ _) as [df1|] eqn:Et; simpl; split.
      * done.
      * intros [[H1 H2] | [H | (df' & [= <-] & H)]]; [|done|].
        -- apply orb_true_iff in E as [E|E]; congruence.
        -- apply date_loop_raises_spec in H. congruence.
      * intros _. right; right. exists df. split; [done|]. by apply date_loop_raises_spec.
      * done.
  - apply orb_false_iff in E as [E1 E2]. split; [intros _; left|done].
    split; congruence.
Qed.

Lemma process_file_skips_unknown_or_unreadable_witness :
  Batch.process_file Sample.parsers "notes.txt" (ReadOk (mkDF [("A", DObject)] [[Str "x"]]))
  = None.
Proof.
  destruct (process_file_skips_unknown_or_unreadable Sample.parsers "notes.txt"
              (ReadOk (mkDF [("A", DObject)] [[Str "x"]]))) as ([_ H] & _).
  - intros df [= <-]. discriminate.
  - apply H. left.
    split; intros Hs; apply endswith_spec in Hs; vm_compute in Hs; discriminate.
Defined.

(** X12. A file found by the search of the folder is handed to
    [process_file] under a path whose base name is the file's own name, and
    the folder it was found in does not matter: [process_file] does with the
    path what it does with the bare name. *)
Theorem discovered_file_is_processed (P : Parsers) (walk : list (string * list string))
    (root_dir file : string) (files : list string) (content : read_result) :
  (root_dir, files) ∈ walk ->
  file ∈ files ->
  PyStr.endswith file ".xlsx" || PyStr.endswith file ".xlsb" = true ->
  (forall pre suf, file <> pre +:+ "/" +:+ suf) ->
  Discovery.join root_dir file ∈ Discovery.excel_files walk
  /\ PyStr.basename (Discovery.join root_dir file) = file
  /\ Batch.process_file P (Discovery.join root_dir file) content
     = Batch.process_file P file content.
Proof.
  intros Hw Hf Hext Hslash.
  assert (String.prefix "/" file = false) as Hp.
  { destruct (String.prefix "/" file) eqn:E; [|done].
    apply prefix_app in E as [suf E]. by destruct (Hslash EmptyString suf). }
  assert (exists dir, Discovery.join root_dir file = dir +:+ file
                      /\ (dir = EmptyString \/ exists d, dir = d +:+ "/")) as (dir & Hj & Hdir).
  { unfold Discovery.join. rewrite Hp.
    destruct (String.eqb root_dir EmptyString) eqn:E1; simpl.
    - exists root_dir. split; [done|]. left. by apply String.eqb_eq.
    - destruct (PyStr.endswith root_dir "/") eqn:E2.
      + exists root_dir. split; [done|]. right. by apply endswith_spec.
      + exists (root_dir +:+ "/"). split; [by rewrite append_assoc|]. right. by exists root_dir. }
  assert (PyStr.basename (Discovery.join root_dir file) = file) as Hbase.
  { rewrite Hj. destruct Hdir as [-> | [d ->]].
    + rewrite append_empty. unfold PyStr.basename.
      by rewrite (rfind_no_slash _ _ Hslash).
    + rewrite append_assoc. by apply basename_after_slash. }
  split; [|split; [exact Hbase|]].
  - unfold Discovery.excel_files. apply list_elem_of_In, in_flat_map.
    exists (root_dir, files). split; [by apply list_elem_of_In|].
    simpl. apply in_map, filter_In. split; [by apply list_elem_of_In | done].
  - assert (PyStr.endswith (Discovery.join root_dir file) ".xlsb"
            || PyStr.endswith (Discovery.join root_dir file) ".xlsx" = true) as He.
    { rewrite Hj. apply orb_true_iff in Hext as [H|H]; apply endswith_spec in H as [stem ->];
        apply orb_true_iff; [right | left]; apply endswith_spec;
        exists (dir +:+ stem); by rewrite append_assoc. }
    rewrite orb_comm in Hext.
    unfold Batch.process_file, Batch.prepare. rewrite He, Hext, Hbase.
    unfold PyStr.basename. by rewrite (rfind_no_slash _ _ Hslash).
Qed.

Lemma discovered_file_is_processed_witness :
  PyStr.basename (Discovery.join "in/2024" "f.xlsx") = "f.xlsx".
Proof.
  destruct (discovered_file_is_processed Sample.parsers [("in/2024", ["notes.txt"; "f.xlsx"])]
              "in/2024" "f.xlsx" ["notes.txt"; "f.xlsx"] ReadError) as (_ & H & _).
  - by left.
  - right. by left.
  - reflexivity.
  - by apply rfind_absent.
  - exact H.
Defined.

(** X13. The batch run ends with "No valid data" exactly when
    [process_file] gives a frame for no file; otherwise a frame is written. *)
Theorem batch_run_fails_without_valid_file (P : Parsers)
    (excel_files : list (string * read_result)) :
  BatchRun.final_df P excel_files = None
  <-> Forall (fun f => Batch.process_file P f.1 f.2 = None) excel_files.
Proof.
  unfold BatchRun.final_df.
  assert (omap id (map (fun f => Batch.process_file P f.1 f.2) excel_files) = []
          <-> Forall (fun f => Batch.process_file P f.1 f.2 = None) excel_files) as <-.
  { induction excel_files as [|f l IH]; [split; [constructor | done]|].
    cbn [map]. rewrite omap_cons, Forall_cons. unfold id at 1.
    destruct (Batch.process_file P f.1 f.2); [|by rewrite IH; tauto].
    split; [done | intros [? _]; done]. }
  destruct (omap id _); split; done.
Qed.

(** ** Cells by column *)

Lemma apply_row_compose {C : Type} (F G : C -> cell -> cell) (cols : list C) (r : list cell) :
  DF.apply_row (map G cols) (DF.apply_row (map F cols) r)
  = DF.apply_row (map (fun c x => G c (F c x)) cols) r.
Proof.
  revert r; induction cols as [|c cols IH]; intros [|x r]; simpl; try done.
  by rewrite IH.
Qed.

(** Two conversions in a row are one conversion. *)
Lemma convert_columns_twice (conv conv' : string -> dtype -> (cell -> cell) * dtype)
    (df : DataFrame) :
  DF.convert_columns conv' (DF.convert_columns conv df)
  = DF.convert_columns
      (fun n d => (fun x => (conv' n (conv n d).2).1 ((conv n d).1 x), (conv' n (conv n d).2).2))
      df.
Proof.
  unfold DF.convert_columns. simpl. f_equal.
  - by rewrite map_map.
  - rewrite !map_map. apply map_ext. intros r.
    exact (apply_row_compose (fun c => (conv c.1 c.2).1)
             (fun c => (conv' c.1 (conv c.1 c.2).2).1) (df_columns df) r).
Qed.

Lemma is_digit_digit (n : nat) : is_digit (PyStr.digit n) = true.
Proof.
  unfold is_digit, PyStr.digit.
  pose proof (Nat.mod_upper_bound n 10 ltac:(lia)) as H.
  rewrite nat_ascii_embedding by lia.
  apply andb_true_iff. split; apply Nat.leb_le; lia.
Qed.

(** [strftime('%Y-%m-%d')] gives a text of the form YYYY-MM-DD. *)
Lemma strftime_ymd_text (t : Timestamp) : ymd_text (Pd.strftime_ymd t).
Proof.
  unfold ymd_text, Pd.strftime_ymd, PyStr.pad4, PyStr.pad2.
  do 8 eexists. split; [reflexivity|].
  cbn [forallb]. rewrite !is_digit_digit. reflexivity.
Qed.

Lemma infer_dtype_number (cells : list cell) (x : cell) :
  DF.infer_dtype cells = DNumber -> x ∈ cells -> exists z, x = Num z.
Proof.
  unfold DF.infer_dtype. destruct cells as [|c cells]; [done|].
  destruct (forallb DF.is_num (c :: cells)) eqn:E.
  - intros _ Hx. apply list_elem_of_In in Hx.
    apply (proj1 (forallb_forall _ _) E) in Hx. destruct x; try done. by eexists.
  - by destruct (forallb DF.is_ts (c :: cells)).
Qed.

Lemma infer_dtype_datetime (cells : list cell) (x : cell) :
  DF.infer_dtype cells = DDatetime -> x ∈ cells -> exists t, x = Ts t.
Proof.
  unfold DF.infer_dtype. destruct cells as [|c cells]; [done|].
  destruct (forallb DF.is_num (c :: cells)) eqn:E; [done|].
  destruct (forallb DF.is_ts (c :: cells)) eqn:E'; [|done].
  intros _ Hx. apply list_elem_of_In in Hx.
  apply (proj1 (forallb_forall _ _) E') in Hx. destruct x; try done. by eexists.
Qed.

(** What [pd.to_datetime] makes of an element of a column: a datetime64
    column holds Timestamps and is kept, and any other element becomes a
    Timestamp or NaT. *)
Lemma to_datetime_cases (P : Parsers) (d : dtype) (cells : list cell) (y : cell) :
  (d = DDatetime -> exists t, y = Ts t) ->
  (exists t, Pd.to_datetime P d cells y = Ts t)
  \/ (d <> DDatetime /\ Pd.to_datetime P d cells y = NA NaT).
Proof.
  intros Hts. unfold Pd.to_datetime. destruct (decide (d = DDatetime)) as [Hd|Hd].
  - left. by apply Hts.
  - destruct (Pd.datetime_value P cells y) as [t|]; [left; by exists t | by right].
Qed.

Lemma batch_cell_date (P : Parsers) (n : string) (d : dtype) (cells : list cell) (x : cell) :
  n ∈ Batch.date_cols ->
  Pd.to_datetime_dtype P d cells = DDatetime ->
  batch_cell P n d cells x
  = Pd.astype_str (Pd.dt_strftime (Pd.to_datetime P d cells (detect_missing x))).
Proof.
  intros Hn Hd. destruct heuristic_tables_disjoint as [Hdisj _].
  unfold batch_cell, batch_conversion, Batch.convert_named, Batch.format_date, Pd.dt_raises.
  destruct (decide (n ∈ Batch.date_cols)); [|done].
  rewrite (bool_decide_eq_true_2 _ Hd). cbn [negb default fst snd].
  destruct (decide (n ∈ Batch.numeric_cols)) as [Hx|_]; [destruct (Hdisj n Hn Hx)|].
  reflexivity.
Qed.

Lemma batch_cell_other (P : Parsers) (n : string) (d : dtype) (cells : list cell) (x : cell) :
  n ∉ Batch.date_cols -> n ∉ Batch.numeric_cols ->
  batch_cell P n d cells x = (Batch.stringify_objects n d).1 (detect_missing x).
Proof.
  intros Hd Hn. unfold batch_cell, batch_conversion, Batch.convert_named.
  destruct (decide (n ∈ Batch.date_cols)); [done|].
  destruct (decide (n ∈ Batch.numeric_cols)); [done|]. reflexivity.
Qed.

(** X15. In the frame [process_file] returns, a column the routine converts
    to numbers holds numbers or NaN, and a column it converts to dates holds
    texts, of the form YYYY-MM-DD or the text "nan" where the date was
    missing or could not be read. Outside the numeric columns no cell is
    Missing any more: [astype(str)] has printed the missing markers of the
    object columns. *)
Theorem batch_cells_by_column (P : Parsers) (df out : DataFrame) (file : string)
    (row : list cell) (j : nat) (n : string) (y : cell) :
  DF.rectangular df ->
  "Source_File" ∉ DF.names df ->
  Batch.process_file P file (ReadOk df) = Some out ->
  row ∈ df_rows out ->
  DF.names df !! j = Some n ->
  row !! j = Some y ->
  (n ∈ Batch.numeric_cols -> (exists z, y = Num z) \/ y = NA NaN)
  /\ (n ∈ Batch.date_cols -> exists s, y = Str s /\ (ymd_text s \/ s = "nan"))
  /\ (n ∉ Batch.numeric_cols -> ~ missing y).
Proof.
  intros Hrect Hfresh Hout Hrow Hn Hy.
  apply list_elem_of_lookup in Hrow as [i Hi].
  destruct (batch_cell_of_row P df out file row i j n Hrect Hfresh Hout Hi Hn)
    as (raw & x & cells & _ & _ & Hy' & Hin & Hdt).
  rewrite Hy' in Hy. injection Hy as <-.
  pose proof (fun H => infer_dtype_number _ _ H Hin) as Hnum.
  pose proof (fun H => infer_dtype_datetime _ _ H Hin) as Hts.
  fold (detected_dtype df j) in Hnum, Hts.
  set (d := detected_dtype df j) in *.
  destruct heuristic_tables_disjoint as [Hdisj _].
  assert (n ∈ Batch.date_cols ->
          exists s, batch_cell P n d cells x = Str s /\ (ymd_text s \/ s = "nan")) as Hdate.
  { intros Hd. rewrite (batch_cell_date _ _ _ _ _ Hd (Hdt Hd)).
    destruct (to_datetime_cases P d cells (detect_missing x) Hts) as [[t ->] | [_ ->]]; simpl.
    - eexists. split; [done|]. left. apply strftime_ymd_text.
    - eexists. split; [done|]. by right. }
  split; [|split].
  - intros Hn'. rewrite (batch_cell_numeric _ _ _ _ _ Hn'). unfold Pd.to_numeric.
    destruct (Pd.numeric_value P d _); eauto.
  - exact Hdate.
  - intros Hn' [k Hk]. destruct (decide (n ∈ Batch.date_cols)) as [Hd|Hd].
    + destruct (Hdate Hd) as (s & Hs & _). congruence.
    + rewrite (batch_cell_other _ _ _ _ _ Hd Hn') in Hk. unfold Batch.stringify_objects in Hk.
      destruct d; simpl in Hk.
      * by destruct (detect_missing x).
      * destruct (Hnum eq_refl) as [z Hz]. congruence.
      * destruct (Hts eq_refl) as [t Ht]. congruence.
Qed.

Lemma batch_cells_by_column_witness :
  (exists z, NA NaN = Num z) \/ NA NaN = NA NaN.
Proof.
  pose (df := mkDF [("Code Client", DObject)] [[Str "abc"]; [Num 7]]).
  destruct (batch_cells_by_column Sample.parsers df
              (mkDF [("Code Client", DNumber); ("Source_File", DObject)]
                    [[NA NaN; Str "f.xlsx"]; [Num 7; Str "f.xlsx"]])
              "f.xlsx" [NA NaN; Str "f.xlsx"] 0 "Code Client" (NA NaN))
    as (H & _ & _).
  - repeat constructor.
  - intros Hin. apply (bool_decide_pack _) in Hin. vm_compute in Hin. done.
  - reflexivity.
  - by left.
  - reflexivity.
  - reflexivity.
  - apply H. apply (bool_decide_unpack _). vm_compute. exact I.
Defined.

(** [series.replace(d)] on a text, for a dict whose values are all [pd.NA]:
    the text becomes [pd.NA] if it is a key and stays otherwise. *)
Lemma replace_by_na (l : list (string * cell)) (s : string) :
  Forall (fun kv => kv.2 = NA PdNA) l ->
  Pd.replace (list_to_map l) (Str s) = NA PdNA
  \/ (Pd.replace (list_to_map l) (Str s) = Str s /\ s ∉ l.*1).
Proof.
  intros Hl. unfold Pd.replace.
  destruct (list_to_map l !! s) as [v|] eqn:E.
  - left. apply elem_of_list_to_map_2 in E.
    exact (proj1 (Forall_forall _ _) Hl (s, v) E).
  - right. split; [done|]. by apply not_elem_of_list_to_map_2 in E.
Qed.

Lemma detected_cell_in (df : DataFrame) (i j : nat) (raw : list cell) (x : cell) :
  df_rows df !! i = Some raw -> raw !! j = Some x ->
  detect_missing x ∈ detected_cells df j.
Proof.
  intros Hraw Hx. apply (column_cells_lookup _ i j (map detect_missing raw)).
  - cbn [df_rows DF.applymap]. by rewrite lookup_map, Hraw.
  - by rewrite lookup_map, Hx.
Qed.

(** X16. In the frame [clean_and_prepare_df] returns, a cell under a
    Numeric column is a number or NaN, and a cell under a Text column is
    Missing or a text that is none of "nan", "<NA>" and the empty text. A
    cell under a Date column is Missing or a text of the form YYYY-MM-DD,
    unless [pd.to_datetime] has left the column an object column, as it does
    for dates with different UTC offsets: the test of line 82 then skips the
    formatting and the Timestamps stay in the frame. A column of dates typed
    Numeric comes out as nanoseconds since 1970. *)
Theorem interactive_cells_by_column_type (P : Parsers) (df : DataFrame) (source : string)
    (column_types : gmap string ColumnType) (row : list cell) (j : nat) (n : string)
    (y : cell) :
  DF.rectangular df ->
  "Source_File" ∉ DF.names df ->
  row ∈ df_rows (Interactive.clean_and_prepare_df P df source column_types) ->
  DF.names df !! j = Some n ->
  row !! j = Some y ->
  (column_types !! n = Some Numeric -> (exists z, y = Num z) \/ y = NA NaN)
  /\ (column_types !! n = Some Date ->
      missing y
      \/ (exists s, y = Str s /\ ymd_text s)
      \/ (exists t, y = Ts t /\ mixed_offsets P (detected_cells df j) = true))
  /\ (column_types !! n = Some Text ->
      missing y \/ exists s, y = Str s /\ s ∉ ["nan"; "<NA>"; EmptyString])
  /\ Interactive.clean_and_prepare_df Sample.parsers
       (mkDF [("Jour", DObject)]
             [[Str "2024-01-05T10:00:00+01:00"]; [Str "2024-01-06T10:00:00+02:00"]])
       "f.xlsx" {["Jour" := Date]}
     = mkDF [("Jour", DObject); ("Source_File", DObject)]
            [[Ts (mkTs 2024 1 5 10 0 0); Str "f.xlsx"];
             [Ts (mkTs 2024 1 6 10 0 0); Str "f.xlsx"]]
  /\ Interactive.clean_and_prepare_df Sample.parsers
       (mkDF [("Total", DObject)] [[Ts (mkTs 2024 1 5 0 0 0)]]) "f.xlsx"
       {["Total" := Numeric]}
     = mkDF [("Total", DNumber); ("Source_File", DObject)]
            [[Num 1704412800000000000; Str "f.xlsx"]].
Proof.
  intros Hrect Hfresh Hrow Hn Hy.
  apply list_elem_of_lookup in Hrow as [i Hi].
  destruct (clean_cell P df source column_types i j n row Hrect Hfresh Hi Hn)
    as (raw & x & Hraw & Hx & Hy').
  rewrite Hy' in Hy. injection Hy as <-.
  pose proof (detected_cell_in df i j raw x Hraw Hx) as Hin.
  pose proof (fun H => infer_dtype_datetime _ _ H Hin) as Hts.
  fold (detected_dtype df j) in Hts.
  assert (n <> "Source_File") as Hsf.
  { intros ->. apply Hfresh. by apply list_elem_of_lookup_2 in Hn. }
  split; [|split; [|split; [|split; reflexivity]]];
    intros HT; unfold Interactive.normalize, Interactive.apply_type, Interactive.final_format;
    (destruct (decide (n = "Source_File")) as [|_]; [done|]); rewrite HT; cbn [fst snd].
  - unfold Pd.to_numeric. destruct (Pd.numeric_value P _ _); eauto.
  - unfold Pd.to_datetime_dtype.
    destruct (to_datetime_cases P (detected_dtype df j) (detected_cells df j)
                (detect_missing x) Hts) as [[t ->] | [Hd ->]].
    + assert (missing (Pd.replace Interactive.date_na (Str (Pd.strftime_ymd t)))
              \/ exists s, Pd.replace Interactive.date_na (Str (Pd.strftime_ymd t)) = Str s
                           /\ ymd_text s) as Hfmt.
      { destruct (replace_by_na [("<NA>", NA PdNA); ("NaT", NA PdNA); (EmptyString, NA PdNA)]
                    (Pd.strftime_ymd t)) as [H | [H _]].
        - repeat constructor.
        - left. exists PdNA. exact H.
        - right. exists (Pd.strftime_ymd t). split; [exact H | apply strftime_ymd_text]. }
      destruct (decide (detected_dtype df j = DDatetime)) as [Hd|Hd].
      * destruct (decide (DDatetime = DDatetime)); [|done]. cbn [fst Pd.dt_strftime].
        destruct Hfmt as [H|H]; [by left | right; by left].
      * destruct (mixed_offsets P (detected_cells df j)) eqn:Hmix.
        -- destruct (decide (DObject = DDatetime)); [done|]. cbn [fst Pd.replace].
           right; right. by exists t.
        -- destruct (decide (DDatetime = DDatetime)); [|done]. cbn [fst Pd.dt_strftime].
           destruct Hfmt as [H|H]; [by left | right; by left].
    + destruct (decide (detected_dtype df j = DDatetime)); [done|].
      destruct (mixed_offsets P (detected_cells df j)).
      * destruct (decide (DObject = DDatetime)); [done|]. left. by exists NaT.
      * destruct (decide (DDatetime = DDatetime)); [|done]. left. by exists NaN.
  - assert (exists s, Pd.astype_str (detect_missing x) = Str s) as [s ->].
    { destruct (detect_missing x); simpl; eauto. }
    destruct (replace_by_na [("nan", NA PdNA); ("<NA>", NA PdNA); (EmptyString, NA PdNA)] s)
      as [H | [H Hs]].
    + repeat constructor.
    + left. exists PdNA. exact H.
    + right. exists s. split; [exact H | exact Hs].
Qed.

Lemma interactive_cells_by_column_type_witness :
  missing (Str "2024-01-05")
  \/ (exists s, Str "2024-01-05" = Str s /\ ymd_text s)
  \/ (exists t, Str "2024-01-05" = Ts t
                /\ mixed_offsets Sample.parsers [Str "2024-01-05"; Str "soon"] = true).
Proof.
  pose (df := mkDF [("Facture", DObject)] [[Str "2024-01-05"]; [Str "soon"]]).
  destruct (interactive_cells_by_column_type Sample.parsers df "f.xlsx" {["Facture" := Date]}
              [Str "2024-01-05"; Str "f.xlsx"] 0 "Facture" (Str "2024-01-05"))
    as (_ & H & _).
  - repeat constructor.
  - intros Hin. apply (bool_decide_pack _) in Hin. vm_compute in Hin. done.
  - apply list_elem_of_In. vm_compute. left. reflexivity.
  - reflexivity.
  - reflexivity.
  - apply H. reflexivity.
Defined.



(** ** Concatenation of validated frames *)

Lemma union_fold_fresh (acc l : list string) :
  NoDup (acc ++ l) ->
  foldl (fun acc n => if decide (n ∈ acc) then acc else acc ++ [n]) acc l = acc ++ l.
Proof.
  revert acc; induction l as [|n l IH]; intros acc H; simpl; [by rewrite app_nil_r|].
  pose proof H as H'. apply NoDup_app in H' as (_ & Hd & _).
  destruct (decide (n ∈ acc)) as [Hin|_].
  - destruct (Hd n Hin). by left.
  - rewrite IH; rewrite <- app_assoc; done.
Qed.

Lemma union_fold_known (acc l : list string) :
  Forall (fun n => n ∈ acc) l ->
  foldl (fun acc n => if decide (n ∈ acc) then acc else acc ++ [n]) acc l = acc.
Proof.
  induction 1 as [|n l Hn Hl IH]; simpl; [done|].
  by destruct (decide (n ∈ acc)).
Qed.

Lemma union_names_same (dfs : list DataFrame) (ns : list string) :
  dfs <> [] ->
  NoDup ns ->
  Forall (fun df => DF.names df = ns) dfs ->
  Table.union_names dfs = ns.
Proof.
  intros Hne Hnd Hall. unfold Table.union_names.
  destruct dfs as [|df dfs]; [done|].
  apply Forall_cons in Hall as [Hdf Hall].
  cbn [map mjoin list_join]. rewrite Hdf, foldl_app.
  rewrite (union_fold_fresh [] ns) by done. simpl.
  apply union_fold_known. clear -Hall.
  induction Hall as [|d dfs Hd Hall IH]; simpl; [constructor|].
  apply Forall_app. split; [|exact IH].
  rewrite Hd. by apply Forall_forall.
Qed.

Lemma index_of_NoDup (ns : list string) (j : nat) (n : string) :
  NoDup ns -> ns !! j = Some n -> DF.index_of n ns = Some j.
Proof.
  intros Hnd Hj. destruct (DF.index_of n ns) as [j'|] eqn:E.
  - f_equal. apply index_of_Some in E. by apply (NoDup_lookup ns j' j n).
  - apply index_of_None in E. destruct E. by apply list_elem_of_lookup_2 in Hj.
Qed.

Lemma reindex_same (df : DataFrame) :
  NoDup (DF.names df) -> DF.rectangular df ->
  Table.reindex (DF.names df) df = df_rows df.
Proof.
  intros Hnd Hrect. unfold Table.reindex.
  rewrite <- (map_id (df_rows df)) at 2. apply map_ext_in. intros r Hr.
  assert (length r = length (DF.names df)) as Hlen.
  { rewrite names_length. apply (proj1 (Forall_forall _ _) Hrect). by apply list_elem_of_In. }
  apply list_eq. intros j. rewrite lookup_map.
  destruct (DF.names df !! j) as [n|] eqn:E; simpl.
  - unfold DF.cell_at. rewrite (index_of_NoDup _ _ _ Hnd E). simpl.
    pose proof (lookup_lt_Some _ _ _ E) as Hj.
    destruct (lookup_lt_is_Some_2 r j ltac:(lia)) as [x Hx]. by rewrite Hx.
  - apply lookup_ge_None in E. symmetry. apply lookup_ge_None. lia.
Qed.

(** Frames with the same, distinct column names are put one under the
    other as they are. *)
Lemma concat_same_names (dfs : list DataFrame) (ns : list string) :
  dfs <> [] ->
  NoDup ns ->
  Forall (fun df => DF.names df = ns /\ DF.rectangular df) dfs ->
  DF.names (Table.concat dfs) = ns
  /\ df_rows (Table.concat dfs) = mjoin (map df_rows dfs).
Proof.
  intros Hne Hnd Hall.
  assert (Table.union_names dfs = ns) as Hu.
  { apply union_names_same; [done | done |]. eapply Forall_impl; [exact Hall|]. by intros d [? _]. }
  unfold Table.concat. rewrite Hu. split.
  - unfold DF.names. simpl. rewrite <- list_fmap_compose.
    change (fst ∘ (fun n => (n, Table.concat_dtype dfs n))) with (@id string).
    apply list_fmap_id.
  - simpl. f_equal. apply map_ext_in. intros df Hdf.
    apply list_elem_of_In in Hdf.
    destruct (proj1 (Forall_forall _ _) Hall df Hdf) as [Hn Hr].
    rewrite <- Hn. apply reindex_same; [by rewrite Hn | done].
Qed.

Lemma clean_names_rectangular (P : Parsers) (df : DataFrame) (source : string)
    (m : gmap string ColumnType) :
  DF.rectangular df ->
  "Source_File" ∉ DF.names df ->
  DF.names (Interactive.clean_and_prepare_df P df source m) = DF.names df ++ ["Source_File"]
  /\ DF.rectangular (Interactive.clean_and_prepare_df P df source m).
Proof.
  intros Hrect Hfresh. unfold Interactive.clean_and_prepare_df.
  set (df2 := DF.convert_series _ (DF.applymap detect_missing df)).
  destruct (interactive_trim_prefix df2) as [k ->].
  assert (DF.rectangular (DF.iloc_to k df2)) as Hr.
  { by apply rectangular_iloc_to, rectangular_convert_series, rectangular_applymap. }
  assert (DF.names (DF.iloc_to k df2) = DF.names df) as Hn.
  { unfold df2. by rewrite names_iloc_to, names_convert_series, names_applymap. }
  split.
  - rewrite names_convert_columns.
    rewrite (proj1 (names_assign_scalar_fresh _ _ _ _ ltac:(by rewrite Hn))). by rewrite Hn.
  - by apply rectangular_convert_columns, assign_scalar_rectangular.
Qed.

(** X18. When the standard columns are distinct and none is called
    Source_File, the frames the processing loop has kept all have the
    standard columns followed by Source_File, so that their concatenation
    realigns nothing: the consolidated frame has those columns, and its rows
    are the rows of the kept frames, file after file in upload order and in
    the order of each file, before the last replacement of sentinel texts. *)
Theorem consolidated_frame_stacks_cleaned_rows (P : Parsers) (st : App.session_state)
    (out : DataFrame) :
  NoDup (App.column_names_standard st) ->
  "Source_File" ∉ App.column_names_standard st ->
  Forall rectangular_content (App.excel_files_content st) ->
  App.processed_df P st = Some out ->
  let all_dfs := (App.process_all P st).1 in
  out = DF.convert_columns App.final_pass (Table.concat all_dfs)
  /\ DF.names out = App.column_names_standard st ++ ["Source_File"]
  /\ df_rows (Table.concat all_dfs) = mjoin (map df_rows all_dfs)
  /\ length (df_rows out) = sum_list (map (fun df => length (df_rows df)) all_dfs).
Proof.
  intros Hnd Hsf Hrect Hout all_dfs.
  assert (Forall (fun df => DF.names df = App.column_names_standard st ++ ["Source_File"]
                            /\ DF.rectangular df) all_dfs) as Hall.
  { unfold all_dfs, App.process_all. rewrite process_fold. simpl.
    apply Forall_forall. intros df Hdf.
    apply list_elem_of_omap in Hdf as (f & Hf & Hacc).
    pose proof (proj1 (Forall_forall _ _) Hrect f Hf) as Hrf.
    unfold accepted, rectangular_content in *.
    destruct (App.uf_content f) as [|raw]; [done|].
    destruct (App.validate _ _) eqn:Hv; [|done].
    apply bool_decide_eq_true in Hv. injection Hacc as <-.
    rewrite <- Hv in *. by apply clean_names_rectangular. }
  assert (NoDup (App.column_names_standard st ++ ["Source_File"])) as Hnd'.
  { apply NoDup_app. split; [done|]. split; [|apply NoDup_singleton].
    intros x Hx Hx'. apply list_elem_of_singleton in Hx'. by subst. }
  unfold App.processed_df in Hout. fold all_dfs in Hout.
  destruct all_dfs as [|d ds] eqn:E; [done|]. injection Hout as <-.
  destruct (concat_same_names (d :: ds) _ ltac:(done) Hnd' Hall) as [Hn Hr].
  split; [done|]. split; [by rewrite names_convert_columns|]. split; [exact Hr|].
  cbn [df_rows DF.convert_columns]. rewrite length_map, Hr, length_join.
  by rewrite <- list_fmap_compose.
Qed.

Lemma consolidated_frame_stacks_cleaned_rows_witness :
  let a := App.mkFile "a.xlsx" (ReadOk (mkDF [("Nom", DObject)] [[Str "x"]; [Str "y"]])) in
  let b := App.mkFile "b.xlsx" (ReadOk (mkDF [("Nom", DObject)] [[Str "z"]])) in
  let c := App.mkFile "c.xlsx" (ReadOk (mkDF [("Autre", DObject)] [[Str "w"]])) in
  exists out, App.processed_df Sample.parsers (App.handle_upload [a; b; c]) = Some out
              /\ DF.names out = ["Nom"; "Source_File"]
              /\ length (df_rows out) = 3.
Proof.
  intros a b c.
  set (out := DF.convert_columns App.final_pass
                (Table.concat (App.process_all Sample.parsers (App.handle_upload [a; b; c])).1)).
  exists out. split; [reflexivity|].
  destruct (consolidated_frame_stacks_cleaned_rows Sample.parsers (App.handle_upload [a; b; c])
              out) as (_ & Hn & _ & Hl).
  - repeat constructor. intros H. by apply elem_of_nil in H.
  - intros Hin. apply (bool_decide_pack _) in Hin. vm_compute in Hin. done.
  - repeat constructor.
  - reflexivity.
  - split; [exact Hn | exact Hl].
Defined.

(** ** The frame the batch run hands to [to_sql] *)

Lemma concat_rectangular (dfs : list DataFrame) : DF.rectangular (Table.concat dfs).
Proof.
  unfold DF.rectangular, Table.concat. simpl. rewrite length_map.
  apply Forall_forall. intros r Hr. apply list_elem_of_join in Hr as (rows & Hr & Hrows).
  apply list_elem_of_In, in_map_iff in Hrows as (df & <- & _).
  unfold Table.reindex in Hr. apply list_elem_of_In, in_map_iff in Hr as (r0 & <- & _).
  by rewrite length_map.
Qed.

Lemma ymd_text_not_nan (s : string) : ymd_text s -> s <> "nan".
Proof. intros (y1 & y2 & y3 & y4 & m1 & m2 & d1 & d2 & -> & _). discriminate. Qed.

Lemma final_cell_not_nan (col_name : string) (d : dtype) (x : cell) :
  (BatchRun.dates_to_string col_name d).1 (BatchRun.standardize_null x) <> Str "nan".
Proof.
  assert (BatchRun.standardize_null x = NA PyNone
          \/ (BatchRun.standardize_null x = x /\ x <> Str "nan" /\ Pd.isna x = false)) as Hs.
  { unfold BatchRun.standardize_null. destruct x as [k|s|n|t]; simpl.
    - by left.
    - destruct (String.eqb s "nan") eqn:E; simpl; [by left|].
      right. split; [done|]. split; [|done]. apply String.eqb_neq in E. congruence.
    - right. done.
    - right. done. }
  unfold BatchRun.dates_to_string.
  destruct (decide (d = DDatetime)) as [H1|H1]; [|destruct (decide (d = DObject)) as [H2|H2]];
    simpl; destruct Hs as [-> | (-> & Hx & _)]; try done;
    destruct x as [k|s|z|t]; simpl; try done;
    intros [= H]; by apply (ymd_text_not_nan _ (strftime_ymd_text t)).
Qed.

(** X19. Whatever the files, the frame the batch run hands to [to_sql]
    holds no cell that is the text "nan": that text, which [astype(str)]
    makes of NaN, is replaced by None before the dates are printed. *)
Theorem batch_run_writes_no_nan_text (P : Parsers)
    (excel_files : list (string * read_result)) (final_df : DataFrame)
    (row : list cell) (y : cell) :
  BatchRun.final_df P excel_files = Some final_df ->
  row ∈ df_rows final_df ->
  y ∈ row ->
  y <> Str "nan".
Proof.
  unfold BatchRun.final_df. destruct (omap id _) as [|d ds]; [done|].
  intros [= <-] Hrow Hy. rewrite convert_columns_twice in Hrow.
  pose proof (concat_rectangular (d :: ds)) as Hrect.
  set (c := Table.concat (d :: ds)) in *.
  cbn [df_rows DF.convert_columns] in Hrow.
  apply list_elem_of_In, in_map_iff in Hrow as (r & <- & Hr).
  apply list_elem_of_lookup in Hy as [j Hj].
  rewrite apply_row_lookup, lookup_map in Hj.
  assert (length r = length (df_columns c)) as Hlen.
  { apply (proj1 (Forall_forall _ _) Hrect). by apply list_elem_of_In. }
  destruct (df_columns c !! j) as [[n dt]|] eqn:E; simpl in Hj.
  - destruct (r !! j) as [x|]; [|done]. injection Hj as <-. apply final_cell_not_nan.
  - apply lookup_ge_None in E. apply lookup_lt_Some in Hj. lia.
Qed.

Lemma batch_run_writes_no_nan_text_witness :
  let raw := mkDF [("Date échéance", DObject)] [[Str "soon"]; [Str "2024-01-05"]] in
  NA PyNone <> Str "nan".
Proof.
  intros raw.
  apply (batch_run_writes_no_nan_text Sample.parsers [("f.xlsx", ReadOk raw)]
           (mkDF [("Date échéance", DObject); ("Source_File", DObject)]
                 [[NA PyNone; Str "f.xlsx"]; [Str "2024-01-05"; Str "f.xlsx"]])
           [NA PyNone; Str "f.xlsx"]).
  - reflexivity.
  - by left.
  - by left.
Defined.

(** ** A sheet without data *)

(** A row of blanks is a row of nulls after step 2, whatever the types. *)
Lemma step2_rows_all_na (P : Parsers) (m : gmap string ColumnType) (df : DataFrame) :
  Forall (Forall missing_like) (df_rows df) ->
  Forall fully_blank
    (df_rows (DF.convert_series (Interactive.apply_type P m) (DF.applymap detect_missing df))).
Proof.
  intros Hblank. rewrite convert_series_rows. cbn [df_rows DF.applymap].
  apply Forall_lookup. intros i row Hrow. rewrite !lookup_map in Hrow.
  destruct (df_rows df !! i) as [raw|] eqn:Hraw; [|done].
  apply (inj Some) in Hrow. subst row.
  pose proof (Forall_lookup_1 _ _ _ _ Hblank Hraw) as Hr.
  apply Forall_lookup. intros j y Hy.
  rewrite apply_row_lookup, list_lookup_imap, lookup_map in Hy.
  destruct (raw !! j) as [x|] eqn:Hx; [|by destruct (_ <$> _)].
  pose proof (detect_missing_like _ (Forall_lookup_1 _ _ _ _ Hr Hx)) as Hdet.
  pose proof (detected_cell_in df i j raw x Hraw Hx) as Hin.
  destruct (df_columns (DF.applymap detect_missing df) !! j) as [c|] eqn:Hc; simpl in Hy.
  - injection Hy as <-. rewrite (detected_column_dtype _ _ _ Hc).
    apply normalize_of_na; [done|].
    unfold detected_dtype. rewrite Hdet in Hin.
    by rewrite (infer_dtype_with_na _ _ Hin).
  - injection Hy as <-. rewrite Hdet. by exists PdNA.
Qed.

Lemma assign_scalar_length (name : string) (v : cell) (d : dtype) (df : DataFrame) :
  length (df_rows (DF.assign_scalar name v d df)) = length (df_rows df).
Proof.
  unfold DF.assign_scalar. destruct (DF.index_of _ _); simpl; by rewrite length_map.
Qed.

(** X20. On a sheet that has a column and whose cells are all null, blank
    or "n/a", the interactive routine returns a frame without rows, and the
    batch routine returns a frame with every row of the sheet: its trimmer
    cuts nothing when no row is left to end at. *)
Theorem sheet_without_data (P : Parsers) (df : DataFrame) (source : string)
    (column_types : gmap string ColumnType) :
  df_columns df <> [] ->
  Forall (Forall missing_like) (df_rows df) ->
  df_rows (Interactive.clean_and_prepare_df P df source column_types) = []
  /\ forall out, Batch.process_file P source (ReadOk df) = Some out ->
                 length (df_rows out) = length (df_rows df).
Proof.
  intros Hcols Hblank. split.
  - unfold Interactive.clean_and_prepare_df.
    set (df2 := DF.convert_series _ (DF.applymap detect_missing df)).
    assert (Forall fully_blank (df_rows df2)) as Hb by by apply step2_rows_all_na.
    assert (df_rows (Interactive.trim df2) = []) as Ht.
    { destruct (interactive_trim_cases df2) as [[He ->] | [(_ & _ & ->) | (_ & k & _ & Hk & _)]].
      - unfold DF.empty in He. destruct (df_columns df2) eqn:E.
        + unfold df2 in E. rewrite convert_series_columns in E.
          apply (f_equal length) in E. rewrite length_imap, detected_length in E.
          by destruct (df_columns df).
        + by destruct (df_rows df2).
      - done.
      - destruct Hk as [(r & Hr & Hn) _]. destruct Hn.
        by apply (Forall_lookup_1 _ _ _ _ Hb Hr). }
    cbn [df_rows DF.convert_columns].
    pose proof (assign_scalar_length "Source_File" (Str (PyStr.basename source)) DObject
                  (Interactive.trim df2)) as Hl.
    rewrite Ht in Hl. destruct (df_rows (DF.assign_scalar _ _ _ _)); [done | done].
  - intros out Hout. apply process_file_conversion in Hout as ->.
    rewrite convert_series_rows, length_map. unfold Batch.prepare.
    set (df1 := DF.applymap detect_missing df).
    assert (Batch.trim df1 = df1) as ->.
    { apply batch_trim_all_blank. unfold df1. cbn [df_rows DF.applymap].
      apply Forall_forall. intros r Hr.
      apply list_elem_of_In, in_map_iff in Hr as (r0 & <- & Hr0).
      intros j c x _ Hx. rewrite lookup_map in Hx.
      destruct (r0 !! j) as [x0|] eqn:E; [|done]. injection Hx as <-.
      assert (missing (detect_missing x0)) as Hm.
      { exists PdNA. apply detect_missing_like.
        apply (Forall_lookup_1 _ _ _ _ (proj1 (Forall_forall _ _) Hblank r0
                                          ltac:(by apply list_elem_of_In)) E). }
      split; intros _; [done | by left]. }
    rewrite assign_scalar_length. unfold df1. cbn [df_rows DF.applymap]. by rewrite length_map.
Qed.

Lemma sheet_without_data_witness :
  let df := mkDF [("Nom", DObject)] [[Str " "]; [NA NaN]] in
  df_rows (Interactive.clean_and_prepare_df Sample.parsers df "f.xlsx" {["Nom" := Text]}) = [].
Proof.
  intros df.
  apply (sheet_without_data Sample.parsers df "f.xlsx" {["Nom" := Text]}).
  - discriminate.
  - repeat constructor.
Defined.

(** ** Columns the batch trimmer does not look at *)

(** X21. The batch trimmer looks at the object and the number columns only:
    a row is blank for it whatever its datetime columns hold. A last row
    whose other cells are Missing, or 0 in a number column, is therefore cut
    off when some row before it is not blank. On a sheet whose last row
    holds a date and nothing else the batch routine returns the row before
    it, and the interactive routine, for which a date is not Missing,
    returns both rows. *)
Theorem batch_trim_skips_datetime_columns (P : Parsers) (df : DataFrame)
    (rows : list (list cell)) (r : list cell) :
  df_rows df = rows ++ [r] ->
  (forall j c x, df_columns df !! j = Some c -> r !! j = Some x ->
     c.2 = DDatetime \/ missing x \/ (c.2 = DNumber /\ x = Num 0)) ->
  ~ Forall (batch_blank (df_columns df)) (df_rows df) ->
  df_rows (Batch.trim df) `prefix_of` rows
  /\ (let sheet := mkDF [("Jour", DObject); ("Nom", DObject)]
                        [[Ts (mkTs 2024 1 5 0 0 0); Str "x"];
                         [Ts (mkTs 2024 1 6 0 0 0); NA NaN]] in
      Batch.process_file P "f.xlsx" (ReadOk sheet)
      = Some (mkDF [("Jour", DDatetime); ("Nom", DObject); ("Source_File", DObject)]
                   [[Ts (mkTs 2024 1 5 0 0 0); Str "x"; Str "f.xlsx"]])
      /\ Interactive.clean_and_prepare_df P sheet "f.xlsx" {["Jour" := Date; "Nom" := Text]}
         = mkDF [("Jour", DObject); ("Nom", DObject); ("Source_File", DObject)]
                [[Str "2024-01-05"; Str "x"; Str "f.xlsx"];
                 [Str "2024-01-06"; NA PdNA; Str "f.xlsx"]]).
Proof.
  intros Hrows Hr Hnot. split; [|split; reflexivity].
  assert (batch_blank (df_columns df) r) as Hblank.
  { intros j c x Hc Hx. destruct (Hr j c x Hc Hx) as [Hd | [Hm | [Hn ->]]].
    - split; intros Hd'; congruence.
    - split; intros _; [done | by left].
    - split; [intros Hd'; congruence | intros _; by right]. }
  destruct (batch_trim_cases df) as [[Hb _] | (k & _ & [(rk & Hrk & Hnk) _] & ->)]; [done|].
  cbn [df_rows DF.iloc_to]. rewrite Hrows in *.
  assert (k < length rows) as Hk.
  { destruct (decide (k < length rows)) as [|Hge]; [done|].
    rewrite lookup_app_r in Hrk by lia.
    destruct (k - length rows) as [|k'] eqn:E; simpl in Hrk; [|done].
    injection Hrk as <-. done. }
  rewrite take_app_le by lia. apply prefix_take.
Qed.

Lemma batch_trim_skips_datetime_columns_witness :
  let df := mkDF [("Jour", DDatetime); ("Total", DNumber)]
                 [[Ts (mkTs 2024 1 5 0 0 0); Num 5]; [Ts (mkTs 2024 1 6 0 0 0); Num 0]] in
  df_rows (Batch.trim df) `prefix_of` [[Ts (mkTs 2024 1 5 0 0 0); Num 5]].
Proof.
  intros df.
  apply (batch_trim_skips_datetime_columns Sample.parsers df
           [[Ts (mkTs 2024 1 5 0 0 0); Num 5]] [Ts (mkTs 2024 1 6 0 0 0); Num 0]).
  - reflexivity.
  - intros [|[|j]] c x Hc Hx; [| |done].
    + injection Hc as <-. by left.
    + injection Hc as <-. injection Hx as <-. right; right. done.
  - intros H. apply (Forall_lookup_1 _ _ 0 [Ts (mkTs 2024 1 5 0 0 0); Num 5]) in H; [|done].
    apply batch_blank_row_spec in H. done.
Defined.
